(** * GP4U provider agent: job runner, telemetry collector and supervisor

    A shallow embedding of [apps/provider-agent/src/job_runner.py],
    [telemetry.py] and [agent.py].

    Conventions of the embedding.
    - A Python [str] is a [string]; each character is one code point in the
      range U+0000..U+00FF (the Latin-1 block), so that [str.isalnum],
      [str.isspace] and [str.lower] are the tables of the Unicode database
      restricted to that block.
    - A Python [int] is a [Z].
    - A Python [float] is an IEEE-754 binary64 value, a [spec_float] at
      precision 53 and maximal exponent 1024, with the correctly rounded
      operations of [SpecFloat].
    - A call that leaves the process (docker, HTTP, pynvml, psutil, the
      clock) takes its outcome from an explicit environment value and is
      recorded as an [Event] of a trace.
    - Threads are not interleaved: the calling thread of a run and its
      watchdog thread each have a trace of their own, and the iterations
      the watchdog gets to carry out are part of the environment. *)

From Stdlib Require Import ZArith NArith QArith Qround List Bool Ascii String Lia.
From Stdlib Require Import Floats.SpecFloat.
From stdpp Require Import gmap strings list fin_maps.

Local Open Scope Z_scope.

(** ** Python strings *)

Module PyStr.

Fixpoint filter (p : ascii -> bool) (s : string) : string :=
  match s with
  | EmptyString => EmptyString
  | String c r => if p c then String c (filter p r) else filter p r
  end.

Fixpoint forallb (p : ascii -> bool) (s : string) : bool :=
  match s with
  | EmptyString => true
  | String c r => p c && forallb p r
  end.

Fixpoint map (f : ascii -> ascii) (s : string) : string :=
  match s with
  | EmptyString => EmptyString
  | String c r => String (f c) (map f r)
  end.

(** [s[:n]] *)
Fixpoint take (n : nat) (s : string) : string :=
  match n, s with
  | O, _ => EmptyString
  | S _, EmptyString => EmptyString
  | S k, String c r => String c (take k r)
  end.

(** [s[n:]] *)
Fixpoint drop (n : nat) (s : string) : string :=
  match n, s with
  | O, _ => s
  | S _, EmptyString => EmptyString
  | S k, String _ r => drop k r
  end.

(** [s[-n:]] for [n > 0]: the last [n] characters, the whole of [s] when
    it is shorter. *)
Definition last (n : nat) (s : string) : string :=
  drop (String.length s - n) s.

Definition rev (s : string) : string :=
  string_of_list_ascii (List.rev (list_ascii_of_string s)).

Fixpoint dropwhile (p : ascii -> bool) (s : string) : string :=
  match s with
  | EmptyString => EmptyString
  | String c r => if p c then dropwhile p r else s
  end.

(** [s.startswith(p)] *)
Definition startswith (p s : string) : bool := String.prefix p s.

(** [s.replace(c, "")] for a one-character [c]. *)
Definition remove (c : ascii) (s : string) : string :=
  filter (fun d => negb (Ascii.eqb d c)) s.

Definition code (c : ascii) : N := N_of_ascii c.

Definition in_range (lo hi : N) (c : ascii) : bool :=
  ((lo <=? code c) && (code c <=? hi))%N.

Definition is_ascii (c : ascii) : bool := (code c <? 128)%N.

Definition is_ascii_digit (c : ascii) : bool := in_range 48 57 c.
Definition is_ascii_upper (c : ascii) : bool := in_range 65 90 c.
Definition is_ascii_lower (c : ascii) : bool := in_range 97 122 c.

(** The class [[A-Za-z0-9_]] of the specification. *)
Definition is_word_char (c : ascii) : bool :=
  is_ascii_upper c || is_ascii_lower c || is_ascii_digit c
  || (code c =? 95)%N.

(** [c.isalnum()] on U+0000..U+00FF: the ASCII letters and digits, the
    ordinal indicators (U+00AA, U+00BA), the micro sign (U+00B5), the
    superscript digits (U+00B2, U+00B3, U+00B9), the vulgar fractions
    (U+00BC..U+00BE) and the Latin-1 letters (U+00C0..U+00FF without the
    multiplication and division signs U+00D7 and U+00F7). *)
Definition isalnum (c : ascii) : bool :=
  is_ascii_digit c || is_ascii_upper c || is_ascii_lower c
  || (code c =? 170)%N || in_range 178 179 c || (code c =? 181)%N
  || in_range 185 186 c || in_range 188 190 c
  || in_range 192 214 c || in_range 216 246 c || in_range 248 255 c.

(** [c.isspace()] on U+0000..U+00FF. *)
Definition isspace (c : ascii) : bool :=
  in_range 9 13 c || in_range 28 32 c
  || (code c =? 133)%N || (code c =? 160)%N.

(** [c.lower()] on U+0000..U+00FF: every upper-case letter of the block is
    32 below its lower-case form. *)
Definition lower_char (c : ascii) : ascii :=
  if is_ascii_upper c || in_range 192 214 c || in_range 216 222 c
  then ascii_of_N (code c + 32) else c.

Definition lower (s : string) : string := map lower_char s.

(** [s.strip()] *)
Definition strip (s : string) : string :=
  rev (dropwhile isspace (rev (dropwhile isspace s))).

(** Decimal digits of a positive number, least significant first; the
    fuel is the number of binary digits, which bounds the decimal ones. *)
Fixpoint digits_rev (fuel : nat) (n : N) : list ascii :=
  match fuel with
  | O => nil
  | S k =>
      let d := ascii_of_N (48 + n mod 10) in
      if (n <? 10)%N then d :: nil else d :: digits_rev k (n / 10)%N
  end.

Definition of_N (n : N) : string :=
  string_of_list_ascii (List.rev (digits_rev (S (N.to_nat (N.log2 n))) n)).

(** [str(z)] for an [int]. *)
Definition of_Z (z : Z) : string :=
  match z with
  | Zneg p => String "-" (of_N (Npos p))
  | _ => of_N (Z.to_N z)
  end.

End PyStr.

(** ** Python floats (IEEE-754 binary64) *)

Module PyFloat.

Definition prec : Z := 53.
Definition emax : Z := 1024.

Definition float := spec_float.

Definition mul : float -> float -> float := SFmul prec emax.
Definition add : float -> float -> float := SFadd prec emax.
Definition div : float -> float -> float := SFdiv prec emax.
Definition leb : float -> float -> bool := SFleb.

(** [float(z)] for an [int] within the range of binary64. *)
Definition of_Z (z : Z) : float := binary_normalize prec emax z 0 false.

(** The double nearest to [n/d], for positive [n] and [d], with the sign
    [s]: the rounding step of a division, applied to integers of any
    size. *)
Definition of_ratio (s : bool) (n d : positive) : float :=
  let '(m, e, l) := SFdiv_core_binary prec emax (Zpos n) 0 (Zpos d) 0 in
  binary_round_aux prec emax s m e l.

(** The literal [1.1]. *)
Definition f1_1 : float := S754_finite false 4953959590107546 (-52).

(** [int(x)]: truncation toward zero; [None] stands for the
    [OverflowError] (infinities) and [ValueError] (NaN) of Python. *)
Definition to_Z (x : float) : option Z :=
  match x with
  | S754_zero _ => Some 0
  | S754_finite s m e =>
      let a := match e with
               | Zneg k => Zpos m / 2 ^ Zpos k
               | _ => Zpos m * 2 ^ e
               end in
      Some (if s then - a else a)
  | _ => None
  end.

(** The exact rational value of a finite float. *)
Definition to_Q (x : float) : option Q :=
  match x with
  | S754_zero _ => Some 0%Q
  | S754_finite s m e =>
      let a := match e with
               | Zneg k => Qmake (Zpos m) (2 ^ k)%positive
               | _ => inject_Z (Zpos m * 2 ^ e)
               end in
      Some (if s then Qopp a else a)
  | _ => None
  end.

(** A float of sign [s] that is not a NaN. *)
Definition has_sign (s : bool) (r : float) : Prop :=
  r = S754_zero s \/ r = S754_infinity s
  \/ exists m e, r = S754_finite s m e.

(** Truncation of a rational toward zero. *)
Definition Qtrunc (q : Q) : Z :=
  if Qle_bool 0 q then Qfloor q else Qceiling q.

(** Round half to even of the non-negative rational [n/d]. *)
Definition round_half_even (n d : Z) : Z :=
  let q := n / d in
  let r := n mod d in
  match (2 * r ?= d) with
  | Lt => q
  | Gt => q + 1
  | Eq => if Z.even q then q else q + 1
  end.

(** [round(x, nd)] for [nd >= 0]: the decimal with [nd] places nearest to
    the exact value of [x], ties to even, converted back to the nearest
    double; a non-finite [x] is returned as it is, and a value that
    rounds to zero keeps the sign of [x]. *)
Definition round (x : float) (nd : nat) : float :=
  match x with
  | S754_finite s m e =>
      let p := 10 ^ Z.of_nat nd in
      let k := match e with
               | Zneg j => round_half_even (Zpos m * p) (2 ^ Zpos j)
               | _ => Zpos m * 2 ^ e * p
               end in
      match k with
      | Zpos kp => of_ratio s kp (Z.to_pos p)
      | _ => S754_zero s
      end
  | _ => x
  end.

End PyFloat.

(** ** Values and events *)

(** The values that occur in the JSON bodies sent to the control plane. *)
Inductive PyVal : Type :=
| VInt (z : Z)
| VFloat (x : PyFloat.float)
| VStr (s : string)
| VBool (b : bool)
| VStrList (l : list string)
| VEmptyDict.

Abbreviation pydict := (gmap string PyVal).

(** What leaves the process. *)
Inductive Event : Type :=
| EvDockerPull (image_ref : string)
| EvMkWorkdir (workdir : string)
| EvDownload (url dest : string)
| EvWatchdogStart
| EvTelemetry (payload : pydict)
| EvDockerRun (cmd : list string) (timeout : Z)
| EvDockerKill (name : string)
| EvUpload (output_dir : string)
| EvRmWorkdir (workdir : string)
| EvPoll
| EvAck (job_id : string)
| EvSpawn (job_id : string)
| EvPatch (job_id status : string) (energy_kwh : PyFloat.float)
| EvHeartbeat (active_jobs : nat)
| EvSleep (seconds : Z).

Definition trace := list Event.

(** Recognisers of the events counted below. *)
Definition is_ack (e : Event) : bool :=
  match e with EvAck _ => true | _ => false end.

Definition is_spawn (e : Event) : bool :=
  match e with EvSpawn _ => true | _ => false end.

Definition is_patch (e : Event) : bool :=
  match e with EvPatch _ _ _ => true | _ => false end.

Definition is_heartbeat (e : Event) : bool :=
  match e with EvHeartbeat _ => true | _ => false end.

Definition is_docker_run (e : Event) : bool :=
  match e with EvDockerRun _ _ => true | _ => false end.

Definition is_telemetry (e : Event) : bool :=
  match e with EvTelemetry _ => true | _ => false end.

Definition count_events (p : Event -> bool) (t : trace) : nat :=
  length (List.filter p t).

(** ** telemetry.py *)

Module Telemetry.

Import PyFloat.

Record NetCounters := { bytes_sent : Z; bytes_recv : Z }.

Record TelemetryCollector := {
  job_id : string;
  node_id : string;
  gpu_id : string;
  gpu_index : Z;
  subject_id : string;
  declared_framework : string;
  vram_allocated_gb : float;
  power_cap_watts : float;
  api_url : string;
  api_token : string;
  (* state accumulated across samples *)
  _start_time : float;
  _energy_joules : float;
  _prev_net : option NetCounters
}.

Definition with_energy (c : TelemetryCollector) (e : float) :=
  {| job_id := job_id c; node_id := node_id c; gpu_id := gpu_id c;
     gpu_index := gpu_index c; subject_id := subject_id c;
     declared_framework := declared_framework c;
     vram_allocated_gb := vram_allocated_gb c;
     power_cap_watts := power_cap_watts c;
     api_url := api_url c; api_token := api_token c;
     _start_time := _start_time c; _energy_joules := e;
     _prev_net := _prev_net c |}.

Definition with_prev_net (c : TelemetryCollector) (n : NetCounters) :=
  {| job_id := job_id c; node_id := node_id c; gpu_id := gpu_id c;
     gpu_index := gpu_index c; subject_id := subject_id c;
     declared_framework := declared_framework c;
     vram_allocated_gb := vram_allocated_gb c;
     power_cap_watts := power_cap_watts c;
     api_url := api_url c; api_token := api_token c;
     _start_time := _start_time c; _energy_joules := _energy_joules c;
     _prev_net := Some n |}.

(** *** What the sample sources answer *)

(** One reading of pynvml: utilisation in percent, memory used in bytes,
    power in milliwatts, temperature, and the throttle reasons ([None]
    when that one query raises). *)
Record GpuReading := {
  util_gpu : Z;
  mem_used : Z;
  power_mw : Z;
  temperature : Z;
  throttle_reasons : option Z
}.

Record Conn := { status : string; raddr : option (string * Z) }.

Record NetReading := { conns : list Conn; counters : NetCounters }.

(** One sample; [None] in a component is an exception raised inside the
    [try] of the matching [_collect_*] method. *)
Record Sample := {
  s_gpu : option GpuReading;
  s_net : option NetReading;
  s_procs : option (list string);
  s_now : float;
  s_timestamp : string
}.

(** *** The signals of one sample *)

Record GpuSignals := {
  gpu_utilization_pct : Z;
  vram_used_gb : float;
  g_vram_allocated_gb : float;
  power_draw_watts : float;
  g_power_cap_watts : float;
  temperature_c : Z;
  thermal_throttling : bool
}.

Record NetSignals := {
  outbound_bytes_per_sec : Z;
  inbound_bytes_per_sec : Z;
  active_connections : Z;
  unique_dst_ips : Z;
  dns_queries_per_min : Z;
  suspicious_destinations : list string
}.

Record ProcSignals := {
  process_count : Z;
  unexpected_processes : list string;
  privilege_escalation_attempts : Z;
  filesystem_writes_per_sec : float
}.

Definition zero : float := S754_zero false.

(** [nvmlDeviceGetPowerUsage(handle) / 1000.0], milliwatts to watts. *)
Definition power_watts (g : GpuReading) : float :=
  div (of_Z (power_mw g)) (of_Z 1000).

Definition _collect_gpu (c : TelemetryCollector) (r : option GpuReading)
  : GpuSignals * TelemetryCollector :=
  match r with
  | Some g =>
      let power := power_watts g in
      let throttle := match throttle_reasons g with
                      | Some t => negb (t =? 0)
                      | None => false
                      end in
      let vram_used := round (div (of_Z (mem_used g)) (of_Z (1024 ^ 3))) 2 in
      let c' := with_energy c (add (_energy_joules c) (mul power (of_Z 10))) in
      ({| gpu_utilization_pct := util_gpu g;
          vram_used_gb := vram_used;
          g_vram_allocated_gb := vram_allocated_gb c;
          power_draw_watts := round power 1;
          g_power_cap_watts := power_cap_watts c;
          temperature_c := temperature g;
          thermal_throttling := throttle |}, c')
  | None =>
      ({| gpu_utilization_pct := 0;
          vram_used_gb := zero;
          g_vram_allocated_gb := vram_allocated_gb c;
          power_draw_watts := zero;
          g_power_cap_watts := power_cap_watts c;
          temperature_c := 0;
          thermal_throttling := false |}, c)
  end.

(** What holds of the accumulator throughout: it is a valid binary64
    value, not a NaN, and of positive sign. *)
Definition energy_ok (e : float) : Prop :=
  valid_binary prec emax e = true /\ has_sign false e.

Definition _is_suspicious (ip : string) : bool := false.

Definition established (k : Conn) : bool := String.eqb (status k) "ESTABLISHED".

Definition remote_ip (k : Conn) : option string := fst <$> raddr k.

Definition is_dns (k : Conn) : bool :=
  match raddr k with
  | Some (_, port) => port =? 53
  | None => false
  end.

Definition _collect_network (c : TelemetryCollector) (r : option NetReading)
  : NetSignals * TelemetryCollector :=
  match r with
  | Some n =>
      let active := List.filter established (conns n) in
      let dst_ips : gset string := list_to_set (omap remote_ip active) in
      let suspicious := List.filter _is_suspicious (elements dst_ips) in
      let net := counters n in
      let prev := match _prev_net c with Some p => p | None => net end in
      let delta_out := Z.max 0 (bytes_sent net - bytes_sent prev) in
      let delta_in := Z.max 0 (bytes_recv net - bytes_recv prev) in
      let dns_conns := List.filter is_dns (conns n) in
      ({| outbound_bytes_per_sec := delta_out / 10;
          inbound_bytes_per_sec := delta_in / 10;
          active_connections := Z.of_nat (length active);
          unique_dst_ips := Z.of_nat (size dst_ips);
          dns_queries_per_min := Z.of_nat (length dns_conns) * 6;
          suspicious_destinations := suspicious |},
       with_prev_net c net)
  | None =>
      ({| outbound_bytes_per_sec := 0;
          inbound_bytes_per_sec := 0;
          active_connections := 0;
          unique_dst_ips := 0;
          dns_queries_per_min := 0;
          suspicious_destinations := [] |}, c)
  end.

Definition LEGIT : list string :=
  ["python"; "python3"; "nvidia-smi"; "cudnn"; "nccl"; "bash";
   "sh"; "ps"; "top"; "htop"; "grep"; "awk"; "tail"; "cat"]%string.

Definition mem_string (s : string) (l : list string) : bool :=
  existsb (String.eqb s) l.

Definition is_unexpected (p : string) : bool :=
  negb (mem_string (PyStr.lower p) LEGIT)
  && negb (PyStr.startswith "python" p)
  && (2 <? String.length p)%nat.

(** The argument lists the names of the processes other than the agent. *)
Definition _collect_processes (r : option (list string)) : ProcSignals :=
  match r with
  | Some procs =>
      {| process_count := Z.of_nat (length procs);
         unexpected_processes := firstn 20 (List.filter is_unexpected procs);
         privilege_escalation_attempts := 0;
         filesystem_writes_per_sec := zero |}
  | None =>
      {| process_count := 0;
         unexpected_processes := [];
         privilege_escalation_attempts := 0;
         filesystem_writes_per_sec := zero |}
  end.

Definition is_empty {A} (l : list A) : bool :=
  match l with [] => true | _ => false end.

Definition _infer_pattern (gpu_util outbound unique_ips : Z)
    (suspicious : list string) : string :=
  if negb (is_empty suspicious) then "CRYPTO_MINING"
  else if (85 <? gpu_util) && (outbound <? 5000000) then "TRAINING"
  else if (30 <? unique_ips) && (gpu_util <? 20) then "NETWORK_HEAVY"
  else if gpu_util <? 5 then "IDLE"
  else "INFERENCE".

(** The dictionaries spliced into the payload with [**]. *)
Definition gpu_dict (g : GpuSignals) : pydict :=
  <["gpu_utilization_pct" := VInt (gpu_utilization_pct g)]>
  (<["vram_used_gb" := VFloat (vram_used_gb g)]>
  (<["vram_allocated_gb" := VFloat (g_vram_allocated_gb g)]>
  (<["power_draw_watts" := VFloat (power_draw_watts g)]>
  (<["power_cap_watts" := VFloat (g_power_cap_watts g)]>
  (<["temperature_c" := VInt (temperature_c g)]>
  (<["thermal_throttling" := VBool (thermal_throttling g)]> ∅)))))).

Definition net_dict (n : NetSignals) : pydict :=
  <["outbound_bytes_per_sec" := VInt (outbound_bytes_per_sec n)]>
  (<["inbound_bytes_per_sec" := VInt (inbound_bytes_per_sec n)]>
  (<["active_connections" := VInt (active_connections n)]>
  (<["unique_dst_ips" := VInt (unique_dst_ips n)]>
  (<["dns_queries_per_min" := VInt (dns_queries_per_min n)]>
  (<["suspicious_destinations" := VStrList (suspicious_destinations n)]> ∅))))).

Definition proc_dict (p : ProcSignals) : pydict :=
  <["process_count" := VInt (process_count p)]>
  (<["unexpected_processes" := VStrList (unexpected_processes p)]>
  (<["privilege_escalation_attempts" := VInt (privilege_escalation_attempts p)]>
  (<["filesystem_writes_per_sec" := VFloat (filesystem_writes_per_sec p)]> ∅))).

Definition e15 : float := of_Z (10 ^ 15).

(** The identity and scheduler entries that open the dictionary literal. *)
Definition head_dict (c : TelemetryCollector) (timestamp : string)
    (elapsed : float) : pydict :=
  <["job_id" := VStr (job_id c)]>
  (<["node_id" := VStr (node_id c)]>
  (<["gpu_id" := VStr (gpu_id c)]>
  (<["subject_id" := VStr (subject_id c)]>
  (<["timestamp" := VStr timestamp]>
  (<["total_dies" := VInt 1]>
  (<["total_tasks_scheduled" := VInt 0]>
  (<["total_tasks_completed" := VInt 0]>
  (<["tasks_pending" := VInt 0]>
  (<["tasks_active" := VInt 1]>
  (<["total_energy_consumed_fj" := VFloat (mul (_energy_joules c) e15)]>
  (<["throughput_tasks_per_sec" := VFloat zero]>
  (<["energy_per_task_fj" := VFloat zero]>
  (<["elapsed_time_seconds" := VFloat elapsed]>
  (<["scheduler_policy" := VStr "load_balanced"]>
  (<["die_utilization" := VEmptyDict]> ∅))))))))))))))).

(** In a dictionary literal a later entry replaces an earlier one with the
    same key; [∪] on maps prefers its left operand. *)
Definition _build_payload (c : TelemetryCollector) (s : Sample)
  : pydict * TelemetryCollector :=
  let '(gpu_signals, c1) := _collect_gpu c (s_gpu s) in
  let '(net_signals, c2) := _collect_network c1 (s_net s) in
  let proc_signals := _collect_processes (s_procs s) in
  let pattern := _infer_pattern (gpu_utilization_pct gpu_signals)
                   (outbound_bytes_per_sec net_signals)
                   (unique_dst_ips net_signals)
                   (suspicious_destinations net_signals) in
  let elapsed := SFsub prec emax (s_now s) (_start_time c2) in
  (<["gpu_compute_pattern" := VStr pattern]>
   (<["declared_framework" := VStr (declared_framework c2)]>
    (proc_dict proc_signals ∪ (net_dict net_signals ∪
      (gpu_dict gpu_signals ∪ head_dict c2 (s_timestamp s) elapsed)))),
   c2).

(** The answer to the telemetry POST. *)
Inductive SendOutcome :=
| SendResponse (kill_job : bool)
| SendTimeout
| SendError.

(** [_send(payload).get("kill_job")] *)
Definition kill_job_of (o : SendOutcome) : bool :=
  match o with
  | SendResponse k => k
  | SendTimeout | SendError => false
  end.

End Telemetry.

(** ** job_runner.py *)

Module JobRunner.

Import PyFloat.

Record JobManifest := {
  job_id : string;
  subject_id : string;
  gpu_id : string;
  gpu_index : Z;
  docker_image : string;
  docker_image_sha256 : string;
  command : list string;
  (* the declared variables in the order of the dictionary, each value
     already passed through [str] *)
  env : list (string * string);
  input_data_url : option string;
  output_bucket : string;
  declared_framework : string;
  vram_allocated_gb : float;
  ram_limit_gb : float;
  expected_duration_h : float;
  power_cap_watts : float
}.

Record JobRunner := {
  manifest : JobManifest;
  api_url : string;
  api_token : string;
  node_id : string
}.

(** The exceptions that leave the methods of the runner. *)
Inductive Exn : Type :=
| RuntimeError_bad_prefix (got : string)
    (* docker_image_sha256 must start with 'sha256:' *)
| RuntimeError_bad_hex
    (* docker_image_sha256 is not a valid SHA-256 hex digest *)
| RuntimeError_pull_failed (stderr : string)
| SubprocessRaised            (* raised by the call of [docker pull] itself *)
| OverflowError               (* [int] of an infinity *)
| ValueError.                 (* [int] of a NaN *)

Definition is_RuntimeError (e : Exn) : bool :=
  match e with
  | RuntimeError_bad_prefix _ | RuntimeError_bad_hex
  | RuntimeError_pull_failed _ => true
  | _ => false
  end.

Record Result := {
  r_job_id : string;
  r_status : string;
  r_exit_code : Z;
  r_energy_kwh : float;
  r_logs : string
}.

(** *** The environment of one run *)

Inductive PullOutcome :=
| PullExit (returncode : Z) (stderr : string)
| PullRaised.

Inductive ContainerOutcome :=
| Exited (returncode : Z) (stdout stderr : string)
| TimeoutExpired
| RunRaised (message : string).

Record WdTick := {
  wd_sample : Telemetry.Sample;
  wd_send : Telemetry.SendOutcome
}.

Record Env := {
  env_pull : PullOutcome;
  env_workdir : string;
  env_start_time : float;
  (* the iterations of the watchdog thread carried out before the result
     of the run is built *)
  env_ticks : list WdTick;
  env_container : ContainerOutcome
}.

(** Writer and error monad of the main path: the trace so far and either
    an exception or a value. *)
Definition M (A : Type) : Type := trace * (Exn + A).

Definition ret {A} (a : A) : M A := ([], inr a).
Definition raise {A} (e : Exn) : M A := ([], inl e).
Definition emit (ev : Event) : M unit := ([ev], inr tt).
Definition bind {A B} (m : M A) (f : A -> M B) : M B :=
  match m with
  | (t, inl e) => (t, inl e)
  | (t, inr a) => let '(t', r) := f a in (t ++ t', r)
  end.

Notation "'let*' x ':=' m 'in' k" := (bind m (fun x => k))
  (at level 10, x name, m at level 100, k at level 200).
Notation "m '>>' k" := (bind m (fun _ => k))
  (at level 100, k at level 200, right associativity).

(** *** [_pull_and_verify_image] *)

Definition is_hex (c : ascii) : bool :=
  existsb (Ascii.eqb c) (list_ascii_of_string "0123456789abcdef").

Definition str_empty (s : string) : bool :=
  match s with EmptyString => true | _ => false end.

Definition expected_sha (m : JobManifest) : string :=
  PyStr.strip (PyStr.lower (docker_image_sha256 m)).

Definition _pull_and_verify_image (m : JobManifest) (w : Env) : M string :=
  let sha := expected_sha m in
  if str_empty sha || negb (PyStr.startswith "sha256:" sha)
  then raise (RuntimeError_bad_prefix (PyStr.take 32 sha))
  else
    let hex_part := PyStr.drop (String.length "sha256:") sha in
    if negb (Nat.eqb (String.length hex_part) 64)
       || negb (PyStr.forallb is_hex hex_part)
    then raise RuntimeError_bad_hex
    else
      let image_ref := (docker_image m ++ "@" ++ sha)%string in
      emit (EvDockerPull image_ref) >>
      match env_pull w with
      | PullRaised => raise SubprocessRaised
      | PullExit rc stderr =>
          if negb (rc =? 0)
          then raise (RuntimeError_pull_failed (PyStr.take 300 stderr))
          else ret image_ref
      end.

(** *** [_build_env_args] *)

Definition key_char (c : ascii) : bool := PyStr.isalnum c || Ascii.eqb c "_".

Definition clean_key (k : string) : string := PyStr.filter key_char k.

Definition clean_val (v : string) : string :=
  PyStr.take 4096
    (PyStr.remove "013" (PyStr.remove "010" (PyStr.remove "000" v))).

Fixpoint _build_env_args (env : list (string * string)) : list string :=
  match env with
  | [] => []
  | (k, v) :: rest =>
      if str_empty (clean_key k) then _build_env_args rest
      else ["--env"; clean_key k ++ "=" ++ clean_val v]%string
           ++ _build_env_args rest
  end.

(** What one entry of the map contributes to the arguments. *)
Definition env_entry (kv : string * string) : list string :=
  if str_empty (clean_key (fst kv)) then []
  else ["--env"; clean_key (fst kv) ++ "=" ++ clean_val (snd kv)]%string.

(** *** [_kill_container] and [_run_container] *)

Definition container_name (m : JobManifest) : string :=
  ("gp4u-" ++ PyStr.take 12 (job_id m))%string.

(** The kill command is issued; what it answers or raises is dropped. *)
Definition _kill_container (m : JobManifest) : M unit :=
  emit (EvDockerKill (container_name m)).

Definition int_of_float (x : float) : M Z :=
  match to_Z x with
  | Some z => ret z
  | None => match x with
            | S754_nan => raise ValueError
            | _ => raise OverflowError
            end
  end.

Definition duration_product (m : JobManifest) : float :=
  mul (mul (expected_duration_h m) (of_Z 3600)) f1_1.

Definition ram_product (m : JobManifest) : float :=
  mul (mul (mul (ram_limit_gb m) (of_Z 1024)) (of_Z 1024)) (of_Z 1024).

(** The characters of the decimal rendering of an [int]. *)
Definition num_char (c : ascii) : bool :=
  PyStr.is_ascii_digit c || Ascii.eqb c "-".

Definition docker_cmd (m : JobManifest) (input_dir output_dir image_ref : string)
    (ram_bytes : Z) : list string :=
  ["docker"; "run";
   "--rm";
   "--name"; container_name m;
   "--gpus"; "device=" ++ PyStr.of_Z (gpu_index m);
   "--memory"; PyStr.of_Z ram_bytes;
   "--memory-swap"; PyStr.of_Z ram_bytes;
   "--pids-limit"; "512";
   "--network"; "bridge";
   "--cap-drop"; "ALL";
   "--security-opt"; "no-new-privileges";
   "--read-only";
   "--tmpfs"; "/tmp:rw,noexec,nosuid,size=1g";
   "--volume"; input_dir ++ ":/input:ro";
   "--volume"; output_dir ++ ":/output:rw"]%string
  ++ _build_env_args (env m)
  ++ [image_ref]
  ++ command m.

Definition not_eq_sign (c : ascii) : bool := negb (Ascii.eqb c "=").
Definition not_colon (c : ascii) : bool := negb (Ascii.eqb c ":").

(** The engine options: the arguments before the image reference. *)
Definition engine_options (m : JobManifest) (input_dir output_dir : string)
    (ram_bytes : Z) : list string :=
  ["docker"; "run"; "--rm";
   "--name"; container_name m;
   "--gpus"; "device=" ++ PyStr.of_Z (gpu_index m);
   "--memory"; PyStr.of_Z ram_bytes;
   "--memory-swap"; PyStr.of_Z ram_bytes;
   "--pids-limit"; "512";
   "--network"; "bridge";
   "--cap-drop"; "ALL";
   "--security-opt"; "no-new-privileges";
   "--read-only";
   "--tmpfs"; "/tmp:rw,noexec,nosuid,size=1g";
   "--volume"; input_dir ++ ":/input:ro";
   "--volume"; output_dir ++ ":/output:rw"]%string
  ++ _build_env_args (env m).

Definition _run_container (m : JobManifest)
    (input_dir output_dir image_ref : string) (o : ContainerOutcome)
  : M (Z * string) :=
  let* duration_limit_sec := int_of_float (duration_product m) in
  let* ram_bytes := int_of_float (ram_product m) in
  let cmd := docker_cmd m input_dir output_dir image_ref ram_bytes in
  emit (EvDockerRun cmd duration_limit_sec) >>
  match o with
  | Exited rc stdout stderr => ret (rc, (stdout ++ stderr)%string)
  | TimeoutExpired =>
      _kill_container m >>
      ret (-1, "DURATION_LIMIT_EXCEEDED"%string)
  | RunRaised msg => ret (-1, msg)
  end.

(** *** [_watchdog_loop] *)

(** The trace of the watchdog thread and the collector it leaves.  The
    loop ends when the platform asks for a kill, or when the main path has
    set [_kill_requested], which is when the ticks of the environment are
    used up. *)
Fixpoint _watchdog_loop (m : JobManifest) (c : Telemetry.TelemetryCollector)
    (ticks : list WdTick) : trace * Telemetry.TelemetryCollector :=
  match ticks with
  | [] => ([], c)
  | t :: rest =>
      let '(payload, c') := Telemetry._build_payload c (wd_sample t) in
      if Telemetry.kill_job_of (wd_send t)
      then ([EvTelemetry payload; EvDockerKill (container_name m)], c')
      else let '(tr, c'') := _watchdog_loop m c' rest in
           (EvTelemetry payload :: tr, c'')
  end.

(** Every power read by the watchdog is at least zero. *)
Definition powers_nonneg (ticks : list WdTick) : Prop :=
  Forall (fun t => forall g, Telemetry.s_gpu (wd_sample t) = Some g ->
                     leb (S754_zero false) (Telemetry.power_watts g) = true) ticks.

(** *** [run] *)

Definition new_collector (r : JobRunner) (start : float)
  : Telemetry.TelemetryCollector :=
  let m := manifest r in
  {| Telemetry.job_id := job_id m;
     Telemetry.node_id := node_id r;
     Telemetry.gpu_id := gpu_id m;
     Telemetry.gpu_index := gpu_index m;
     Telemetry.subject_id := subject_id m;
     Telemetry.declared_framework := declared_framework m;
     Telemetry.vram_allocated_gb := vram_allocated_gb m;
     Telemetry.power_cap_watts := power_cap_watts m;
     Telemetry.api_url := api_url r;
     Telemetry.api_token := api_token r;
     Telemetry._start_time := start;
     Telemetry._energy_joules := S754_zero false;
     Telemetry._prev_net := None |}.

Definition energy_kwh_of (joules : float) : float :=
  round (div joules (of_Z 3600000)) 6.

(** The body of the [with tempfile.TemporaryDirectory(...)] block. *)
Definition run_in_workdir (r : JobRunner) (w : Env) (image_ref : string)
    (energy : float) : M Result :=
  let m := manifest r in
  let workdir := env_workdir w in
  let input_dir := (workdir ++ "/input")%string in
  let output_dir := (workdir ++ "/output")%string in
  (match input_data_url m with
   | Some url => if str_empty url then ret tt
                 else emit (EvDownload url (input_dir ++ "/input.tar.gz"))
   | None => ret tt
   end) >>
  emit EvWatchdogStart >>
  let* res := _run_container m input_dir output_dir image_ref
                (env_container w) in
  let '(exit_code, logs) := res in
  (if exit_code =? 0 then emit (EvUpload output_dir) else ret tt) >>
  let status := if exit_code =? 0 then "COMPLETE" else "FAILED" in
  ret {| r_job_id := job_id m;
         r_status := status;
         r_exit_code := exit_code;
         r_energy_kwh := energy_kwh_of energy;
         r_logs := PyStr.last 5000 logs |}.

(** What one call of [run] does: the trace of the calling thread, the
    trace of the watchdog thread it may have started, and the exception
    raised or the result returned. *)
Record Outcome := {
  main_trace : trace;
  watchdog_trace : trace;
  returned : Exn + Result
}.

Definition run (r : JobRunner) (w : Env) : Outcome :=
  let m := manifest r in
  match _pull_and_verify_image m w with
  | (t0, inl e) =>
      {| main_trace := t0; watchdog_trace := []; returned := inl e |}
  | (t0, inr image_ref) =>
      let '(wd, c) := _watchdog_loop m (new_collector r (env_start_time w))
                        (env_ticks w) in
      let '(t1, res) := run_in_workdir r w image_ref
                          (Telemetry._energy_joules c) in
      {| main_trace := t0 ++ [EvMkWorkdir (env_workdir w)] ++ t1
                       ++ [EvRmWorkdir (env_workdir w)];
         watchdog_trace := wd;
         returned := res |}
  end.

End JobRunner.

(** ** agent.py *)

Module Agent.

Import PyFloat.

(** A value of the key [id] or [job_id] of a poll entry: a text, or a
    value of another JSON type.  Of the latter the admission uses its
    truth value, whether it can be a key of a dict (a number or a boolean
    can, a list or an object cannot) and its rendering in the URL of the
    ACK; it is never a key of the active map, whose keys are texts, and
    what can be a key of a dict cannot be sliced. *)
Inductive RawId :=
| IdStr (s : string)
| IdOther (is_true hashable : bool) (text : string).

(** A value that is handed to [float]: [Number x] when [float] accepts
    it and gives [x]; [NotNumber] when [float] raises, as it does on
    null, on a text that is no number, on a list or an object and on an
    integer beyond the range of a float. *)
Inductive RawNumber :=
| Number (x : float)
| NotNumber.

(** One job of a poll response, as read with [raw.get]: [None] is a
    missing key, for the ids also a null.  The values that go into the
    manifest as they are have the types the runner expects of them. *)
Record RawJob := {
  raw_id : option RawId;
  raw_job_id : option RawId;
  raw_subject_id : option string;
  raw_gpu_id : option string;
  raw_gpu_index : option Z;
  raw_docker_image : option string;
  raw_docker_image_sha256 : option string;
  raw_command : option (list string);
  raw_env : option (list (string * string));
  raw_input_data_url : option string;
  raw_output_bucket : option string;
  raw_declared_framework : option string;
  raw_vram_allocated_gb : option RawNumber;
  raw_ram_limit_gb : option RawNumber;
  raw_expected_duration_h : option RawNumber;
  raw_power_cap_watts : option RawNumber
}.

Record ProviderAgent := {
  api_url : string;
  token : string;
  region : string;
  poll_interval : Z;
  node_id : string;
  (* job id to the manifest its runner thread works on *)
  _active_jobs : gmap string JobRunner.JobManifest;
  _registered_gpu_ids : list string
}.

Definition with_active (a : ProviderAgent)
    (j : gmap string JobRunner.JobManifest) : ProviderAgent :=
  {| api_url := api_url a; token := token a; region := region a;
     poll_interval := poll_interval a; node_id := node_id a;
     _active_jobs := j; _registered_gpu_ids := _registered_gpu_ids a |}.

(** *** [poll_jobs] *)

(** The answer to a poll.  [PollOk jobs] is a success whose [jobs] value
    is a list of objects (or is missing, or iterates as an empty list);
    [PollOkBroken jobs] is a success whose [jobs] value has, after the
    objects [jobs], a value that is no object, or cannot be iterated at
    all (then [jobs] is empty): the loop over it in [run] raises once it
    has dealt with [jobs]. *)
Inductive PollOutcome :=
| PollOk (jobs : list RawJob)
| PollOkBroken (jobs : list RawJob)
| PollStatus (code : Z)
| PollTimeout
| PollError.

(** What [poll_jobs] returns: the entries that are objects, and whether
    the loop over the value raises after them. *)
Definition poll_jobs (a : ProviderAgent) (o : PollOutcome)
  : trace * (list RawJob * bool) :=
  match _registered_gpu_ids a with
  | [] => ([], ([], false))
  | _ :: _ =>
      ([EvPoll],
       match o with
       | PollOk jobs => (jobs, false)
       | PollOkBroken jobs => (jobs, true)
       | PollStatus _ | PollTimeout | PollError => ([], false)
       end)
  end.

(** *** [_accept_job] *)

Definition truthy (o : option string) : bool :=
  match o with
  | Some (String _ _) => true
  | _ => false
  end.

Definition id_truthy (o : option RawId) : bool :=
  match o with
  | Some (IdStr s) => truthy (Some s)
  | Some (IdOther t _ _) => t
  | None => false
  end.

(** [raw.get("id") or raw.get("job_id")] *)
Definition id_of (raw : RawJob) : option RawId :=
  if id_truthy (raw_id raw) then raw_id raw else raw_job_id raw.

(** That value, when it is a text. *)
Definition job_id_of (raw : RawJob) : option string :=
  match id_of raw with
  | Some (IdStr s) => Some s
  | _ => None
  end.

(** [f"{job_id}"] *)
Definition id_text (id : RawId) : string :=
  match id with
  | IdStr s => s
  | IdOther _ _ text => text
  end.

Definition id_hashable (id : RawId) : bool :=
  match id with
  | IdStr _ => true
  | IdOther _ h _ => h
  end.

(** [job_id in self._active_jobs], for an id that can be hashed. *)
Definition id_active (a : ProviderAgent) (id : RawId) : bool :=
  match id with
  | IdStr s => bool_decide (is_Some (_active_jobs a !! s))
  | IdOther _ _ _ => false
  end.

(** [float(raw.get(key, default))]; [None] when [float] raises. *)
Definition float_of (default : float) (o : option RawNumber) : option float :=
  match o with
  | None => Some default
  | Some (Number x) => Some x
  | Some NotNumber => None
  end.

(** None of the four calls of [float] raises. *)
Definition convertible (raw : RawJob) : bool :=
  bool_decide (is_Some (float_of (of_Z 8) (raw_vram_allocated_gb raw)))
  && bool_decide (is_Some (float_of (of_Z 32) (raw_ram_limit_gb raw)))
  && bool_decide (is_Some (float_of (of_Z 1) (raw_expected_duration_h raw)))
  && bool_decide (is_Some (float_of (of_Z 300) (raw_power_cap_watts raw))).

(** The manifest of an entry whose numbers [float] accepts; for no other
    entry does [_accept_job] get as far as a manifest. *)
Definition build_manifest (job_id : string) (raw : RawJob)
  : JobRunner.JobManifest :=
  {| JobRunner.job_id := job_id;
     JobRunner.subject_id := default "unknown"%string (raw_subject_id raw);
     JobRunner.gpu_id := default ""%string (raw_gpu_id raw);
     JobRunner.gpu_index := default 0 (raw_gpu_index raw);
     JobRunner.docker_image := default "alpine:latest"%string (raw_docker_image raw);
     JobRunner.docker_image_sha256 := default ""%string (raw_docker_image_sha256 raw);
     JobRunner.command := default ["echo"; "hello"]%string (raw_command raw);
     JobRunner.env := default [] (raw_env raw);
     JobRunner.input_data_url := raw_input_data_url raw;
     JobRunner.output_bucket := default ""%string (raw_output_bucket raw);
     JobRunner.declared_framework := default "UNKNOWN"%string (raw_declared_framework raw);
     JobRunner.vram_allocated_gb :=
       default (of_Z 8) (float_of (of_Z 8) (raw_vram_allocated_gb raw));
     JobRunner.ram_limit_gb :=
       default (of_Z 32) (float_of (of_Z 32) (raw_ram_limit_gb raw));
     JobRunner.expected_duration_h :=
       default (of_Z 1) (float_of (of_Z 1) (raw_expected_duration_h raw));
     JobRunner.power_cap_watts :=
       default (of_Z 300) (float_of (of_Z 300) (raw_power_cap_watts raw)) |}.

(** The exceptions that leave [_accept_job]: of the membership test on an
    id that cannot be hashed, of a [float(...)] (a [TypeError], a
    [ValueError] or an [OverflowError]), and of [job_id[:8]] on an id
    that is no text. *)
Inductive AcceptExn :=
| TypeError_unhashable
| FloatRaised
| TypeError_not_sliceable.

(** What [_accept_job] does with an entry: its requests, the agent it
    leaves, and the exception that leaves it, if one does.  The ACK
    request either goes out ([ack_sent]) or raises, which is caught. *)
Definition _accept_job_outcome (a : ProviderAgent) (raw : RawJob)
    (ack_sent : bool) : trace * ProviderAgent * option AcceptExn :=
  match id_of raw with
  | None => ([], a, None)
  | Some id =>
      if negb (id_truthy (Some id)) then ([], a, None)
      else if negb (id_hashable id) then ([], a, Some TypeError_unhashable)
      else if id_active a id then ([], a, None)       (* already running *)
      else if negb ack_sent then ([EvAck (id_text id)], a, None)
      else if negb (convertible raw)
      then ([EvAck (id_text id)], a, Some FloatRaised)
      else
        match id with
        | IdStr job_id =>
            let manifest := build_manifest job_id raw in
            ([EvAck job_id; EvSpawn job_id],
             with_active a (<[job_id := manifest]> (_active_jobs a)),
             None)
        | IdOther _ _ text =>
            ([EvAck text], a, Some TypeError_not_sliceable)
        end
  end.

(** The requests of [_accept_job] and the agent it leaves, whether it
    returns or raises. *)
Definition _accept_job (a : ProviderAgent) (raw : RawJob) (ack_sent : bool)
  : trace * ProviderAgent :=
  fst (_accept_job_outcome a raw ack_sent).

(** *** [run_and_report], the body of a runner thread *)

Definition runner_of (a : ProviderAgent) (m : JobRunner.JobManifest)
  : JobRunner.JobRunner :=
  {| JobRunner.manifest := m;
     JobRunner.api_url := api_url a;
     JobRunner.api_token := token a;
     JobRunner.node_id := node_id a |}.

(** The traces of the thread and of its watchdog, and the active map
    after the thread has ended.  The completion request is issued once
    [run] has returned; whether it then succeeds or raises, the entry of
    the job is removed.  An exception of [run] ends the thread before
    the [try] block is entered. *)
Definition run_and_report (a : ProviderAgent) (m : JobRunner.JobManifest)
    (w : JobRunner.Env) : trace * trace * ProviderAgent :=
  let o := JobRunner.run (runner_of a m) w in
  match JobRunner.returned o with
  | inl _ => (JobRunner.main_trace o, JobRunner.watchdog_trace o, a)
  | inr result =>
      (JobRunner.main_trace o
         ++ [EvPatch (JobRunner.r_job_id result) (JobRunner.r_status result)
               (JobRunner.r_energy_kwh result)],
       JobRunner.watchdog_trace o,
       with_active a (delete (JobRunner.job_id m) (_active_jobs a)))
  end.

(** *** The main loop of [run] *)

(** The exceptions that end the loop: of [60 // poll_interval], of
    [time.sleep] with a negative length or with one beyond its range, of
    [_accept_job], and of the loop over a [jobs] value that is no list
    of objects. *)
Inductive LoopExn :=
| ZeroDivisionError
| SleepValueError
| SleepOverflowError
| AcceptRaised (e : AcceptExn)
| EntryRaised.

(** What one iteration meets: the answer to the poll, whether the ACK of
    a job goes out, and the jobs whose threads have ended since the
    previous iteration. *)
Record TickInput := {
  t_poll : PollOutcome;
  t_ack : RawJob -> bool;
  t_ended : list string
}.

(** [for job in jobs: self._accept_job(job)], left at the first
    exception. *)
Fixpoint accept_all_outcome (a : ProviderAgent) (ack : RawJob -> bool)
    (jobs : list RawJob) : trace * ProviderAgent * option AcceptExn :=
  match jobs with
  | [] => ([], a, None)
  | j :: rest =>
      match _accept_job_outcome a j (ack j) with
      | (t1, a1, Some e) => (t1, a1, Some e)
      | (t1, a1, None) =>
          let '(t2, a2, e) := accept_all_outcome a1 ack rest in
          (t1 ++ t2, a2, e)
      end
  end.

(** The requests of that loop and the agent it leaves. *)
Definition accept_all (a : ProviderAgent) (ack : RawJob -> bool)
    (jobs : list RawJob) : trace * ProviderAgent :=
  fst (accept_all_outcome a ack jobs).

Definition reap (a : ProviderAgent) (ended : list string) : ProviderAgent :=
  with_active a (fold_right (fun j m => delete j m) (_active_jobs a) ended).

(** The largest number of seconds [time.sleep] takes: beyond it, in
    either direction, the length in nanoseconds does not fit 64 bits and
    the call raises [OverflowError]. *)
Definition sleep_limit : Z := 9223372036.

(** One iteration of the [while self._running] loop: the trace, and
    either the exception that ends the loop or the agent and the
    heartbeat counter for the next iteration. *)
Definition tick (a : ProviderAgent) (heartbeat_counter : Z) (i : TickInput)
  : trace * (LoopExn + ProviderAgent * Z) :=
  let a0 := reap a (t_ended i) in
  let '(tp, (jobs, broken)) := poll_jobs a0 (t_poll i) in
  let '(ta, a1, raised) := accept_all_outcome a0 (t_ack i) jobs in
  match raised with
  | Some e => (tp ++ ta, inl (AcceptRaised e))
  | None =>
      if broken then (tp ++ ta, inl EntryRaised)
      else
        let counter := heartbeat_counter + 1 in
        if poll_interval a =? 0 then (tp ++ ta, inl ZeroDivisionError)
        else
          let '(th, counter') :=
            if 60 / poll_interval a <=? counter
            then ([EvHeartbeat (size (_active_jobs a1))], 0)
            else ([], counter) in
          if (poll_interval a <? - sleep_limit)
             || (sleep_limit <? poll_interval a)
          then (tp ++ ta ++ th, inl SleepOverflowError)
          else if poll_interval a <? 0
          then (tp ++ ta ++ th, inl SleepValueError)
          else (tp ++ ta ++ th ++ [EvSleep (poll_interval a)],
                inr (a1, counter'))
  end.

(** The iterations carried out while [_running] holds, one trace for
    each. *)
Fixpoint main_loop (a : ProviderAgent) (heartbeat_counter : Z)
    (inputs : list TickInput) : list trace :=
  match inputs with
  | [] => []
  | i :: rest =>
      match tick a heartbeat_counter i with
      | (t, inl _) => [t]
      | (t, inr (a', c')) => t :: main_loop a' c' rest
      end
  end.

Definition sends_heartbeat (t : trace) : bool := existsb is_heartbeat t.


(** An entry on which [_accept_job] cannot raise: its id, if it has one,
    is a text, and [float] accepts its numbers. *)
Definition typed_job (raw : RawJob) : bool :=
  convertible raw
  && match id_of raw with
     | Some (IdOther _ _ _) => false
     | _ => true
     end.

(** An answer to a poll over which the loop of [run] cannot raise. *)
Definition typed_poll (o : PollOutcome) : bool :=
  match o with
  | PollOk jobs => forallb typed_job jobs
  | PollOkBroken _ => false
  | PollStatus _ | PollTimeout | PollError => true
  end.

End Agent.

(** ** The statements of the specification

    Definitions that follow the words of the specification, to be compared
    with the ones taken from the source. *)

Module Spec.

(** A decision list in the words of the specification: guards tried from
    the top, the first one that holds gives the label. *)
Fixpoint first_match (rules : list (bool * string)) (otherwise : string)
  : string :=
  match rules with
  | [] => otherwise
  | (guard, label) :: rest =>
      if guard then label else first_match rest otherwise
  end.

Definition spec_pattern (gpu_util outbound unique_ips : Z)
    (suspicious : list string) : string :=
  first_match
    [ (negb (Nat.eqb (length suspicious) 0), "CRYPTO_MINING"%string);
      ((85 <? gpu_util) && (outbound <? 5000000), "TRAINING"%string);
      ((30 <? unique_ips) && (gpu_util <? 20), "NETWORK_HEAVY"%string);
      (gpu_util <? 5, "IDLE"%string) ]
    "INFERENCE".

(** "The manifest's digest must match the regex [sha256:[0-9a-f]{64}]
    (case-insensitive, leading/trailing whitespace stripped)." *)
Definition hex_class (c : ascii) : bool :=
  PyStr.in_range 48 57 c || PyStr.in_range 97 102 c.

Definition matches_digest (s : string) : Prop :=
  exists hex, s = ("sha256:" ++ hex)%string
              /\ String.length hex = 64%nat
              /\ PyStr.forallb hex_class hex = true.

Definition malformed (m : JobRunner.JobManifest) : Prop :=
  ~ matches_digest
      (PyStr.strip (PyStr.lower (JobRunner.docker_image_sha256 m))).

(** "[run(M)] returns [FAILED], no container is ever created, no
    telemetry is ever sent." *)
Definition fails_without_effect (o : JobRunner.Outcome) : Prop :=
  (exists res, JobRunner.returned o = inr res
               /\ JobRunner.r_status res = "FAILED"%string)
  /\ existsb is_docker_run (JobRunner.main_trace o) = false
  /\ existsb is_telemetry
       (JobRunner.main_trace o ++ JobRunner.watchdog_trace o) = false.

(** "Timeout = [ceil(expected_duration_h × 3600 × 1.1)] seconds." *)
Definition timeout_is_ceiling (m : JobRunner.JobManifest) (t : Z) : Prop :=
  exists h, PyFloat.to_Q (JobRunner.expected_duration_h m) = Some h
            /\ t = Qceiling (h * 3600 * (11 # 10)).

(** [a] is an argument of [l] and [b] is the argument after it. *)
Definition follows (l : list string) (a b : string) : Prop :=
  exists pre post, l = pre ++ a :: b :: post.

Definition count_arg (a : string) (l : list string) : nat :=
  length (List.filter (String.eqb a) l).

(** "The container invocation contains exactly one [--gpus device=<i>],
    one [--memory <bytes>] equal to [ram_limit_gb × 2^30],
    [--memory-swap] equal to [--memory], [--pids-limit 512],
    [--cap-drop ALL], [--security-opt no-new-privileges], [--read-only],
    [/input] bound read-only, [/output] bound read-write." *)
Definition envelope_as_specified (m : JobRunner.JobManifest)
    (input_dir output_dir : string) (cmd : list string) : Prop :=
  count_arg "--gpus" cmd = 1%nat
  /\ follows cmd "--gpus" ("device=" ++ PyStr.of_Z (JobRunner.gpu_index m))
  /\ count_arg "--memory" cmd = 1%nat
  /\ (exists ram bytes,
        PyFloat.to_Q (JobRunner.ram_limit_gb m) = Some ram
        /\ inject_Z bytes == ram * inject_Z (2 ^ 30)
        /\ follows cmd "--memory" (PyStr.of_Z bytes)
        /\ follows cmd "--memory-swap" (PyStr.of_Z bytes))
  /\ follows cmd "--pids-limit" "512"
  /\ follows cmd "--cap-drop" "ALL"
  /\ follows cmd "--security-opt" "no-new-privileges"
  /\ In "--read-only"%string cmd
  /\ follows cmd "--volume" (input_dir ++ ":/input:ro")
  /\ follows cmd "--volume" (output_dir ++ ":/output:rw").

(** "Drop the entry if the key, after retaining only [[A-Za-z0-9_]], is
    empty; else emit [<sanitized_key>=<sanitized_value>] where the value
    has NUL, LF, CR stripped and is truncated to 4096 characters." *)
Definition spec_key (k : string) : string :=
  PyStr.filter PyStr.is_word_char k.

Definition is_nul_lf_cr (c : ascii) : bool :=
  Ascii.eqb c "000" || Ascii.eqb c "010" || Ascii.eqb c "013".

Definition spec_val (v : string) : string :=
  PyStr.take 4096 (PyStr.filter (fun c => negb (is_nul_lf_cr c)) v).

Definition spec_env_entry (kv : string * string) : list string :=
  if JobRunner.str_empty (spec_key (fst kv)) then []
  else ["--env"; spec_key (fst kv) ++ "=" ++ spec_val (snd kv)]%string.

Definition spec_env_args (env : list (string * string)) : list string :=
  flat_map spec_env_entry env.

(** The rule for keys as the code has it, in the same words: drop the
    entry if the key, after retaining only the characters [c] with
    [c.isalnum()] or [c == "_"], is empty; else emit
    [<sanitized_key>=<sanitized_value>]. *)
Definition kept_char (c : ascii) : bool :=
  PyStr.isalnum c || (PyStr.code c =? 95)%N.

Definition amended_key (k : string) : string := PyStr.filter kept_char k.

Definition amended_env_entry (kv : string * string) : list string :=
  match amended_key (fst kv) with
  | EmptyString => []
  | String _ _ =>
      ["--env"; amended_key (fst kv) ++ "=" ++ spec_val (snd kv)]%string
  end.

Definition amended_env_args (env : list (string * string)) : list string :=
  flat_map amended_env_entry env.




End Spec.

(** ** Concrete inputs *)

Module Inputs.

Import Agent.

(** An iteration whose poll is answered with 404 and in which no thread
    ends. *)
Definition idle_tick : TickInput :=
  {| t_poll := PollStatus 404; t_ack := fun _ => true; t_ended := [] |}.

(** The nearest double to the decimal [n/d]. *)
Definition dec (n d : Z) : PyFloat.float :=
  PyFloat.div (PyFloat.of_Z n) (PyFloat.of_Z d).

(** The manifest of the first scenario of the specification, with the
    digest, the memory limit, the duration and the command left open. *)
Definition manifest_j1 (digest : string) (ram_gb duration_h : PyFloat.float)
    (cmd : list string) : JobRunner.JobManifest :=
  {| JobRunner.job_id := "j1";
     JobRunner.subject_id := "unknown";
     JobRunner.gpu_id := "";
     JobRunner.gpu_index := 0;
     JobRunner.docker_image := "alpine";
     JobRunner.docker_image_sha256 := digest;
     JobRunner.command := cmd;
     JobRunner.env := [];
     JobRunner.input_data_url := None;
     JobRunner.output_bucket := "";
     JobRunner.declared_framework := "UNKNOWN";
     JobRunner.vram_allocated_gb := PyFloat.of_Z 8;
     JobRunner.ram_limit_gb := ram_gb;
     JobRunner.expected_duration_h := duration_h;
     JobRunner.power_cap_watts := PyFloat.of_Z 300 |}.

Definition good_digest : string :=
  "sha256:aaaaaaaaaaaaaaaaaaaaaaaaaaaaaaaaaaaaaaaaaaaaaaaaaaaaaaaaaaaaaaaa".

(** The manifest of the second scenario: a digest that is too short. *)
Definition bad_manifest : JobRunner.JobManifest :=
  manifest_j1 "sha256:zz" (PyFloat.of_Z 1) (dec 1 100)
    ["sh"; "-c"; "exit 0"]%string.

(** The manifest of the fourth scenario: a duration of 0.001 hours. *)
Definition short_manifest : JobRunner.JobManifest :=
  manifest_j1 good_digest (PyFloat.of_Z 1) (dec 1 1000)
    ["sleep"; "30"]%string.

(** The integer value of the float nearest to 1e305. *)
Definition float_1e305 : Z :=
  Eval vm_compute in default 0 (PyFloat.to_Z (PyFloat.of_Z (10 ^ 305))).

(** A manifest with an expected duration of 1e305 hours, a finite float
    whose product with 3600 and 1.1 is not finite any more. *)
Definition long_manifest : JobRunner.JobManifest :=
  manifest_j1 good_digest (PyFloat.of_Z 1) (PyFloat.of_Z (10 ^ 305))
    ["sleep"; "30"]%string.

(** A manifest with a memory limit of 1e305 GB, finite as well, whose
    number of bytes is not. *)
Definition vast_manifest : JobRunner.JobManifest :=
  manifest_j1 good_digest (PyFloat.of_Z (10 ^ 305)) (dec 1 1000)
    ["sleep"; "30"]%string.

(** A manifest with a memory limit of 0.1 GB whose command has an
    argument spelled like an engine option. *)
Definition tenth_manifest : JobRunner.JobManifest :=
  manifest_j1 good_digest (dec 1 10) (dec 1 100)
    ["nvidia-smi"; "--gpus"; "all"]%string.

Definition runner_of (m : JobRunner.JobManifest) : JobRunner.JobRunner :=
  {| JobRunner.manifest := m;
     JobRunner.api_url := "https://gp4u.com";
     JobRunner.api_token := "t";
     JobRunner.node_id := "n" |}.

(** An environment in which the pull succeeds, the watchdog has no time
    for a sample and the container ends as given. *)
Definition env_with (o : JobRunner.ContainerOutcome) : JobRunner.Env :=
  {| JobRunner.env_pull := JobRunner.PullExit 0 "";
     JobRunner.env_workdir := "/tmp/gp4u-job-abc";
     JobRunner.env_start_time := S754_zero false;
     JobRunner.env_ticks := [];
     JobRunner.env_container := o |}.

(** The letter e with acute accent, U+00E9. *)
Definition e_acute : string := String "233" EmptyString.

(** An env map with keys outside ASCII: a key with a Latin-1 letter and
    a blank, whose value has a line feed; a key of a multiplication sign
    (U+00D7) alone; and a key with a superscript two (U+00B2) and a
    dash. *)
Definition latin1_env : list (string * string) :=
  [(String "233" "t" ++ " " ++ "_1", "a" ++ String "010" "b");
   (String "215" EmptyString, "x");
   ("m" ++ String "178" "-", "y")]%string.

(** The environment of the fifth scenario of the specification:
    FOO with LF and NUL inside its value, a key with a blank, and an
    empty key. *)
Definition scenario_env : list (string * string) :=
  [("FOO", "bar" ++ String "010" (String "000" "baz"));
   ("BAD KEY", "x"); ("", "y")]%string.

(** A poll entry that carries an id and nothing else. *)
Definition raw_j1 : RawJob :=
  {| raw_id := Some (IdStr "j1"); raw_job_id := None;
     raw_subject_id := None; raw_gpu_id := None; raw_gpu_index := None;
     raw_docker_image := None; raw_docker_image_sha256 := None;
     raw_command := None; raw_env := None; raw_input_data_url := None;
     raw_output_bucket := None; raw_declared_framework := None;
     raw_vram_allocated_gb := None; raw_ram_limit_gb := None;
     raw_expected_duration_h := None; raw_power_cap_watts := None |}.

(** A job whose memory limit is a null. *)
Definition raw_null_ram : RawJob :=
  {| raw_id := None; raw_job_id := Some (IdStr "j2");
     raw_subject_id := None; raw_gpu_id := None; raw_gpu_index := None;
     raw_docker_image := None; raw_docker_image_sha256 := None;
     raw_command := None; raw_env := None; raw_input_data_url := None;
     raw_output_bucket := None; raw_declared_framework := None;
     raw_vram_allocated_gb := None; raw_ram_limit_gb := Some NotNumber;
     raw_expected_duration_h := None; raw_power_cap_watts := None |}.

(** A reading of 250 W at 97 percent utilisation. *)
Definition reading_250w : Telemetry.GpuReading :=
  {| Telemetry.util_gpu := 97;
     Telemetry.mem_used := 8 * 1024 ^ 3;
     Telemetry.power_mw := 250000;
     Telemetry.temperature := 71;
     Telemetry.throttle_reasons := Some 0 |}.

(** Eight iterations of an agent at work: a job that is admitted, a
    poll without jobs, a timeout, the same job delivered again, a failed
    poll after its thread has ended, a job whose ACK fails, an error
    status, and the job once more. *)
Definition busy_ticks : list TickInput :=
  [{| t_poll := PollOk [raw_j1]; t_ack := fun _ => true; t_ended := [] |};
   idle_tick;
   {| t_poll := PollTimeout; t_ack := fun _ => true; t_ended := [] |};
   {| t_poll := PollOk [raw_j1; raw_j1]; t_ack := fun _ => true;
      t_ended := [] |};
   {| t_poll := PollError; t_ack := fun _ => true;
      t_ended := ["j1"%string] |};
   {| t_poll := PollOk [raw_j1]; t_ack := fun _ => false; t_ended := [] |};
   {| t_poll := PollStatus 500; t_ack := fun _ => true; t_ended := [] |};
   {| t_poll := PollOk [raw_j1]; t_ack := fun _ => true; t_ended := [] |}].

Definition agent_polling_every (p : Z) : ProviderAgent :=
  {| api_url := "https://gp4u.com"; token := "t"; region := "us-east-1";
     poll_interval := p; node_id := "n";
     _active_jobs := ∅; _registered_gpu_ids := ["gpu-0"%string] |}.

End Inputs.

(** ** Further recognisers of events *)

Module Obs.

Definition is_upload (e : Event) : bool :=
  match e with EvUpload _ => true | _ => false end.

Definition is_kill (e : Event) : bool :=
  match e with EvDockerKill _ => true | _ => false end.

Definition is_watchdog_start (e : Event) : bool :=
  match e with EvWatchdogStart => true | _ => false end.

Definition is_poll (e : Event) : bool :=
  match e with EvPoll => true | _ => false end.

Definition is_spawn_of (job_id : string) (e : Event) : bool :=
  match e with EvSpawn j => String.eqb j job_id | _ => false end.

Definition is_ack_of (job_id : string) (e : Event) : bool :=
  match e with EvAck j => String.eqb j job_id | _ => false end.

(** The exit code a run reports for the way its container call ended. *)
Definition exit_code_of (o : JobRunner.ContainerOutcome) : Z :=
  match o with
  | JobRunner.Exited rc _ _ => rc
  | JobRunner.TimeoutExpired | JobRunner.RunRaised _ => -1
  end.

(** The log text a run cuts its tail from. *)
Definition output_of (o : JobRunner.ContainerOutcome) : string :=
  match o with
  | JobRunner.Exited _ stdout stderr => (stdout ++ stderr)%string
  | JobRunner.TimeoutExpired => "DURATION_LIMIT_EXCEEDED"%string
  | JobRunner.RunRaised msg => msg
  end.

(** An infinity or a NaN: [int] raises on it. *)
Definition not_finite (x : PyFloat.float) : Prop := PyFloat.to_Z x = None.

(** The digest-pinned reference of a manifest. *)
Definition pinned_ref (m : JobRunner.JobManifest) : string :=
  (JobRunner.docker_image m ++ "@" ++ JobRunner.expected_sha m)%string.

Definition is_sleep (e : Event) : bool :=
  match e with EvSleep _ => true | _ => false end.

(** An iteration without a poll, an ACK or the start of a thread. *)
Definition quiet (t : trace) : Prop :=
  count_events is_poll t = 0%nat
  /\ count_events is_ack t = 0%nat
  /\ count_events is_spawn t = 0%nat.

(** The job has a runner thread on record. *)
Definition is_active (a : Agent.ProviderAgent) (job_id : string) : bool :=
  bool_decide (is_Some (Agent._active_jobs a !! job_id)).


(** The entries of an answer that have an id have a text as their id. *)
Definition text_ids (o : Agent.PollOutcome) : bool :=
  match o with
  | Agent.PollOk jobs | Agent.PollOkBroken jobs =>
      forallb (fun raw => match Agent.id_of raw with
                          | Some (Agent.IdOther _ _ _) => false
                          | _ => true
                          end) jobs
  | _ => true
  end.

(** No iteration of the watchdog is answered with a kill. *)
Definition never_kills (ticks : list JobRunner.WdTick) : Prop :=
  Forall (fun t => Telemetry.kill_job_of (JobRunner.wd_send t) = false) ticks.

End Obs.

(** ** Further concrete inputs *)

Module Inputs2.

(** An environment whose pull ends with the given exit code. *)
Definition env_pull_exit (rc : Z) (stderr : string) : JobRunner.Env :=
  {| JobRunner.env_pull := JobRunner.PullExit rc stderr;
     JobRunner.env_workdir := "/tmp/gp4u-job-abc";
     JobRunner.env_start_time := S754_zero false;
     JobRunner.env_ticks := [];
     JobRunner.env_container := JobRunner.Exited 0 "" "" |}.

(** What a run reports for a container that exits with 2. *)
Definition failed_result : JobRunner.Result :=
  {| JobRunner.r_job_id := "j1";
     JobRunner.r_status := "FAILED";
     JobRunner.r_exit_code := 2;
     JobRunner.r_energy_kwh := S754_zero false;
     JobRunner.r_logs := "outerr" |}.

(** A sample with a GPU that draws 250 W and nothing else readable. *)
Definition sample_250w : Telemetry.Sample :=
  {| Telemetry.s_gpu := Some Inputs.reading_250w; Telemetry.s_net := None;
     Telemetry.s_procs := None; Telemetry.s_now := PyFloat.of_Z 10;
     Telemetry.s_timestamp := "2026-01-01T00:00:10Z" |}.

(** An environment in which the watchdog takes three samples, the second
    without a readable GPU, and the container exits with 0. *)
Definition env_sampled : JobRunner.Env :=
  {| JobRunner.env_pull := JobRunner.PullExit 0 "";
     JobRunner.env_workdir := "/tmp/gp4u-job-abc";
     JobRunner.env_start_time := S754_zero false;
     JobRunner.env_ticks :=
       [{| JobRunner.wd_sample := sample_250w;
           JobRunner.wd_send := Telemetry.SendResponse false |};
        {| JobRunner.wd_sample :=
             {| Telemetry.s_gpu := None; Telemetry.s_net := None;
                Telemetry.s_procs := None; Telemetry.s_now := PyFloat.of_Z 20;
                Telemetry.s_timestamp := "2026-01-01T00:00:20Z" |};
           JobRunner.wd_send := Telemetry.SendTimeout |};
        {| JobRunner.wd_sample := sample_250w;
           JobRunner.wd_send := Telemetry.SendResponse false |}];
     JobRunner.env_container := JobRunner.Exited 0 "done" "" |}.

(** What the run in that environment reports: 5000 J are 0.001389 kWh. *)
Definition sampled_result : JobRunner.Result :=
  {| JobRunner.r_job_id := "j1";
     JobRunner.r_status := "COMPLETE";
     JobRunner.r_exit_code := 0;
     JobRunner.r_energy_kwh := Inputs.dec 1389 1000000;
     JobRunner.r_logs := "done" |}.

(** A manifest with an infinite expected duration. *)
Definition endless_manifest : JobRunner.JobManifest :=
  Inputs.manifest_j1 Inputs.good_digest (PyFloat.of_Z 1)
    (S754_infinity false) ["sleep"; "30"]%string.

(** A sample in which every source fails. *)
Definition blind_sample : Telemetry.Sample :=
  {| Telemetry.s_gpu := None; Telemetry.s_net := None;
     Telemetry.s_procs := None; Telemetry.s_now := S754_zero false;
     Telemetry.s_timestamp := "2026-01-01T00:00:00Z" |}.

(** An iteration of the watchdog whose POST ends as given. *)
Definition tick_answered (o : Telemetry.SendOutcome) : JobRunner.WdTick :=
  {| JobRunner.wd_sample := blind_sample; JobRunner.wd_send := o |}.

End Inputs2.

(** ** gpu_discovery.py

    The text operations the discovery applies to the output of
    [nvidia-smi], then the discovery itself.  The two sources of a
    discovery, pynvml and the [nvidia-smi] process, answer from explicit
    values like every other call that leaves the process. *)

Module PyText.

Definition LF : ascii := "010"%char.
Definition CR : ascii := "013"%char.

(** The characters [str.splitlines] ends a line at, on U+0000..U+00FF:
    LF, VT, FF, CR, the separators U+001C..U+001E and NEL (U+0085). *)
Definition is_linebreak (c : ascii) : bool :=
  PyStr.in_range 10 13 c || PyStr.in_range 28 30 c
  || (PyStr.code c =? 133)%N.

(** [c] put in front of the first text of [l]. *)
Definition cons_head (c : ascii) (l : list string) : list string :=
  match l with
  | [] => [String c EmptyString]
  | x :: rest => String c x :: rest
  end.

(** [s.splitlines()]: CR LF ends one line, and a text that ends with a
    line break has no empty line after it. *)
Fixpoint splitlines (s : string) : list string :=
  match s with
  | EmptyString => []
  | String c rest =>
      if is_linebreak c then
        EmptyString ::
          match rest with
          | String c2 rest2 =>
              if Ascii.eqb c CR && Ascii.eqb c2 LF then splitlines rest2
              else splitlines rest
          | EmptyString => []
          end
      else cons_head c (splitlines rest)
  end.

(** [s.split(sep)] for a one-character [sep]. *)
Fixpoint split (sep : ascii) (s : string) : list string :=
  match s with
  | EmptyString => [EmptyString]
  | String c rest =>
      if Ascii.eqb c sep then EmptyString :: split sep rest
      else cons_head c (split sep rest)
  end.

(** The white space [int] skips at the ends of a text, on
    U+0000..U+00FF: the six of C, NEL and the no-break space; unlike
    [str.strip] it keeps U+001C..U+001F. *)
Definition int_space (c : ascii) : bool :=
  PyStr.in_range 9 13 c || (PyStr.code c =? 32)%N
  || (PyStr.code c =? 133)%N || (PyStr.code c =? 160)%N.

Definition strip_with (p : ascii -> bool) (s : string) : string :=
  PyStr.rev (PyStr.dropwhile p (PyStr.rev (PyStr.dropwhile p s))).

Definition digit_value (c : ascii) : Z := Z.of_N (PyStr.code c) - 48.

(** Decimal digits with single underscores between them; [None] is the
    [ValueError] of a text that is not of that form. *)
Fixpoint digits_value (acc : Z) (after_digit : bool) (s : string)
  : option Z :=
  match s with
  | EmptyString => if after_digit then Some acc else None
  | String c rest =>
      if PyStr.is_ascii_digit c
      then digits_value (10 * acc + digit_value c) true rest
      else if Ascii.eqb c "_" && after_digit
           then digits_value acc false rest
           else None
  end.

(** The limit of the interpreter on the digits of a decimal text. *)
Definition max_str_digits : nat := 4300.

(** [int(s)] for a [str]; [None] is its [ValueError]. *)
Definition int (s : string) : option Z :=
  let t := strip_with int_space s in
  let '(negative, body) :=
    match t with
    | String "-" r => (true, r)
    | String "+" r => (false, r)
    | _ => (false, t)
    end in
  match digits_value 0 false body with
  | Some v =>
      if (max_str_digits
            <? String.length (PyStr.filter PyStr.is_ascii_digit body))%nat
      then None
      else Some (if negative then - v else v)
  | None => None
  end.

(** [n / d] for an [int] [n] and a positive [int] [d]: the double
    nearest to the quotient; [None] is the [OverflowError] of a quotient
    beyond the range of a float. *)
Definition true_div (n : Z) (d : positive) : option PyFloat.float :=
  match n with
  | Z0 => Some (S754_zero false)
  | Zpos p =>
      match PyFloat.of_ratio false p d with
      | S754_infinity _ => None
      | q => Some q
      end
  | Zneg p =>
      match PyFloat.of_ratio true p d with
      | S754_infinity _ => None
      | q => Some q
      end
  end.

End PyText.

Module GpuDiscovery.

Record GpuInfo := {
  uuid : string;
  name : string;
  vram_gb : PyFloat.float;
  driver_version : string;
  cuda_version : option string;
  total_memory_mb : Z;
  pcie_link_gen : Z;
  pcie_link_width : Z
}.

(** The body of a registration request. *)
Record RegisterPayload := {
  p_uuid : string;
  p_name : string;
  p_vram_gb : PyFloat.float;
  p_driver : string;
  p_cuda : option string;
  p_region : string;
  p_provider_token : string
}.

Definition to_register_payload (g : GpuInfo) (provider_token region : string)
  : RegisterPayload :=
  {| p_uuid := uuid g;
     p_name := name g;
     p_vram_gb := vram_gb g;
     p_driver := driver_version g;
     p_cuda := cuda_version g;
     p_region := region;
     p_provider_token := provider_token |}.

Inductive Exn :=
| RuntimeError_smi_exit (rc : Z) (stderr : string)
| SubprocessRaised
| NvmlRaised
| ValueError
| OverflowError.

(** What pynvml answers for one device: its UUID and name as text, the
    total memory in bytes, the driver version, and the PCIe generation
    and width ([None] when one of these two queries raises). *)
Record NvmlDevice := {
  d_uuid : string;
  d_name : string;
  d_mem_total : Z;
  d_driver : string;
  d_pcie : option (Z * Z)
}.

(** The end of the [nvidia-smi] process. *)
Inductive SmiOutcome :=
| SmiExit (rc : Z) (stdout stderr : string)
| SmiRaised.

(** [round(n / d, 1)] *)
Definition gb_of (n : Z) (d : positive) : Exn + PyFloat.float :=
  match PyText.true_div n d with
  | Some q => inr (PyFloat.round q 1)
  | None => inl OverflowError
  end.

Definition nvml_gpu (d : NvmlDevice) : Exn + GpuInfo :=
  match gb_of (d_mem_total d) (1024 ^ 3) with
  | inl e => inl e
  | inr vram =>
      let '(pcie_gen, pcie_width) := default (4, 16) (d_pcie d) in
      inr {| uuid := d_uuid d;
             name := d_name d;
             vram_gb := vram;
             driver_version := d_driver d;
             cuda_version := None;
             total_memory_mb := d_mem_total d / (1024 * 1024);
             pcie_link_gen := pcie_gen;
             pcie_link_width := pcie_width |}
  end.

(** The results of a loop that appends one for each element and is left
    at the first exception. *)
Fixpoint collect {A B} (f : A -> Exn + option B) (l : list A)
  : Exn + list B :=
  match l with
  | [] => inr []
  | x :: rest =>
      match f x with
      | inl e => inl e
      | inr o =>
          match collect f rest with
          | inl e => inl e
          | inr ys => inr (match o with Some y => y :: ys | None => ys end)
          end
      end
  end.

(** [None] stands for an exception of the import, of [nvmlInit] or of a
    query outside the [try] of the PCIe link. *)
Definition _discover_via_pynvml (o : option (list NvmlDevice))
  : Exn + list GpuInfo :=
  match o with
  | None => inl NvmlRaised
  | Some devices =>
      collect (fun d => match nvml_gpu d with
                        | inl e => inl e
                        | inr g => inr (Some g)
                        end) devices
  end.

(** The entry of a line whose memory field reads as [mb]. *)
Definition smi_gpu_of (uuid name : string) (mb : Z) (driver : string)
  : Exn + GpuInfo :=
  match gb_of mb 1024 with
  | inl e => inl e
  | inr vram =>
      inr {| uuid := uuid;
             name := name;
             vram_gb := vram;
             driver_version := driver;
             cuda_version := None;
             total_memory_mb := mb;
             pcie_link_gen := 4;
             pcie_link_width := 16 |}
  end.

(** The entry made from the first four fields of a line. *)
Definition smi_gpu (uuid name mem_mb_str driver : string) : Exn + GpuInfo :=
  match PyText.int mem_mb_str with
  | None => inl ValueError
  | Some mb => smi_gpu_of uuid name mb driver
  end.

(** One line of the output: skipped with fewer than four fields. *)
Definition parse_line (line : string) : Exn + option GpuInfo :=
  match List.map PyStr.strip (PyText.split "," line) with
  | uuid :: name :: mem_mb_str :: driver :: _ =>
      match smi_gpu uuid name mem_mb_str driver with
      | inl e => inl e
      | inr g => inr (Some g)
      end
  | _ => inr None
  end.

Definition _discover_via_nvidiasmi (o : SmiOutcome) : Exn + list GpuInfo :=
  match o with
  | SmiRaised => inl SubprocessRaised
  | SmiExit rc stdout stderr =>
      if negb (rc =? 0) then inl (RuntimeError_smi_exit rc stderr)
      else collect parse_line (PyText.splitlines (PyStr.strip stdout))
  end.

Definition _mock_gpus : list GpuInfo :=
  [{| uuid := "GPU-MOCK-00000000-0000-0000-0000-000000000001";
      name := "NVIDIA Mock RTX 4090 (CI)";
      vram_gb := PyFloat.of_Z 24;
      driver_version := "545.23.08";
      cuda_version := Some "12.3"%string;
      total_memory_mb := 24576;
      pcie_link_gen := 4;
      pcie_link_width := 16 |}].

(** pynvml first, then [nvidia-smi], which is only run when pynvml has
    failed, then the mock list. *)
Definition discover_gpus (nvml : option (list NvmlDevice))
    (smi : SmiOutcome) : list GpuInfo :=
  match _discover_via_pynvml nvml with
  | inr gpus => gpus
  | inl _ =>
      match _discover_via_nvidiasmi smi with
      | inr gpus => gpus
      | inl _ => _mock_gpus
      end
  end.

End GpuDiscovery.

(** ** agent.py: registration and the start of [run] *)

Module Startup.

Import Agent GpuDiscovery.

(** The answer to a registration request: a success whose body has the
    given [id] and [gpu_id] ([None] for a key that is missing or null), a
    status that is no success, or an exception of the request or of the
    reading of its body. *)
Inductive RegAnswer :=
| RegOk (id gpu_id : option string)
| RegStatus (code : Z)
| RegRaised.

Definition is_ok (r : RegAnswer) : bool :=
  match r with RegOk _ _ => true | _ => false end.

(** [data.get("id") or data.get("gpu_id")] *)
Definition gid_of (id gpu_id : option string) : option string :=
  if truthy id then id else gpu_id.

(** [d[k] = v] on a dict, kept in the order of its insertions. *)
Fixpoint dict_set {V} (k : string) (v : V) (d : list (string * V))
  : list (string * V) :=
  match d with
  | [] => [(k, v)]
  | (k', v') :: rest =>
      if String.eqb k k' then (k, v) :: rest
      else (k', v') :: dict_set k v rest
  end.

(** The requests sent, the list returned, and [_registered_gpu_ids],
    which maps the UUID of a device to the id of the platform. *)
Record Registration := {
  requests : list RegisterPayload;
  platform_ids : list (option string);
  registered : list (string * option string)
}.

(** The loop of [register_gpus] from the request number [i] on. *)
Fixpoint register_from (a : ProviderAgent) (answers : nat -> RegAnswer)
    (i : nat) (gpus : list GpuInfo)
    (reg : list (string * option string)) : Registration :=
  match gpus with
  | [] => {| requests := []; platform_ids := []; registered := reg |}
  | g :: rest =>
      let request := to_register_payload g (token a) (region a) in
      match answers i with
      | RegOk id gpu_id =>
          let gid := gid_of id gpu_id in
          let r := register_from a answers (S i) rest
                     (dict_set (uuid g) gid reg) in
          {| requests := request :: requests r;
             platform_ids := gid :: platform_ids r;
             registered := registered r |}
      | RegStatus _ | RegRaised =>
          let r := register_from a answers (S i) rest reg in
          {| requests := request :: requests r;
             platform_ids := platform_ids r;
             registered := registered r |}
      end
  end.

Definition register_gpus (a : ProviderAgent)
    (nvml : option (list NvmlDevice)) (smi : SmiOutcome)
    (answers : nat -> RegAnswer) : Registration :=
  register_from a answers 0 (discover_gpus nvml smi) [].

(** [list(self._registered_gpu_ids.values())] as a poll can use it.  A
    poll joins the ids with commas inside its [try]: with an id that is
    [None] the join raises, and the poll answers with no job before any
    request is made, which is what it does without any id; the empty
    list stands for both. *)
Definition joined_ids (reg : list (string * option string)) : list string :=
  default [] (mapM snd reg).

Definition with_registered (a : ProviderAgent) (ids : list string)
  : ProviderAgent :=
  {| api_url := api_url a; token := token a; region := region a;
     poll_interval := poll_interval a; node_id := node_id a;
     _active_jobs := _active_jobs a; _registered_gpu_ids := ids |}.

Inductive RunOutcome :=
| SysExit (code : Z)
| Looped (iterations : list trace).

(** [run]: the registration, then the exit for want of a registered
    device or the iterations of the main loop. *)
Definition run (a : ProviderAgent) (nvml : option (list NvmlDevice))
    (smi : SmiOutcome) (answers : nat -> RegAnswer)
    (inputs : list TickInput) : list RegisterPayload * RunOutcome :=
  let r := register_gpus a nvml smi answers in
  match platform_ids r with
  | [] => (requests r, SysExit 1)
  | _ :: _ =>
      (requests r,
       Looped (main_loop (with_registered a (joined_ids (registered r)))
                 0 inputs))
  end.

End Startup.

(** ** The output of [nvidia-smi]

    What the tool prints for the query of the discovery: one line for
    each device, its four fields separated by a comma and a blank. *)

Module Smi.

Record Row := {
  row_uuid : string;
  row_name : string;
  row_mem : Z;
  row_driver : string
}.

Definition csv_line (r : Row) : string :=
  (row_uuid r ++ ", " ++ row_name r ++ ", " ++ PyStr.of_Z (row_mem r)
   ++ ", " ++ row_driver r)%string.

Fixpoint csv (rows : list Row) : string :=
  match rows with
  | [] => EmptyString
  | r :: rest => (csv_line r ++ String PyText.LF (csv rest))%string
  end.

Definition first_char_ok (p : ascii -> bool) (s : string) : bool :=
  match s with
  | EmptyString => false
  | String c _ => negb (p c)
  end.

Definition plain_char (c : ascii) : bool :=
  negb (Ascii.eqb c ",") && negb (PyText.is_linebreak c).

(** One step of reading a decimal number from the left. *)
Definition shift_digit (a : Z) (c : ascii) : Z :=
  10 * a + PyText.digit_value c.

Definition no_linebreak (s : string) : bool :=
  PyStr.forallb (fun c => negb (PyText.is_linebreak c)) s.

Definition no_comma (s : string) : bool :=
  PyStr.forallb (fun c => negb (Ascii.eqb c ",")) s.

(** A field as the tool prints it: not empty, without a comma or a line
    break, and without white space at its ends. *)
Definition field_ok (f : string) : bool :=
  PyStr.forallb plain_char f
  && first_char_ok PyStr.isspace f
  && first_char_ok PyStr.isspace (PyStr.rev f).

Definition row_ok (r : Row) : bool :=
  field_ok (row_uuid r) && field_ok (row_name r) && field_ok (row_driver r)
  && (Z.abs (row_mem r) <? 2 ^ 4300).

(** The entries the discovery makes of rows whose fields it has read. *)
Definition gpu_of_row (r : Row) : GpuDiscovery.Exn + option GpuDiscovery.GpuInfo :=
  match GpuDiscovery.smi_gpu_of (row_uuid r) (row_name r) (row_mem r)
          (row_driver r) with
  | inl e => inl e
  | inr g => inr (Some g)
  end.

End Smi.

(** ** agent.py: the main loop together with its runner threads

    [Agent.tick] takes the jobs whose entries have been removed since the
    previous iteration as they are given.  Here they follow from the
    threads: each thread runs its job in an environment of its own, and
    it removes the entry of its job in the [finally] of the block that
    follows [runner.run()], which it reaches only when [run] returns. *)

Module Threads.

Import JobRunner Agent.

(** Whether the thread of a job gets to
    [self._active_jobs.pop(job_id, None)]; [envs] has the environment in
    which the thread of each active job runs. *)
Definition pops (a : ProviderAgent) (envs : gmap string Env)
    (job_id : string) : bool :=
  match _active_jobs a !! job_id, envs !! job_id with
  | Some m, Some w =>
      match returned (run (runner_of a m) w) with
      | inr _ => true
      | inl _ => false
      end
  | _, _ => false
  end.

(** An iteration as the main loop meets it, [t_ended i] being the jobs
    whose threads have come to their end, in whatever way: only those
    that got to the [pop] have removed their entry. *)
Definition seen (a : ProviderAgent) (envs : gmap string Env) (i : TickInput)
  : TickInput :=
  {| t_poll := t_poll i; t_ack := t_ack i;
     t_ended := List.filter (pops a envs) (t_ended i) |}.

(** The environments after an iteration: a thread that was running
    before the admissions keeps its own, a thread that was started gets
    the one the iteration has for it. *)
Definition envs_after (envs : gmap string Env)
    (before after : ProviderAgent) (fresh : string -> Env)
  : gmap string Env :=
  map_imap (fun j _ =>
              Some (match _active_jobs before !! j, envs !! j with
                    | Some _, Some w => w
                    | _, _ => fresh j
                    end))
    (_active_jobs after).

(** The iterations of the main loop, one trace for each; an iteration is
    given with the environments of the threads it starts. *)
Fixpoint main_loop (a : ProviderAgent) (heartbeat_counter : Z)
    (envs : gmap string Env)
    (inputs : list (TickInput * (string -> Env))) : list trace :=
  match inputs with
  | [] => []
  | (i, fresh) :: rest =>
      let i' := seen a envs i in
      match tick a heartbeat_counter i' with
      | (t, inl _) => [t]
      | (t, inr (a', c')) =>
          t :: main_loop a' c'
                 (envs_after envs (reap a (t_ended i')) a' fresh) rest
      end
  end.

End Threads.

Module Inputs3.

(** The job of [Inputs.raw_j1] with its thread, which has raised at the
    check of the digest. *)
Definition stuck_agent : Agent.ProviderAgent :=
  Agent.with_active (Inputs.agent_polling_every 15)
    {[ "j1"%string := Agent.build_manifest "j1" Inputs.raw_j1 ]}.

Definition stuck_envs : gmap string JobRunner.Env :=
  {[ "j1"%string := Inputs.env_with (JobRunner.Exited 0 "" "") ]}.

(** The iterations of [Inputs.busy_ticks], every thread started in them
    meeting a container that exits with 0. *)
Definition busy_threads
  : list (Agent.TickInput * (string -> JobRunner.Env)) :=
  List.map (fun i => (i, fun _ : string =>
                           Inputs.env_with (JobRunner.Exited 0 "" "")))
    Inputs.busy_ticks.

(** Two devices as [nvidia-smi] lists them. *)
Definition two_rows : list Smi.Row :=
  [{| Smi.row_uuid := "GPU-5a3c1e2f"; Smi.row_name := "NVIDIA GeForce RTX 4090";
      Smi.row_mem := 24564; Smi.row_driver := "545.23.08" |};
   {| Smi.row_uuid := "GPU-77b0d9aa"; Smi.row_name := "NVIDIA A100-SXM4-80GB";
      Smi.row_mem := 81920; Smi.row_driver := "545.23.08" |}].

(** An output in which the memory of the second device is not given. *)
Definition output_without_memory : string :=
  ("GPU-5a3c1e2f, NVIDIA GeForce RTX 4090, 24564, 545.23.08"
   ++ String PyText.LF "GPU-77b0d9aa, NVIDIA A100-SXM4-80GB, [N/A], 545.23.08"
   ++ String PyText.LF "")%string.

(** Every registration is answered with a success that names no id. *)
Definition answers_without_id : nat -> Startup.RegAnswer :=
  fun _ => Startup.RegOk None None.



(** Every registration is refused. *)
Definition answers_refused : nat -> Startup.RegAnswer :=
  fun _ => Startup.RegStatus 401.

End Inputs3.

(** * Properties *)

(** ** The compute-pattern classifier *)

Section Classifier.

Import Telemetry.

Lemma infer_pattern_refines_spec g o u s :
  _infer_pattern g o u s = Spec.spec_pattern g o u s.
Proof.
  unfold _infer_pattern, Spec.spec_pattern; destruct s as [|x s]; reflexivity.
Qed.

(** C9: [_infer_pattern] is the decision list of the specification, rule
    by rule with the first match winning, and it is a function of its four
    arguments alone: equal arguments give equal labels. *)
Theorem infer_pattern_decision_list (g o u : Z) (s : list string) :
  let r := _infer_pattern g o u s in
  (s <> [] -> r = "CRYPTO_MINING"%string)
  /\ (s = [] -> 85 < g /\ o < 5000000 -> r = "TRAINING"%string)
  /\ (s = [] -> ~ (85 < g /\ o < 5000000) -> 30 < u /\ g < 20 ->
      r = "NETWORK_HEAVY"%string)
  /\ (s = [] -> ~ (85 < g /\ o < 5000000) -> ~ (30 < u /\ g < 20) -> g < 5 ->
      r = "IDLE"%string)
  /\ (s = [] -> ~ (85 < g /\ o < 5000000) -> ~ (30 < u /\ g < 20) ->
      ~ g < 5 -> r = "INFERENCE"%string)
  /\ (forall g' o' u' s', g' = g -> o' = o -> u' = u -> s' = s ->
      _infer_pattern g' o' u' s' = r).
Proof.
  cbv zeta. unfold _infer_pattern.
  repeat split.
  - destruct s; [congruence | reflexivity].
  - intros -> [Hg Ho]. simpl.
    apply Z.ltb_lt in Hg, Ho. now rewrite Hg, Ho.
  - intros -> H2 [Hu Hg]. simpl.
    destruct (85 <? g) eqn:E1; destruct (o <? 5000000) eqn:E2; simpl;
      try (apply Z.ltb_lt in E1, E2; tauto);
      apply Z.ltb_lt in Hu, Hg; now rewrite Hu, Hg.
  - intros -> H2 H3 Hg. simpl.
    destruct (85 <? g) eqn:E1; destruct (o <? 5000000) eqn:E2; simpl;
      try (apply Z.ltb_lt in E1, E2; tauto);
      (destruct (30 <? u) eqn:E3; destruct (g <? 20) eqn:E4; simpl;
       try (apply Z.ltb_lt in E3, E4; tauto));
      apply Z.ltb_lt in Hg; now rewrite Hg.
  - intros -> H2 H3 Hg. simpl.
    destruct (85 <? g) eqn:E1; destruct (o <? 5000000) eqn:E2; simpl;
      try (apply Z.ltb_lt in E1, E2; tauto);
      (destruct (30 <? u) eqn:E3; destruct (g <? 20) eqn:E4; simpl;
       try (apply Z.ltb_lt in E3, E4; tauto));
      (destruct (g <? 5) eqn:E5; [apply Z.ltb_lt in E5; tauto | reflexivity]).
  - intros g' o' u' s' -> -> -> ->. reflexivity.
Qed.

Lemma infer_pattern_decision_list_witness :
  _infer_pattern 90 1000 3 [] = "TRAINING"%string.
Proof.
  apply (proj1 (proj2 (infer_pattern_decision_list 90 1000 3 []))).
  - reflexivity.
  - split; lia.
Defined.

End Classifier.

(** ** The telemetry payload *)

Section Payload.

Import Telemetry.

Lemma filter_is_suspicious (l : list string) :
  List.filter _is_suspicious l = [].
Proof. induction l as [|x l IH]; simpl; auto. Qed.

Lemma collect_network_no_suspicious c r :
  suspicious_destinations (fst (_collect_network c r)) = [].
Proof.
  destruct r as [n|]; simpl; [apply filter_is_suspicious | reflexivity].
Qed.

Lemma infer_pattern_nil g o u :
  _infer_pattern g o u [] <> "CRYPTO_MINING"%string.
Proof.
  unfold _infer_pattern; simpl.
  destruct ((85 <? g) && (o <? 5000000)); [discriminate|].
  destruct ((30 <? u) && (g <? 20)); [discriminate|].
  destruct (g <? 5); discriminate.
Qed.

Lemma payload_suspicious_key (psig : ProcSignals) (nsig : NetSignals)
    (rest : pydict) :
  (proc_dict psig ∪ (net_dict nsig ∪ rest)) !! "suspicious_destinations"
  = Some (VStrList (suspicious_destinations nsig)).
Proof.
  rewrite lookup_union_r by (unfold proc_dict; by simplify_map_eq).
  apply lookup_union_Some_l. unfold net_dict. by simplify_map_eq.
Qed.

(** C10: every payload built by the collector has an empty
    [suspicious_destinations] list, and its [gpu_compute_pattern] is never
    [CRYPTO_MINING]. *)
Theorem payload_never_crypto_mining (c : TelemetryCollector) (s : Sample) :
  fst (_build_payload c s) !! "suspicious_destinations" = Some (VStrList [])
  /\ fst (_build_payload c s) !! "gpu_compute_pattern"
     <> Some (VStr "CRYPTO_MINING").
Proof.
  unfold _build_payload.
  destruct (_collect_gpu c (s_gpu s)) as [g c1].
  pose proof (collect_network_no_suspicious c1 (s_net s)) as Hs.
  destruct (_collect_network c1 (s_net s)) as [n c2]; simpl in Hs |- *.
  split.
  - rewrite lookup_insert_ne by done. rewrite lookup_insert_ne by done.
    rewrite payload_suspicious_key. by rewrite Hs.
  - rewrite lookup_insert_eq. rewrite Hs.
    intros [= H]. by apply infer_pattern_nil in H.
Qed.

End Payload.

(** ** Admission *)

Section Admission.

Import Agent.

(** The ways [_accept_job] ends: without a request; with a failed or
    an unanswered ACK as its only request, returning or raising; with an
    ACK and the start of a thread for a text id that was not active. *)
Lemma accept_outcome_cases (a : ProviderAgent) (raw : RawJob) (ack : bool) :
  (exists e, _accept_job_outcome a raw ack = ([], a, e)
             /\ (e = None \/ e = Some TypeError_unhashable))
  \/ (exists j e, _accept_job_outcome a raw ack = ([EvAck j], a, e)
                  /\ (ack = false -> e = None)
                  /\ (ack = true -> exists x, e = Some x))
  \/ (exists j, job_id_of raw = Some j
                /\ truthy (Some j) = true
                /\ _active_jobs a !! j = None /\ ack = true
                /\ convertible raw = true
                /\ _accept_job_outcome a raw ack
                   = ([EvAck j; EvSpawn j],
                      with_active a (<[j := build_manifest j raw]>
                                       (_active_jobs a)),
                      None)).
Proof.
  unfold _accept_job_outcome, job_id_of.
  destruct (id_of raw) as [id|]; [|left; eauto].
  destruct (id_truthy (Some id)) eqn:Ht; cbn [negb]; [|left; eauto].
  destruct (id_hashable id) eqn:Hh; cbn [negb]; [|left; eauto].
  destruct (id_active a id) eqn:Ha; [left; eauto|].
  destruct ack; cbn [negb].
  - destruct (convertible raw) eqn:Hc; cbn [negb].
    + destruct id as [s|t h x].
      * right. right. exists s. repeat split; try assumption.
        simpl in Ha. apply bool_decide_eq_false in Ha.
        destruct (_active_jobs a !! s) eqn:E; [|reflexivity].
        exfalso. apply Ha. eauto.
      * right. left. exists x, (Some TypeError_not_sliceable).
        repeat split; [discriminate|eauto].
    + right. left. exists (id_text id), (Some FloatRaised).
      repeat split; [discriminate|eauto].
  - right. left. exists (id_text id), None.
    repeat split. discriminate.
Qed.

Lemma accept_outcome_active (a : ProviderAgent) (raw : RawJob)
    (ack_sent : bool) (job_id : string) :
  job_id_of raw = Some job_id ->
  is_Some (_active_jobs a !! job_id) ->
  _accept_job_outcome a raw ack_sent = ([], a, None).
Proof.
  intros Hid Hm. unfold _accept_job_outcome.
  unfold job_id_of in Hid.
  destruct (id_of raw) as [[s|t h x]|]; try discriminate Hid.
  injection Hid as ->.
  destruct (id_truthy (Some (IdStr job_id))); cbn [negb]; [|reflexivity].
  cbn [id_hashable id_active negb].
  now rewrite bool_decide_eq_true_2 by exact Hm.
Qed.

Lemma accept_job_active (a : ProviderAgent) (raw : RawJob)
    (ack_sent : bool) (job_id : string) :
  job_id_of raw = Some job_id ->
  is_Some (_active_jobs a !! job_id) ->
  _accept_job a raw ack_sent = ([], a).
Proof.
  intros Hid Hm. unfold _accept_job.
  now rewrite (accept_outcome_active a raw ack_sent job_id Hid Hm).
Qed.

(** The loop over the entries, one entry at a time. *)
Lemma accept_all_cons (a : ProviderAgent) (ack : RawJob -> bool)
    (j : RawJob) (rest : list RawJob) :
  accept_all a ack (j :: rest)
  = match snd (_accept_job_outcome a j (ack j)) with
    | Some _ => _accept_job a j (ack j)
    | None =>
        let '(t1, a1) := _accept_job a j (ack j) in
        let '(t2, a2) := accept_all a1 ack rest in
        (t1 ++ t2, a2)
    end.
Proof.
  unfold accept_all, _accept_job. cbn [accept_all_outcome].
  destruct (_accept_job_outcome a j (ack j)) as [[t1 a1] [e|]]; [reflexivity|].
  cbn [fst snd].
  destruct (accept_all_outcome a1 ack rest) as [[t2 a2] e2]. reflexivity.
Qed.

(** C7: a job whose id is already a key of the active map is not accepted
    again: no request is sent, no runner thread is created and the agent
    is unchanged. *)
Theorem accept_active_job_noop (a : ProviderAgent) (raw : RawJob)
    (ack_sent : bool) (job_id : string) :
  job_id_of raw = Some job_id ->
  is_Some (_active_jobs a !! job_id) ->
  _accept_job a raw ack_sent = ([], a)
  /\ existsb is_ack (fst (_accept_job a raw ack_sent)) = false
  /\ existsb is_spawn (fst (_accept_job a raw ack_sent)) = false.
Proof.
  intros Hid Hact.
  rewrite (accept_job_active a raw ack_sent job_id Hid Hact). auto.
Qed.

Lemma accept_active_job_noop_witness :
  let a := Agent.with_active (Inputs.agent_polling_every 15)
             {[ "j1"%string := Inputs.bad_manifest ]} in
  _accept_job a Inputs.raw_j1 true = ([], a)
  /\ existsb is_ack (fst (_accept_job a Inputs.raw_j1 true)) = false
  /\ existsb is_spawn (fst (_accept_job a Inputs.raw_j1 true)) = false.
Proof.
  apply (accept_active_job_noop _ Inputs.raw_j1 true "j1").
  - reflexivity.
  - simpl. rewrite lookup_singleton_eq. eauto.
Defined.

(** A whole poll response of jobs that are all active changes nothing. *)
Lemma accept_all_active_noop (a : ProviderAgent) (ack : RawJob -> bool)
    (jobs : list RawJob) :
  Forall (fun raw => exists j, job_id_of raw = Some j
                               /\ is_Some (_active_jobs a !! j)) jobs ->
  accept_all a ack jobs = ([], a).
Proof.
  induction 1 as [|raw jobs [j [Hj Ha]] _ IH]; [reflexivity|].
  rewrite accept_all_cons.
  rewrite (accept_outcome_active a raw (ack raw) j Hj Ha).
  rewrite (accept_job_active a raw (ack raw) j Hj Ha).
  cbn [snd]. now rewrite IH.
Qed.

Lemma accept_outcome_new (a : ProviderAgent) (raw : RawJob)
    (job_id : string) :
  job_id_of raw = Some job_id ->
  truthy (Some job_id) = true ->
  _active_jobs a !! job_id = None ->
  convertible raw = true ->
  _accept_job_outcome a raw true
  = ([EvAck job_id; EvSpawn job_id],
     with_active a (<[job_id := build_manifest job_id raw]> (_active_jobs a)),
     None).
Proof.
  intros Hid Ht Hn Hc. unfold _accept_job_outcome.
  unfold job_id_of in Hid.
  destruct (id_of raw) as [[s|t h x]|]; try discriminate Hid.
  injection Hid as ->.
  cbn [id_truthy id_hashable id_active negb]. rewrite Ht, Hn, Hc.
  cbn [negb]. rewrite bool_decide_eq_false_2; [reflexivity|].
  intros [x Hx]. discriminate Hx.
Qed.

(** An accepted job is active afterwards, so that its second delivery in
    the same response is the case above. *)
Lemma accept_new_job (a : ProviderAgent) (raw : RawJob) (job_id : string) :
  job_id_of raw = Some job_id ->
  truthy (Some job_id) = true ->
  _active_jobs a !! job_id = None ->
  convertible raw = true ->
  _accept_job a raw true
  = ([EvAck job_id; EvSpawn job_id],
     with_active a (<[job_id := build_manifest job_id raw]> (_active_jobs a))).
Proof.
  intros Hid Ht Hn Hc. unfold _accept_job.
  now rewrite (accept_outcome_new a raw job_id Hid Ht Hn Hc).
Qed.

Lemma accept_twice (a : ProviderAgent) (raw : RawJob) (job_id : string) :
  job_id_of raw = Some job_id ->
  truthy (Some job_id) = true ->
  _active_jobs a !! job_id = None ->
  convertible raw = true ->
  fst (accept_all a (fun _ => true) [raw; raw])
  = [EvAck job_id; EvSpawn job_id].
Proof.
  intros Hid Ht Hn Hc. rewrite accept_all_cons.
  rewrite (accept_outcome_new a raw job_id Hid Ht Hn Hc).
  rewrite (accept_new_job a raw job_id Hid Ht Hn Hc). cbn [snd].
  rewrite accept_all_cons.
  assert (Hact : is_Some (_active_jobs
                            (with_active a (<[job_id := build_manifest job_id raw]>
                                              (_active_jobs a))) !! job_id))
    by (simpl; rewrite lookup_insert_eq; eauto).
  rewrite (accept_outcome_active _ raw true job_id Hid Hact).
  rewrite (accept_job_active _ raw true job_id Hid Hact).
  reflexivity.
Qed.

End Admission.

(** ** The main loop and its heartbeat *)

Section Heartbeat.

Import Agent.

Lemma accept_job_no_heartbeat a raw ack :
  sends_heartbeat (fst (_accept_job a raw ack)) = false.
Proof.
  unfold _accept_job.
  destruct (accept_outcome_cases a raw ack)
    as [(e & -> & _)|[(j & e & -> & _)|(j & _ & _ & _ & _ & _ & ->)]];
    reflexivity.
Qed.


Lemma accept_all_no_heartbeat ack jobs : forall a,
  sends_heartbeat (fst (accept_all a ack jobs)) = false.
Proof.
  induction jobs as [|j jobs IH]; intros a; [reflexivity|].
  rewrite accept_all_cons.
  pose proof (accept_job_no_heartbeat a j (ack j)) as H1.
  destruct (snd (_accept_job_outcome a j (ack j))); [exact H1|].
  destruct (_accept_job a j (ack j)) as [t1 a1].
  specialize (IH a1). destruct (accept_all a1 ack jobs) as [t2 a2].
  simpl in *. unfold sends_heartbeat in *.
  now rewrite existsb_app, H1, IH.
Qed.


Lemma poll_jobs_no_heartbeat a o :
  sends_heartbeat (fst (poll_jobs a o)) = false.
Proof. unfold poll_jobs. destruct (_registered_gpu_ids a); reflexivity. Qed.

(** On an entry that is typed [_accept_job] does not raise. *)
Lemma accept_outcome_typed a raw ack :
  typed_job raw = true -> snd (_accept_job_outcome a raw ack) = None.
Proof.
  unfold typed_job, _accept_job_outcome.
  intros [Hc Hid]%andb_prop.
  destruct (id_of raw) as [[s|t h x]|]; [|discriminate Hid|reflexivity].
  destruct (id_truthy (Some (IdStr s))); cbn [negb]; [|reflexivity].
  cbn [id_hashable negb].
  destruct (id_active a (IdStr s)); [reflexivity|].
  destruct ack; cbn [negb]; [|reflexivity].
  rewrite Hc. reflexivity.
Qed.

Lemma accept_all_typed ack jobs : forall a,
  forallb typed_job jobs = true ->
  snd (accept_all_outcome a ack jobs) = None.
Proof.
  induction jobs as [|j jobs IH]; intros a H; [reflexivity|].
  simpl in H. apply andb_prop in H as [Hj Hjobs].
  cbn [accept_all_outcome].
  pose proof (accept_outcome_typed a j (ack j) Hj) as Hn.
  destruct (_accept_job_outcome a j (ack j)) as [[t1 a1] e].
  simpl in Hn. subst e.
  specialize (IH a1 Hjobs).
  destruct (accept_all_outcome a1 ack jobs) as [[t2 a2] e2]. exact IH.
Qed.

(** The loop over the entries in terms of its parts. *)
Lemma accept_all_outcome_parts a ack jobs :
  accept_all_outcome a ack jobs
  = (fst (accept_all a ack jobs), snd (accept_all a ack jobs),
     snd (accept_all_outcome a ack jobs)).
Proof.
  unfold accept_all.
  now destruct (accept_all_outcome a ack jobs) as [[t x] e].
Qed.







Lemma poll_jobs_typed a o :
  typed_poll o = true ->
  snd (snd (poll_jobs a o)) = false
  /\ forallb typed_job (fst (snd (poll_jobs a o))) = true.
Proof.
  unfold poll_jobs. destruct (_registered_gpu_ids a); [split; reflexivity|].
  destruct o; simpl; intros H; try discriminate H; split; auto.
Qed.

(** An iteration whose answer is typed, in terms of its parts. *)
Lemma tick_typed a c i :
  typed_poll (t_poll i) = true ->
  let a0 := reap a (t_ended i) in
  let tp := fst (poll_jobs a0 (t_poll i)) in
  let jobs := fst (snd (poll_jobs a0 (t_poll i))) in
  let ta := fst (accept_all a0 (t_ack i) jobs) in
  let a1 := snd (accept_all a0 (t_ack i) jobs) in
  tick a c i
  = if poll_interval a =? 0 then (tp ++ ta, inl ZeroDivisionError)
    else
      let '(th, counter') :=
        if 60 / poll_interval a <=? c + 1
        then ([EvHeartbeat (size (_active_jobs a1))], 0)
        else ([], c + 1) in
      if (poll_interval a <? - sleep_limit) || (sleep_limit <? poll_interval a)
      then (tp ++ ta ++ th, inl SleepOverflowError)
      else if poll_interval a <? 0
      then (tp ++ ta ++ th, inl SleepValueError)
      else (tp ++ ta ++ th ++ [EvSleep (poll_interval a)], inr (a1, counter')).
Proof.
  intros Hty. cbv zeta. unfold tick.
  destruct (poll_jobs_typed (reap a (t_ended i)) (t_poll i) Hty) as [Hb Hj].
  destruct (poll_jobs (reap a (t_ended i)) (t_poll i)) as [tp [jobs broken]].
  cbn [fst snd] in *. subst broken.
  rewrite (accept_all_outcome_parts _ _ jobs).
  rewrite (accept_all_typed (t_ack i) jobs _ Hj).
  reflexivity.
Qed.



(** Eight iterations of an agent at work: the job is started in the first,
    passed over in the fourth, its entry is removed before the fifth,
    its ACK fails in the sixth and it is started again in the eighth. *)
Example busy_loop :
  main_loop (Inputs.agent_polling_every 15) 0 Inputs.busy_ticks
  = [[EvPoll; EvAck "j1"; EvSpawn "j1"; EvSleep 15];
     [EvPoll; EvSleep 15]; [EvPoll; EvSleep 15];
     [EvPoll; EvHeartbeat 1; EvSleep 15];
     [EvPoll; EvSleep 15]; [EvPoll; EvAck "j1"; EvSleep 15];
     [EvPoll; EvSleep 15];
     [EvPoll; EvAck "j1"; EvSpawn "j1"; EvHeartbeat 1; EvSleep 15]]%string.
Proof. vm_compute. reflexivity. Qed.

(** An entry whose memory limit is a null ends the loop in the iteration
    that admits it, after its ACK and before the heartbeat that was due;
    an interval beyond the range of the sleep ends it in the first
    iteration. *)
Example loop_ends_by_itself :
  main_loop (Inputs.agent_polling_every 60) 0
    [{| t_poll := PollOk [Inputs.raw_null_ram]; t_ack := fun _ => true;
        t_ended := [] |}; Inputs.idle_tick]
  = [[EvPoll; EvAck "j2"]]%string
  /\ snd (tick (Inputs.agent_polling_every 60) 0
            {| t_poll := PollOk [Inputs.raw_null_ram];
               t_ack := fun _ => true; t_ended := [] |})
     = inl (AcceptRaised FloatRaised)
  /\ main_loop (Inputs.agent_polling_every 9223372037) 0
       [Inputs.idle_tick; Inputs.idle_tick]
     = [[EvPoll; EvHeartbeat 0]]
  /\ snd (tick (Inputs.agent_polling_every 9223372037) 0 Inputs.idle_tick)
     = inl SleepOverflowError.
Proof. repeat split; vm_compute; reflexivity. Qed.


End Heartbeat.

(** ** Environment sanitisation *)

Section EnvArgs.

Import JobRunner.

Lemma filter_forallb p s : PyStr.forallb p (PyStr.filter p s) = true.
Proof.
  induction s as [|c s IH]; simpl; [reflexivity|].
  destruct (p c) eqn:E; simpl; [now rewrite E|assumption].
Qed.

Lemma forallb_filter_mono p q s :
  PyStr.forallb p s = true -> PyStr.forallb p (PyStr.filter q s) = true.
Proof.
  induction s as [|c s IH]; simpl; [reflexivity|].
  intros [Hc Hs]%andb_prop.
  destruct (q c); simpl; [rewrite Hc|]; auto.
Qed.

Lemma forallb_take p n : forall s,
  PyStr.forallb p s = true -> PyStr.forallb p (PyStr.take n s) = true.
Proof.
  induction n as [|n IH]; intros [|c s]; simpl; try reflexivity.
  intros [Hc Hs]%andb_prop. rewrite Hc. now apply IH.
Qed.

Lemma length_take n : forall s, (String.length (PyStr.take n s) <= n)%nat.
Proof.
  induction n as [|n IH]; intros [|c s]; simpl; try lia.
  specialize (IH s). lia.
Qed.

Lemma filter_filter p q s :
  PyStr.filter q (PyStr.filter p s) = PyStr.filter (fun c => p c && q c) s.
Proof.
  induction s as [|c s IH]; simpl; [reflexivity|].
  destruct (p c); simpl; [destruct (q c)|]; now rewrite ?IH.
Qed.

Lemma filter_ext p q s :
  (forall c, p c = q c) -> PyStr.filter p s = PyStr.filter q s.
Proof.
  intros H. induction s as [|c s IH]; simpl; [reflexivity|].
  now rewrite H, IH.
Qed.

(** The three replacements in a row remove exactly NUL, LF and CR. *)
Lemma clean_val_spec v : clean_val v = Spec.spec_val v.
Proof.
  unfold clean_val, Spec.spec_val, PyStr.remove. f_equal.
  rewrite !filter_filter. apply filter_ext. intros c.
  unfold Spec.is_nul_lf_cr.
  destruct (Ascii.eqb c "000"), (Ascii.eqb c "010"), (Ascii.eqb c "013");
    reflexivity.
Qed.

(** On ASCII, [isalnum] or underscore is the class [[A-Za-z0-9_]]. *)
Lemma key_char_ascii c :
  PyStr.is_ascii c = true -> key_char c = PyStr.is_word_char c.
Proof.
  destruct c as [[] [] [] [] [] [] [] []]; vm_compute;
    intros H; first [reflexivity | discriminate H].
Qed.

Lemma clean_key_ascii k :
  PyStr.forallb PyStr.is_ascii k = true -> clean_key k = Spec.spec_key k.
Proof.
  unfold clean_key, Spec.spec_key.
  induction k as [|c k IH]; simpl; [reflexivity|].
  intros [Hc Hk]%andb_prop. rewrite (key_char_ascii c Hc).
  now rewrite IH.
Qed.

Lemma build_env_args_flat_map env :
  _build_env_args env = flat_map env_entry env.
Proof.
  induction env as [|[k v] env IH]; simpl; [reflexivity|].
  unfold env_entry at 1; simpl.
  destruct (str_empty (clean_key k)); simpl; now rewrite IH.
Qed.

Lemma kept_char_key_char c : Spec.kept_char c = key_char c.
Proof.
  unfold Spec.kept_char, key_char. f_equal.
  destruct c as [[] [] [] [] [] [] [] []]; reflexivity.
Qed.

Lemma clean_key_amended k : clean_key k = Spec.amended_key k.
Proof.
  unfold clean_key, Spec.amended_key. apply filter_ext.
  intros c. symmetry. apply kept_char_key_char.
Qed.

Lemma build_env_args_amended env :
  _build_env_args env = Spec.amended_env_args env.
Proof.
  unfold Spec.amended_env_args.
  induction env as [|[k v] env IH]; simpl; [reflexivity|].
  unfold Spec.amended_env_entry at 1. cbn [fst snd].
  rewrite <- clean_key_amended, <- clean_val_spec, IH.
  unfold str_empty. destruct (clean_key k); reflexivity.
Qed.

(** C3, as the code has it.  The arguments are what the rule gives when
    it is read with the characters [c] for which [c.isalnum()] holds or
    which are an underscore: the entries in order, an entry being
    dropped exactly when none of the characters of its key is such a
    character, and otherwise rendered as [--env], [key=value] with the
    such characters of the key, in their order, and with the value
    without NUL, LF and CR and cut to 4096 characters.  The kept
    characters are those of [[A-Za-z0-9_]] and the letters and digits of
    U+00AA..U+00FF; for a key of ASCII characters the key that is passed
    on is the one the rule with [[A-Za-z0-9_]] gives. *)
Theorem env_args_sanitized (env : list (string * string)) :
  _build_env_args env = Spec.amended_env_args env
  /\ _build_env_args env = flat_map env_entry env
  /\ (forall c,
        Spec.kept_char c
        = (PyStr.is_word_char c
           || (PyStr.code c =? 170)%N || PyStr.in_range 178 179 c
           || (PyStr.code c =? 181)%N || PyStr.in_range 185 186 c
           || PyStr.in_range 188 190 c || PyStr.in_range 192 214 c
           || PyStr.in_range 216 246 c || PyStr.in_range 248 255 c))
  /\ forall k v,
       _build_env_args [(k, v)]
       = (if PyStr.forallb (fun c => negb (Spec.kept_char c)) k then []
          else ["--env";
                PyStr.filter Spec.kept_char k ++ "=" ++ Spec.spec_val v]%string)
       /\ clean_key k = Spec.amended_key k
       /\ PyStr.forallb Spec.kept_char (clean_key k) = true
       /\ PyStr.forallb key_char (clean_key k) = true
       /\ clean_val v = Spec.spec_val v
       /\ PyStr.forallb (fun c => negb (Spec.is_nul_lf_cr c)) (clean_val v)
          = true
       /\ (String.length (clean_val v) <= 4096)%nat
       /\ (PyStr.forallb PyStr.is_ascii k = true -> clean_key k = Spec.spec_key k).
Proof.
  split; [apply build_env_args_amended|].
  split; [apply build_env_args_flat_map|].
  split.
  { intros c. destruct c as [[] [] [] [] [] [] [] []]; reflexivity. }
  intros k v. repeat split.
  - rewrite build_env_args_amended. cbn [Spec.amended_env_args flat_map].
    rewrite app_nil_r. unfold Spec.amended_env_entry. cbn [fst snd].
    unfold Spec.amended_key.
    induction k as [|c k IH]; [reflexivity|]. cbn [PyStr.filter PyStr.forallb].
    destruct (Spec.kept_char c); cbn [negb andb]; [reflexivity|exact IH].
  - apply clean_key_amended.
  - rewrite clean_key_amended. apply filter_forallb.
  - apply filter_forallb.
  - apply clean_val_spec.
  - rewrite clean_val_spec. unfold Spec.spec_val.
    apply forallb_take, filter_forallb.
  - apply length_take.
  - apply clean_key_ascii.
Qed.

Lemma env_args_sanitized_witness :
  _build_env_args Inputs.latin1_env
  = ["--env"; String "233" "t_1=ab"; "--env"; "m" ++ String "178" "=y"]%string
  /\ _build_env_args [(Inputs.e_acute, "x"%string)]
     = ["--env"; (Inputs.e_acute ++ "=x")%string].
Proof.
  split.
  - rewrite (proj1 (env_args_sanitized Inputs.latin1_env)). reflexivity.
  - rewrite (proj1 (proj2 (proj2 (proj2 (env_args_sanitized [])))
                      Inputs.e_acute "x"%string)).
    reflexivity.
Defined.

Example env_args_scenario :
  _build_env_args Inputs.scenario_env
  = ["--env"; "FOO=barbaz"; "--env"; "BADKEY=x"]%string.
Proof. reflexivity. Qed.

(** C3 as stated fails on a key with a letter outside ASCII: the key
    [é] is empty once only [[A-Za-z0-9_]] is kept, yet its entry is passed
    on, under a key that is not in that class. *)
Lemma env_args_keep_latin1_letter :
  Spec.spec_key Inputs.e_acute = ""%string
  /\ Spec.spec_env_args [(Inputs.e_acute, "x"%string)] = []
  /\ _build_env_args [(Inputs.e_acute, "x"%string)]
     = ["--env"; (Inputs.e_acute ++ "=x")%string]
  /\ PyStr.forallb PyStr.is_word_char (clean_key Inputs.e_acute) = false
  /\ _build_env_args [(Inputs.e_acute, "x"%string)]
     <> Spec.spec_env_args [(Inputs.e_acute, "x"%string)].
Proof. repeat split; try reflexivity. discriminate. Qed.

End EnvArgs.

(** ** Image verification *)

Section Verification.

Import JobRunner.

Lemma prefix_split p : forall s,
  String.prefix p s = true ->
  s = (p ++ PyStr.drop (String.length p) s)%string.
Proof.
  induction p as [|a p IH]; intros s.
  - destruct s; reflexivity.
  - destruct s as [|b s]; simpl; [discriminate|].
    destruct (ascii_dec a b) as [->|]; [|discriminate].
    intros H.
    change (String b s = String b (p ++ PyStr.drop (String.length p) s)%string).
    f_equal. exact (IH s H).
Qed.

Lemma prefix_nil s : String.prefix "" s = true.
Proof. destruct s; reflexivity. Qed.

(** Membership in ["0123456789abcdef"] is the class [[0-9a-f]]. *)
Lemma is_hex_class c : is_hex c = Spec.hex_class c.
Proof. destruct c as [[] [] [] [] [] [] [] []]; reflexivity. Qed.

Lemma forallb_ext p q s :
  (forall c, p c = q c) -> PyStr.forallb p s = PyStr.forallb q s.
Proof.
  intros H. induction s as [|c s IH]; simpl; [reflexivity|].
  now rewrite H, IH.
Qed.

(** The two tests of [_pull_and_verify_image] accept exactly the digests
    that match the pattern of the specification. *)
Lemma digest_checks_iff (sha : string) :
  (str_empty sha || negb (PyStr.startswith "sha256:" sha) = false
   /\ negb (Nat.eqb (String.length (PyStr.drop 7 sha)) 64)
      || negb (PyStr.forallb is_hex (PyStr.drop 7 sha)) = false)
  <-> Spec.matches_digest sha.
Proof.
  split.
  - intros [H1 H2].
    apply orb_false_elim in H1 as [_ Hp]. apply negb_false_iff in Hp.
    apply orb_false_elim in H2 as [Hl Hh].
    apply negb_false_iff in Hl, Hh. apply Nat.eqb_eq in Hl.
    exists (PyStr.drop 7 sha). split; [|split].
    + exact (prefix_split "sha256:" sha Hp).
    + exact Hl.
    + now rewrite <- (forallb_ext is_hex _ _ is_hex_class).
  - intros (hex & -> & Hl & Hh). split.
    + change (negb (String.prefix "" hex) = false).
      now rewrite prefix_nil.
    + change (PyStr.drop 7 ("sha256:" ++ hex)) with hex.
      rewrite Hl, (forallb_ext is_hex _ _ is_hex_class), Hh. reflexivity.
Qed.

(** A well-formed digest goes on to the pull of the pinned reference. *)
Lemma well_formed_digest_pulls (m : JobManifest) (w : Env) :
  Spec.matches_digest (expected_sha m) ->
  exists res,
    _pull_and_verify_image m w
    = ([EvDockerPull (docker_image m ++ "@" ++ expected_sha m)], res).
Proof.
  intros H. apply digest_checks_iff in H as [H1 H2].
  unfold _pull_and_verify_image.
  change (String.length "sha256:") with 7%nat. rewrite H1, H2.
  unfold bind, emit.
  destruct (env_pull w) as [rc err|]; simpl; [|eauto].
  destruct (negb (rc =? 0)); simpl; eauto.
Qed.

Lemma malformed_digest_rejected (m : JobManifest) (w : Env) :
  Spec.malformed m ->
  exists e, _pull_and_verify_image m w = ([], inl e)
            /\ is_RuntimeError e = true.
Proof.
  intros Hbad. unfold _pull_and_verify_image.
  change (String.length "sha256:") with 7%nat.
  destruct (str_empty (expected_sha m)
            || negb (PyStr.startswith "sha256:" (expected_sha m))) eqn:H1.
  { eexists; split; reflexivity. }
  destruct (negb (Nat.eqb (String.length (PyStr.drop 7 (expected_sha m))) 64)
            || negb (PyStr.forallb is_hex (PyStr.drop 7 (expected_sha m))))
    eqn:H2.
  { eexists; split; reflexivity. }
  exfalso. apply Hbad. apply digest_checks_iff. split; assumption.
Qed.

(** C1, as the code has it: for a manifest with a malformed digest [run]
    raises a [RuntimeError] and returns no result; nothing is pulled, no
    working directory or container is created, and the watchdog, which
    alone sends telemetry, is never started. *)
Theorem malformed_digest_raises (r : JobRunner) (w : Env) :
  Spec.malformed (manifest r) ->
  exists e, returned (run r w) = inl e
            /\ is_RuntimeError e = true
            /\ main_trace (run r w) = []
            /\ watchdog_trace (run r w) = [].
Proof.
  intros Hbad.
  destruct (malformed_digest_rejected (manifest r) w Hbad) as (e & He & HR).
  exists e. unfold run. rewrite He. simpl. auto.
Qed.

Lemma bad_manifest_malformed : Spec.malformed Inputs.bad_manifest.
Proof.
  unfold Spec.malformed.
  change (PyStr.strip (PyStr.lower (docker_image_sha256 Inputs.bad_manifest)))
    with "sha256:zz"%string.
  intros (hex & E & Hl & _). cbv [String.append] in E. injection E as <-.
  discriminate Hl.
Qed.

Lemma malformed_digest_raises_witness :
  exists e, returned (run (Inputs.runner_of Inputs.bad_manifest)
                        (Inputs.env_with (Exited 0 "" ""))) = inl e
            /\ is_RuntimeError e = true
            /\ main_trace (run (Inputs.runner_of Inputs.bad_manifest)
                             (Inputs.env_with (Exited 0 "" ""))) = []
            /\ watchdog_trace (run (Inputs.runner_of Inputs.bad_manifest)
                                 (Inputs.env_with (Exited 0 "" ""))) = [].
Proof.
  apply (malformed_digest_raises (Inputs.runner_of Inputs.bad_manifest)
           (Inputs.env_with (Exited 0 "" ""))).
  exact bad_manifest_malformed.
Defined.

(** C1 as stated fails: on the digest [sha256:zz] of the second scenario
    [run] raises instead of returning a result with status [FAILED]. *)
Lemma malformed_digest_returns_nothing :
  Spec.malformed Inputs.bad_manifest
  /\ returned (run (Inputs.runner_of Inputs.bad_manifest)
                 (Inputs.env_with (Exited 0 "" "")))
     = inl RuntimeError_bad_hex
  /\ ~ Spec.fails_without_effect
         (run (Inputs.runner_of Inputs.bad_manifest)
            (Inputs.env_with (Exited 0 "" ""))).
Proof.
  split; [exact bad_manifest_malformed|]. split; [reflexivity|].
  intros [(res & H & _) _]. discriminate H.
Qed.

End Verification.

(** ** Conversions of floats *)

Section FloatConversion.

Import PyFloat.

Lemma Qfloor_opp_ceiling q : Qceiling (- q) = - Qfloor q.
Proof.
  unfold Qceiling. destruct q as [n d]. simpl.
  now rewrite Z.opp_involutive.
Qed.

(** [int(x)] is the exact value of [x] truncated toward zero. *)
Lemma to_Z_truncates (x : float) (z : Z) :
  to_Z x = Some z -> exists q, to_Q x = Some q /\ z = Qtrunc q.
Proof.
  destruct x as [s|s| |s m e]; simpl; try discriminate.
  - intros [= <-]. exists 0%Q. split; reflexivity.
  - intros [= <-]. eexists. split; [reflexivity|].
    destruct e as [|k|k].
    + rewrite Z.mul_1_r.
      destruct s; unfold Qtrunc; simpl; [|now rewrite Z.div_1_r].
      unfold Qceiling. simpl. now rewrite Z.div_1_r.
    + assert (Hp : 0 < Z.pos m * 2 ^ Z.pos k).
      { apply Z.mul_pos_pos; [lia|]. apply Z.pow_pos_nonneg; lia. }
      destruct s; unfold Qtrunc.
      * replace (Qle_bool 0 (- inject_Z (Z.pos m * 2 ^ Z.pos k))) with false.
        -- rewrite Qfloor_opp_ceiling. now rewrite Qfloor_Z.
        -- symmetry. apply not_true_is_false. intros H.
           apply Qle_bool_iff in H. unfold Qle in H. simpl in H. lia.
      * replace (Qle_bool 0 (inject_Z (Z.pos m * 2 ^ Z.pos k))) with true.
        -- now rewrite Qfloor_Z.
        -- symmetry. apply Qle_bool_iff. unfold Qle. simpl. lia.
    + assert (E : Z.pos (2 ^ k) = 2 ^ Z.pos k) by apply Pos2Z.inj_pow.
      destruct s; unfold Qtrunc.
      * replace (Qle_bool 0 (- (Z.pos m # 2 ^ k))) with false.
        -- rewrite Qfloor_opp_ceiling. simpl. now rewrite E.
        -- symmetry. apply not_true_is_false. intros H.
           apply Qle_bool_iff in H. unfold Qle in H. simpl in H. lia.
      * replace (Qle_bool 0 (Z.pos m # 2 ^ k)) with true.
        -- simpl. now rewrite E.
        -- symmetry. apply Qle_bool_iff. unfold Qle. simpl. lia.
Qed.

End FloatConversion.

(** ** The duration limit *)

Section DurationLimit.

Import JobRunner.

Lemma int_of_float_Some x z : PyFloat.to_Z x = Some z -> int_of_float x = ret z.
Proof. unfold int_of_float. now intros ->. Qed.

Lemma timeout_run_container (m : JobManifest)
    (input_dir output_dir image_ref : string) (t bytes : Z) :
  PyFloat.to_Z (duration_product m) = Some t ->
  PyFloat.to_Z (ram_product m) = Some bytes ->
  _run_container m input_dir output_dir image_ref TimeoutExpired
  = ([EvDockerRun (docker_cmd m input_dir output_dir image_ref bytes) t;
      EvDockerKill (container_name m)],
     inr (-1, "DURATION_LIMIT_EXCEEDED"%string)).
Proof.
  intros Ht Hb. unfold _run_container.
  rewrite (int_of_float_Some _ _ Ht), (int_of_float_Some _ _ Hb).
  reflexivity.
Qed.

(** [int] of a float that is not finite raises, and which exception. *)
Lemma int_of_float_None x :
  PyFloat.to_Z x = None ->
  int_of_float x
  = raise (match x with S754_nan => ValueError | _ => OverflowError end).
Proof. unfold int_of_float. intros ->. destruct x; reflexivity. Qed.

(** C5, as the code has it, for every manifest.  When the two float
    products of [_run_container] are finite, the timeout handed to the
    engine is [int(expected_duration_h * 3600 * 1.1)], the float product
    truncated toward zero, and when it expires the runner kills the
    container by name and returns the exit code -1 with the log body
    [DURATION_LIMIT_EXCEEDED].  When the product of the duration is an
    infinity or a NaN, which it also is for large finite durations, or
    else that of the memory limit is, [int] raises the [OverflowError]
    or the [ValueError] before anything is handed to the engine,
    whatever the container would have done: there is no timeout, no
    invocation and no kill. *)
Theorem timeout_truncates_and_kills (m : JobManifest)
    (input_dir output_dir image_ref : string) :
  (forall t bytes,
     PyFloat.to_Z (duration_product m) = Some t ->
     PyFloat.to_Z (ram_product m) = Some bytes ->
     _run_container m input_dir output_dir image_ref TimeoutExpired
     = ([EvDockerRun (docker_cmd m input_dir output_dir image_ref bytes) t;
         EvDockerKill (container_name m)],
        inr (-1, "DURATION_LIMIT_EXCEEDED"%string))
     /\ exists q, PyFloat.to_Q (duration_product m) = Some q
                  /\ t = PyFloat.Qtrunc q)
  /\ (PyFloat.to_Z (duration_product m) = None ->
      forall o,
        _run_container m input_dir output_dir image_ref o
        = ([], inl (match duration_product m with
                    | S754_nan => ValueError
                    | _ => OverflowError
                    end)))
  /\ (forall t,
        PyFloat.to_Z (duration_product m) = Some t ->
        PyFloat.to_Z (ram_product m) = None ->
        forall o,
          _run_container m input_dir output_dir image_ref o
          = ([], inl (match ram_product m with
                      | S754_nan => ValueError
                      | _ => OverflowError
                      end))).
Proof.
  split; [|split].
  - intros t bytes Ht Hb. split.
    + now apply timeout_run_container.
    + exact (to_Z_truncates _ _ Ht).
  - intros Hd o. unfold _run_container.
    rewrite (int_of_float_None _ Hd). reflexivity.
  - intros t Ht Hb o. unfold _run_container.
    rewrite (int_of_float_Some _ _ Ht), (int_of_float_None _ Hb).
    reflexivity.
Qed.

Lemma timeout_truncates_and_kills_witness :
  (_run_container Inputs.short_manifest "/w/input" "/w/output" "alpine@x"
     TimeoutExpired
   = ([EvDockerRun (docker_cmd Inputs.short_manifest "/w/input" "/w/output"
                      "alpine@x" 1073741824) 3;
       EvDockerKill "gp4u-j1"],
      inr (-1, "DURATION_LIMIT_EXCEEDED"%string))
   /\ exists q, PyFloat.to_Q (duration_product Inputs.short_manifest) = Some q
                /\ 3 = PyFloat.Qtrunc q)
  /\ (PyFloat.to_Z (expected_duration_h Inputs.long_manifest)
      = Some Inputs.float_1e305
      /\ _run_container Inputs.long_manifest "/w/input" "/w/output" "alpine@x"
           TimeoutExpired
         = ([], inl OverflowError))
  /\ (PyFloat.to_Z (ram_limit_gb Inputs.vast_manifest)
      = Some Inputs.float_1e305
      /\ _run_container Inputs.vast_manifest "/w/input" "/w/output" "alpine@x"
           TimeoutExpired
         = ([], inl OverflowError)).
Proof.
  split; [|split].
  - apply (proj1 (timeout_truncates_and_kills Inputs.short_manifest
                    "/w/input" "/w/output" "alpine@x") 3 1073741824).
    + vm_compute. reflexivity.
    + vm_compute. reflexivity.
  - split; [vm_compute; reflexivity|].
    rewrite (proj1 (proj2 (timeout_truncates_and_kills Inputs.long_manifest
                             "/w/input" "/w/output" "alpine@x"))
               ltac:(vm_compute; reflexivity) TimeoutExpired).
    vm_compute. reflexivity.
  - split; [vm_compute; reflexivity|].
    rewrite (proj2 (proj2 (timeout_truncates_and_kills Inputs.vast_manifest
                             "/w/input" "/w/output" "alpine@x"))
               3 ltac:(vm_compute; reflexivity) ltac:(vm_compute; reflexivity)
               TimeoutExpired).
    vm_compute. reflexivity.
Defined.

(** C5 as stated fails: for an expected duration of 0.001 hours the
    product is 3.96, whose ceiling is 4, while the engine is called with a
    timeout of 3 seconds. *)
Lemma timeout_is_not_ceiling :
  (exists cmd,
     fst (_run_container Inputs.short_manifest "/w/input" "/w/output"
            "alpine@x" TimeoutExpired)
     = [EvDockerRun cmd 3; EvDockerKill "gp4u-j1"])
  /\ Qceiling ((1 # 1000) * 3600 * (11 # 10))%Q = 4
  /\ option_map Qceiling (PyFloat.to_Q (duration_product Inputs.short_manifest))
     = Some 4
  /\ ~ Spec.timeout_is_ceiling Inputs.short_manifest 3.
Proof.
  split; [eexists; vm_compute; reflexivity|].
  split; [reflexivity|]. split; [vm_compute; reflexivity|].
  intros (h & Hh & Hc). vm_compute in Hh. injection Hh as <-.
  vm_compute in Hc. discriminate Hc.
Qed.

End DurationLimit.

(** ** The security envelope *)

Section Envelope.

Import JobRunner.

Lemma str_forallb_app p s t :
  PyStr.forallb p (s ++ t)%string = PyStr.forallb p s && PyStr.forallb p t.
Proof.
  induction s as [|c s IH]; [reflexivity|].
  change (String c s ++ t)%string with (String c (s ++ t)%string).
  simpl. now rewrite IH, andb_assoc.
Qed.

Lemma forallb_of_list p l :
  PyStr.forallb p (string_of_list_ascii l) = List.forallb p l.
Proof. induction l as [|c l IH]; simpl; [reflexivity|now rewrite IH]. Qed.

Lemma list_forallb_rev (p : ascii -> bool) l :
  List.forallb p (List.rev l) = List.forallb p l.
Proof.
  induction l as [|c l IH]; simpl; [reflexivity|].
  rewrite List.forallb_app, IH. simpl. rewrite andb_true_r. apply andb_comm.
Qed.

(** Two strings told apart by a class of characters are different. *)
Lemma eqb_false_by_class p s t :
  PyStr.forallb p s = true -> PyStr.forallb p t = false ->
  String.eqb s t = false /\ String.eqb t s = false.
Proof.
  intros Hs Ht.
  assert (s <> t) by (intros ->; congruence).
  split; apply String.eqb_neq; congruence.
Qed.

Lemma digit_char n : (n < 10)%N -> num_char (ascii_of_N (48 + n)) = true.
Proof.
  intros H. unfold num_char, PyStr.is_ascii_digit, PyStr.in_range, PyStr.code.
  rewrite N_ascii_embedding by lia.
  apply orb_true_intro. left. apply andb_true_intro.
  split; apply N.leb_le; lia.
Qed.

Lemma digits_rev_num fuel : forall n,
  List.forallb num_char (PyStr.digits_rev fuel n) = true.
Proof.
  induction fuel as [|k IH]; intros n; simpl; [reflexivity|].
  assert (Hd : num_char (ascii_of_N (48 + n mod 10)) = true).
  { apply digit_char. apply N.mod_lt. discriminate. }
  destruct (n <? 10)%N; simpl; rewrite Hd; simpl; auto.
Qed.

Lemma of_N_num n : PyStr.forallb num_char (PyStr.of_N n) = true.
Proof.
  unfold PyStr.of_N. rewrite forallb_of_list, list_forallb_rev.
  apply digits_rev_num.
Qed.

(** [str] of an [int] is made of digits and the minus sign. *)
Lemma of_Z_num z : PyStr.forallb num_char (PyStr.of_Z z) = true.
Proof. destruct z; simpl; rewrite ?of_N_num; reflexivity. Qed.

(** Every environment argument is [--env] or has an equals sign. *)
Lemma env_args_shape env :
  Forall (fun e => e = "--env"%string \/ PyStr.forallb not_eq_sign e = false)
    (_build_env_args env).
Proof.
  induction env as [|[k v] env IH]; simpl; [constructor|].
  destruct (str_empty (clean_key k)); [assumption|].
  constructor; [now left|]. constructor; [|assumption].
  right. rewrite !str_forallb_app. simpl. apply andb_false_r.
Qed.

(** An option name with letters only after its dashes, other than
    [--env], does not occur among the environment arguments. *)
Lemma count_arg_env (flag : string) env :
  PyStr.forallb not_eq_sign flag = true ->
  String.eqb flag "--env" = false ->
  Spec.count_arg flag (_build_env_args env) = 0%nat.
Proof.
  intros Hf Hne. unfold Spec.count_arg.
  induction (env_args_shape env) as [|e l [->|He] _ IH]; simpl;
    [reflexivity| |].
  - now rewrite Hne.
  - destruct (eqb_false_by_class _ _ _ Hf He) as [-> _]. exact IH.
Qed.

Lemma count_arg_app a l l' :
  Spec.count_arg a (l ++ l') = (Spec.count_arg a l + Spec.count_arg a l')%nat.
Proof. unfold Spec.count_arg. now rewrite List.filter_app, length_app. Qed.

Lemma count_arg_cons a b l :
  Spec.count_arg a (b :: l)
  = ((if String.eqb a b then 1 else 0) + Spec.count_arg a l)%nat.
Proof. unfold Spec.count_arg. simpl. destruct (String.eqb a b); reflexivity. Qed.

Lemma docker_cmd_options m i o r z :
  docker_cmd m i o r z = engine_options m i o z ++ r :: command m.
Proof.
  unfold docker_cmd, engine_options. now rewrite <- !app_assoc.
Qed.

Lemma suffix_has_colon (flag dir tail : string) :
  PyStr.forallb not_colon flag = true ->
  PyStr.forallb not_colon tail = false ->
  String.eqb flag (dir ++ tail) = false.
Proof.
  intros Hf Ht.
  refine (proj1 (eqb_false_by_class not_colon _ _ Hf _)).
  rewrite str_forallb_app, Ht. apply andb_false_r.
Qed.

Lemma of_Z_not_flag (flag : string) z :
  PyStr.forallb num_char flag = false ->
  String.eqb flag (PyStr.of_Z z) = false.
Proof.
  intros Hf.
  exact (proj2 (eqb_false_by_class num_char _ _ (of_Z_num z) Hf)).
Qed.

(** An option name that is none of the fixed arguments occurs once among
    the engine options when it is one of [--gpus], [--memory] and
    [--memory-swap]. *)
Lemma count_arg_options (flag : string) m i o z :
  In flag ["--gpus"; "--memory"; "--memory-swap"]%string ->
  Spec.count_arg flag (engine_options m i o z) = 1%nat.
Proof.
  intros Hin. unfold engine_options.
  rewrite count_arg_app, count_arg_env.
  - rewrite !count_arg_cons.
    assert (Hz : String.eqb flag (PyStr.of_Z z) = false).
    { apply of_Z_not_flag.
      destruct Hin as [<-|[<-|[<-|[]]]]; reflexivity. }
    assert (Hi : String.eqb flag (i ++ ":/input:ro") = false).
    { apply suffix_has_colon; [|reflexivity].
      destruct Hin as [<-|[<-|[<-|[]]]]; reflexivity. }
    assert (Ho : String.eqb flag (o ++ ":/output:rw") = false).
    { apply suffix_has_colon; [|reflexivity].
      destruct Hin as [<-|[<-|[<-|[]]]]; reflexivity. }
    rewrite Hz, Hi, Ho.
    destruct Hin as [<-|[<-|[<-|[]]]]; vm_compute; reflexivity.
  - destruct Hin as [<-|[<-|[<-|[]]]]; reflexivity.
  - destruct Hin as [<-|[<-|[<-|[]]]]; reflexivity.
Qed.


Lemma run_container_invokes (m : JobManifest)
    (input_dir output_dir image_ref : string) (o : ContainerOutcome)
    (cmd : list string) (t : Z) :
  In (EvDockerRun cmd t)
     (fst (_run_container m input_dir output_dir image_ref o)) ->
  exists bytes,
    PyFloat.to_Z (ram_product m) = Some bytes
    /\ PyFloat.to_Z (duration_product m) = Some t
    /\ cmd = docker_cmd m input_dir output_dir image_ref bytes.
Proof.
  unfold _run_container, int_of_float.
  destruct (PyFloat.to_Z (duration_product m)) as [t'|].
  2:{ destruct (duration_product m); simpl; intros []. }
  destruct (PyFloat.to_Z (ram_product m)) as [bytes|].
  2:{ destruct (ram_product m); simpl; intros []. }
  intros H. exists bytes.
  assert (E : EvDockerRun cmd t
              = EvDockerRun (docker_cmd m input_dir output_dir image_ref bytes) t').
  { destruct o; simpl in H; intuition congruence. }
  injection E as -> ->. auto.
Qed.

(** C2, as the code has it: an invocation of the engine consists of the
    engine options, the image reference and the command of the manifest.
    Among the options [--gpus], [--memory] and [--memory-swap] occur once;
    [--gpus] is followed by the device index, [--memory] and
    [--memory-swap] by one and the same number of bytes, the float product
    [ram_limit_gb * 1024 * 1024 * 1024] truncated toward zero; the PID
    cap, the capability drop, no-new-privileges, the read-only root and
    the two volumes are present. *)
Theorem container_envelope (m : JobManifest)
    (input_dir output_dir image_ref : string) (o : ContainerOutcome)
    (cmd : list string) (t : Z) :
  In (EvDockerRun cmd t)
     (fst (_run_container m input_dir output_dir image_ref o)) ->
  exists bytes q opts,
    cmd = opts ++ image_ref :: command m
    /\ PyFloat.to_Z (ram_product m) = Some bytes
    /\ PyFloat.to_Q (ram_product m) = Some q
    /\ bytes = PyFloat.Qtrunc q
    /\ Spec.count_arg "--gpus" opts = 1%nat
    /\ Spec.follows opts "--gpus" ("device=" ++ PyStr.of_Z (gpu_index m))
    /\ Spec.count_arg "--memory" opts = 1%nat
    /\ Spec.follows opts "--memory" (PyStr.of_Z bytes)
    /\ Spec.count_arg "--memory-swap" opts = 1%nat
    /\ Spec.follows opts "--memory-swap" (PyStr.of_Z bytes)
    /\ Spec.follows opts "--pids-limit" "512"
    /\ Spec.follows opts "--cap-drop" "ALL"
    /\ Spec.follows opts "--security-opt" "no-new-privileges"
    /\ In "--read-only"%string opts
    /\ Spec.follows opts "--volume" (input_dir ++ ":/input:ro")
    /\ Spec.follows opts "--volume" (output_dir ++ ":/output:rw").
Proof.
  intros H.
  destruct (run_container_invokes _ _ _ _ _ _ _ H) as (bytes & Hb & _ & ->).
  destruct (to_Z_truncates _ _ Hb) as (q & Hq & Ht).
  exists bytes, q, (engine_options m input_dir output_dir bytes).
  split; [apply docker_cmd_options|].
  do 3 (split; [assumption|]).
  split; [apply count_arg_options; simpl; auto|].
  split; [exists (firstn 5 (engine_options m input_dir output_dir bytes)),
                 (skipn 7 (engine_options m input_dir output_dir bytes));
          reflexivity|].
  split; [apply count_arg_options; simpl; auto|].
  split; [exists (firstn 7 (engine_options m input_dir output_dir bytes)),
                 (skipn 9 (engine_options m input_dir output_dir bytes));
          reflexivity|].
  split; [apply count_arg_options; simpl; auto|].
  split; [exists (firstn 9 (engine_options m input_dir output_dir bytes)),
                 (skipn 11 (engine_options m input_dir output_dir bytes));
          reflexivity|].
  split; [exists (firstn 11 (engine_options m input_dir output_dir bytes)),
                 (skipn 13 (engine_options m input_dir output_dir bytes));
          reflexivity|].
  split; [exists (firstn 15 (engine_options m input_dir output_dir bytes)),
                 (skipn 17 (engine_options m input_dir output_dir bytes));
          reflexivity|].
  split; [exists (firstn 17 (engine_options m input_dir output_dir bytes)),
                 (skipn 19 (engine_options m input_dir output_dir bytes));
          reflexivity|].
  split; [simpl; tauto|].
  split; [exists (firstn 22 (engine_options m input_dir output_dir bytes)),
                 (skipn 24 (engine_options m input_dir output_dir bytes));
          reflexivity|].
  exists (firstn 24 (engine_options m input_dir output_dir bytes)),
         (skipn 26 (engine_options m input_dir output_dir bytes)).
  reflexivity.
Qed.

End Envelope.

Section EnvelopeInstances.

Import JobRunner.

Lemma container_envelope_witness :
  exists bytes q opts,
    docker_cmd Inputs.tenth_manifest "/w/input" "/w/output" "alpine@x"
      107374182
    = opts ++ "alpine@x"%string :: command Inputs.tenth_manifest
    /\ PyFloat.to_Z (ram_product Inputs.tenth_manifest) = Some bytes
    /\ PyFloat.to_Q (ram_product Inputs.tenth_manifest) = Some q
    /\ bytes = PyFloat.Qtrunc q
    /\ Spec.count_arg "--gpus" opts = 1%nat
    /\ Spec.follows opts "--gpus"
         ("device=" ++ PyStr.of_Z (gpu_index Inputs.tenth_manifest))
    /\ Spec.count_arg "--memory" opts = 1%nat
    /\ Spec.follows opts "--memory" (PyStr.of_Z bytes)
    /\ Spec.count_arg "--memory-swap" opts = 1%nat
    /\ Spec.follows opts "--memory-swap" (PyStr.of_Z bytes)
    /\ Spec.follows opts "--pids-limit" "512"
    /\ Spec.follows opts "--cap-drop" "ALL"
    /\ Spec.follows opts "--security-opt" "no-new-privileges"
    /\ In "--read-only"%string opts
    /\ Spec.follows opts "--volume" ("/w/input" ++ ":/input:ro")
    /\ Spec.follows opts "--volume" ("/w/output" ++ ":/output:rw").
Proof.
  apply (container_envelope Inputs.tenth_manifest "/w/input" "/w/output"
           "alpine@x" (Exited 0 "" "") _ 39).
  vm_compute. left. reflexivity.
Defined.

Lemma tenth_not_integral (ram : Q) (bytes : Z) :
  PyFloat.to_Q (ram_limit_gb Inputs.tenth_manifest) = Some ram ->
  ~ inject_Z bytes == ram * inject_Z (2 ^ 30).
Proof.
  intros H. vm_compute in H. injection H as <-.
  unfold Qeq. simpl. lia.
Qed.

(** C2 as stated fails: a memory limit of 0.1 GB is 107374182.4 bytes,
    which no whole number of bytes equals (the engine is given 107374182),
    and an argument of the command that is spelled [--gpus] makes that
    word occur twice in the invocation. *)
Lemma envelope_not_as_specified :
  exists cmd t,
    fst (_run_container Inputs.tenth_manifest "/w/input" "/w/output"
           "alpine@x" (Exited 0 "" "")) = [EvDockerRun cmd t]
    /\ Spec.follows cmd "--memory" "107374182"
    /\ (forall ram bytes,
          PyFloat.to_Q (ram_limit_gb Inputs.tenth_manifest) = Some ram ->
          ~ inject_Z bytes == ram * inject_Z (2 ^ 30))
    /\ Spec.count_arg "--gpus" cmd = 2%nat
    /\ ~ Spec.envelope_as_specified Inputs.tenth_manifest
           "/w/input" "/w/output" cmd.
Proof.
  set (cmd := docker_cmd Inputs.tenth_manifest "/w/input" "/w/output"
                "alpine@x" 107374182).
  exists cmd, 39. split; [vm_compute; reflexivity|].
  split; [exists (firstn 7 cmd), (skipn 9 cmd); vm_compute; reflexivity|].
  split; [exact tenth_not_integral|].
  split; [vm_compute; reflexivity|].
  intros (Hc & _). vm_compute in Hc. discriminate Hc.
Qed.

End EnvelopeInstances.

(** ** Completion reports *)

Section Completion.

Import JobRunner.

Lemma count_events_app p t t' :
  count_events p (t ++ t') = (count_events p t + count_events p t')%nat.
Proof. unfold count_events. now rewrite List.filter_app, length_app. Qed.

Lemma pull_no_patch m w :
  count_events is_patch (fst (_pull_and_verify_image m w)) = 0%nat.
Proof.
  unfold _pull_and_verify_image.
  destruct (_ || _); [reflexivity|].
  destruct (_ || _); [reflexivity|].
  destruct (env_pull w) as [rc err|]; simpl; [|reflexivity].
  destruct (negb (rc =? 0)); reflexivity.
Qed.

Lemma run_container_no_patch m i o r oc :
  count_events is_patch (fst (_run_container m i o r oc)) = 0%nat.
Proof.
  unfold _run_container, int_of_float.
  destruct (PyFloat.to_Z (duration_product m)).
  2:{ destruct (duration_product m); reflexivity. }
  destruct (PyFloat.to_Z (ram_product m)).
  2:{ destruct (ram_product m); reflexivity. }
  destruct oc; reflexivity.
Qed.

Lemma run_in_workdir_no_patch r w ref e :
  count_events is_patch (fst (run_in_workdir r w ref e)) = 0%nat.
Proof.
  unfold run_in_workdir.
  set (i := (env_workdir w ++ "/input")%string).
  set (o := (env_workdir w ++ "/output")%string).
  pose proof (run_container_no_patch (manifest r) i o ref (env_container w)) as H.
  destruct (_run_container (manifest r) i o ref (env_container w))
    as [tc [ex|[code logs]]].
  - destruct (input_data_url (manifest r)) as [[|c u]|]; simpl in *; exact H.
  - unfold count_events in *. simpl in H.
    destruct (input_data_url (manifest r)) as [[|c u]|]; simpl;
      destruct (code =? 0); simpl;
      rewrite ?List.filter_app, ?length_app, H; reflexivity.
Qed.

(** The runner itself never issues a completion request. *)
Lemma run_no_patch r w :
  count_events is_patch (main_trace (run r w)) = 0%nat.
Proof.
  unfold run.
  pose proof (pull_no_patch (manifest r) w) as Hp.
  destruct (_pull_and_verify_image (manifest r) w) as [t0 [e|ref]];
    [exact Hp|].
  destruct (_watchdog_loop _ _ _) as [wd c].
  pose proof (run_in_workdir_no_patch r w ref (Telemetry._energy_joules c)) as Hr.
  destruct (run_in_workdir r w ref (Telemetry._energy_joules c)) as [t1 res].
  cbn [fst] in Hp, Hr. cbn [main_trace].
  rewrite !count_events_app, Hp, Hr. reflexivity.
Qed.

(** When [run] returns, whatever the watchdog and the container did, the
    thread issues the completion request once and leaves the active
    map. *)
Lemma returned_job_reported_once (a : Agent.ProviderAgent) (m : JobManifest)
    (w : Env) (res : Result) :
  returned (run (Agent.runner_of a m) w) = inr res ->
  count_events is_patch (fst (fst (Agent.run_and_report a m w))) = 1%nat
  /\ Agent._active_jobs (snd (Agent.run_and_report a m w)) !! job_id m = None.
Proof.
  intros H. unfold Agent.run_and_report. rewrite H. simpl.
  rewrite count_events_app, run_no_patch. split; [reflexivity|].
  apply lookup_delete_eq.
Qed.

(** When [run] raises, the thread ends without a completion request and
    the job stays in the active map. *)
Lemma raised_job_unreported (a : Agent.ProviderAgent) (m : JobManifest)
    (w : Env) (e : Exn) :
  returned (run (Agent.runner_of a m) w) = inl e ->
  count_events is_patch (fst (fst (Agent.run_and_report a m w))) = 0%nat
  /\ snd (Agent.run_and_report a m w) = a.
Proof.
  intros H. unfold Agent.run_and_report. rewrite H. simpl.
  split; [apply run_no_patch | reflexivity].
Qed.

Lemma empty_digest_malformed (m : JobManifest) :
  docker_image_sha256 m = ""%string -> Spec.malformed m.
Proof.
  intros E. unfold Spec.malformed. rewrite E.
  intros (hex & H & _). discriminate H.
Qed.

(** C4 on the code: a poll entry with an id and no digest is accepted
    (ACK sent, thread started); in every environment its thread ends with
    no completion request at all, and the job stays in the active map. *)
Theorem accepted_job_never_reported (w : Env) :
  let a := Inputs.agent_polling_every 15 in
  let a1 := snd (Agent._accept_job a Inputs.raw_j1 true) in
  let m := Agent.build_manifest "j1" Inputs.raw_j1 in
  Agent._accept_job a Inputs.raw_j1 true
  = ([EvAck "j1"; EvSpawn "j1"],
     Agent.with_active a (<["j1"%string := m]> (Agent._active_jobs a)))
  /\ count_events is_patch (fst (fst (Agent.run_and_report a1 m w))) = 0%nat
  /\ snd (fst (Agent.run_and_report a1 m w)) = []
  /\ Agent._active_jobs (snd (Agent.run_and_report a1 m w)) !! "j1"%string
     = Some m.
Proof.
  intros a a1 m.
  assert (Hbad : Spec.malformed m) by (apply empty_digest_malformed; reflexivity).
  destruct (malformed_digest_rejected m w Hbad) as (e & He & _).
  assert (Hrun : run (Agent.runner_of a1 m) w
                 = {| main_trace := []; watchdog_trace := [];
                      returned := inl e |}).
  { unfold run. simpl manifest. now rewrite He. }
  split; [reflexivity|].
  unfold Agent.run_and_report. rewrite Hrun. simpl.
  split; [reflexivity|]. split; [reflexivity|].
  apply lookup_insert_eq.
Qed.

End Completion.

(** ** Rounding of binary64 values *)

Section Rounding.

Import PyFloat.

Lemma fexp_eq e : fexp prec emax e = Z.max (e - 53) (-1074).
Proof. reflexivity. Qed.

Lemma pow2_succ d : 0 < d -> 2 ^ d = 2 * 2 ^ (d - 1).
Proof.
  intros H. rewrite <- Z.pow_succ_r by lia. f_equal. lia.
Qed.

Lemma digits_bounds (p : positive) :
  2 ^ (Z.pos (digits2_pos p) - 1) <= Z.pos p < 2 ^ Z.pos (digits2_pos p).
Proof.
  induction p as [q IH|q IH|]; simpl digits2_pos.
  - rewrite Pos2Z.inj_succ, Pos2Z.inj_xI.
    replace (Z.succ (Z.pos (digits2_pos q)) - 1) with (Z.pos (digits2_pos q)) by lia.
    rewrite (pow2_succ (Z.succ _)) by lia.
    replace (Z.succ (Z.pos (digits2_pos q)) - 1) with (Z.pos (digits2_pos q)) by lia.
    rewrite (pow2_succ (Z.pos (digits2_pos q))) in * by lia.
    generalize dependent (2 ^ (Z.pos (digits2_pos q) - 1)). intros; lia.
  - rewrite Pos2Z.inj_succ. change (Z.pos q~0) with (2 * Z.pos q).
    replace (Z.succ (Z.pos (digits2_pos q)) - 1) with (Z.pos (digits2_pos q)) by lia.
    rewrite (pow2_succ (Z.succ _)) by lia.
    replace (Z.succ (Z.pos (digits2_pos q)) - 1) with (Z.pos (digits2_pos q)) by lia.
    rewrite (pow2_succ (Z.pos (digits2_pos q))) in * by lia.
    generalize dependent (2 ^ (Z.pos (digits2_pos q) - 1)). intros; lia.
  - simpl. lia.
Qed.

Lemma Zdigits2_nonneg m : 0 <= Zdigits2 m.
Proof. destruct m; simpl; lia. Qed.

Lemma Zdigits2_pos m : 0 < m -> 0 < Zdigits2 m.
Proof. destruct m; simpl; lia. Qed.

Lemma Zdigits2_bounds m :
  0 < m -> 2 ^ (Zdigits2 m - 1) <= m < 2 ^ Zdigits2 m.
Proof. destruct m as [|p|p]; try lia. intros _. apply digits_bounds. Qed.

(** The number of binary digits is fixed by the two powers around. *)
Lemma Zdigits2_unique m d :
  0 < m -> 2 ^ (d - 1) <= m < 2 ^ d -> Zdigits2 m = d.
Proof.
  intros Hm [Hlo Hhi].
  destruct (Zdigits2_bounds m Hm) as [Hlo' Hhi'].
  pose proof (Zdigits2_pos m Hm) as Hd'.
  assert (Hd : 0 < d).
  { destruct (Z_lt_le_dec 0 d) as [|Hle]; [assumption|].
    exfalso. destruct (Z.eq_dec d 0) as [->|].
    - simpl in Hhi. lia.
    - rewrite Z.pow_neg_r in Hhi by lia. lia. }
  destruct (Z_lt_le_dec (Zdigits2 m) d) as [Hlt|Hge].
  - assert (2 ^ Zdigits2 m <= 2 ^ (d - 1)) by (apply Z.pow_le_mono_r; lia). lia.
  - destruct (Z_lt_le_dec d (Zdigits2 m)) as [Hlt|Hle]; [|lia].
    assert (2 ^ d <= 2 ^ (Zdigits2 m - 1)) by (apply Z.pow_le_mono_r; lia). lia.
Qed.

Lemma Zdigits2_le m n : 0 < m -> m <= n -> Zdigits2 m <= Zdigits2 n.
Proof.
  intros Hm Hmn.
  destruct (Zdigits2_bounds m Hm) as [Hlo _].
  destruct (Zdigits2_bounds n ltac:(lia)) as [_ Hhi].
  destruct (Z_lt_le_dec (Zdigits2 n) (Zdigits2 m)) as [Hlt|]; [|assumption].
  assert (2 ^ Zdigits2 n <= 2 ^ (Zdigits2 m - 1)).
  { apply Z.pow_le_mono_r; [lia|]. lia. }
  lia.
Qed.

Lemma Zdigits2_shiftl m k :
  0 < m -> 0 <= k -> Zdigits2 (m * 2 ^ k) = Zdigits2 m + k.
Proof.
  intros Hm Hk. destruct (Zdigits2_bounds m Hm) as [Hlo Hhi].
  pose proof (Zdigits2_pos m Hm).
  assert (0 < 2 ^ k) by (apply Z.pow_pos_nonneg; lia).
  apply Zdigits2_unique; [nia|].
  replace (Zdigits2 m + k - 1) with (Zdigits2 m - 1 + k) by lia.
  rewrite !Z.pow_add_r by lia. nia.
Qed.

Lemma Zdigits2_shiftr m k :
  0 < m -> 0 <= k < Zdigits2 m -> Zdigits2 (m / 2 ^ k) = Zdigits2 m - k
                                   /\ 0 < m / 2 ^ k.
Proof.
  intros Hm Hk. destruct (Zdigits2_bounds m Hm) as [Hlo Hhi].
  assert (Hp : 0 < 2 ^ k) by (apply Z.pow_pos_nonneg; lia).
  assert (E1 : 2 ^ (Zdigits2 m - 1) = 2 ^ (Zdigits2 m - k - 1) * 2 ^ k).
  { rewrite <- Z.pow_add_r by lia. f_equal. lia. }
  assert (E2 : 2 ^ Zdigits2 m = 2 ^ (Zdigits2 m - k) * 2 ^ k).
  { rewrite <- Z.pow_add_r by lia. f_equal. lia. }
  assert (Hq1 : 2 ^ (Zdigits2 m - k - 1) <= m / 2 ^ k).
  { apply Z.div_le_lower_bound; [assumption|]. lia. }
  assert (Hq2 : m / 2 ^ k < 2 ^ (Zdigits2 m - k)).
  { apply Z.div_lt_upper_bound; [assumption|]. lia. }
  assert (0 < 2 ^ (Zdigits2 m - k - 1)) by (apply Z.pow_pos_nonneg; lia).
  split; [|lia].
  apply Zdigits2_unique; [lia|]. split; assumption.
Qed.

Lemma shiftr_small m k : 0 <= m -> Zdigits2 m <= k -> m / 2 ^ k = 0.
Proof.
  intros Hm Hk. destruct (Z.eq_dec m 0) as [->|Hne].
  - apply Z.div_0_l. apply Z.pow_nonzero; [lia|]. pose proof (Zdigits2_nonneg 0). simpl in *. lia.
  - destruct (Zdigits2_bounds m ltac:(lia)) as [_ Hhi].
    pose proof (Zdigits2_nonneg m).
    apply Z.div_small. split; [assumption|].
    assert (2 ^ Zdigits2 m <= 2 ^ k) by (apply Z.pow_le_mono_r; lia). lia.
Qed.

(** *** Shifting right *)

Lemma shr_1_m mrs : 0 <= shr_m mrs -> shr_m (shr_1 mrs) = shr_m mrs / 2.
Proof.
  destruct mrs as [m r s]. simpl. intros Hm.
  destruct m as [|[p|p|]|p]; simpl; try lia; try reflexivity.
  - change (Z.pos p~1) with (2 * Z.pos p + 1).
    apply (Z.div_unique_pos _ _ _ 1); lia.
  - change (Z.pos p~0) with (2 * Z.pos p).
    apply (Z.div_unique_pos _ _ _ 0); lia.
Qed.

Lemma shr_iter_m (p : positive) : forall mrs,
  0 <= shr_m mrs ->
  shr_m (SpecFloat.iter_pos shr_1 p mrs) = shr_m mrs / 2 ^ Z.pos p.
Proof.
  induction p as [q IH|q IH|]; intros mrs Hm; simpl SpecFloat.iter_pos.
  - assert (H1 : 0 <= shr_m (shr_1 mrs)).
    { rewrite shr_1_m by assumption. apply Z.div_pos; lia. }
    assert (H2 : 0 <= shr_m (SpecFloat.iter_pos shr_1 q (shr_1 mrs))).
    { rewrite IH by assumption. apply Z.div_pos; [assumption|].
      apply Z.pow_pos_nonneg; lia. }
    rewrite IH, IH, shr_1_m by assumption.
    rewrite !Z.div_div by (try apply Z.pow_pos_nonneg; lia).
    f_equal. change (Z.pos q~1) with (2 * Z.pos q + 1).
    replace (2 * Z.pos q + 1) with (1 + Z.pos q + Z.pos q) by lia.
    rewrite !Z.pow_add_r by lia. lia.
  - assert (H2 : 0 <= shr_m (SpecFloat.iter_pos shr_1 q mrs)).
    { rewrite IH by assumption. apply Z.div_pos; [assumption|].
      apply Z.pow_pos_nonneg; lia. }
    rewrite IH, IH by assumption.
    rewrite !Z.div_div by (try apply Z.pow_pos_nonneg; lia).
    f_equal. change (Z.pos q~0) with (2 * Z.pos q).
    replace (2 * Z.pos q) with (Z.pos q + Z.pos q) by lia.
    rewrite !Z.pow_add_r by lia. lia.
  - rewrite shr_1_m by assumption. reflexivity.
Qed.

Lemma shr_record_of_loc_m m l : shr_m (shr_record_of_loc m l) = m.
Proof. destruct l as [|[]]; reflexivity. Qed.

(** A right shift by [fexp (digits m + e) - e] when that is positive, none
    otherwise: the mantissa is divided by the matching power of two. *)
Lemma shr_fexp_m m e l :
  0 <= m ->
  let k := Z.max 0 (fexp prec emax (Zdigits2 m + e) - e) in
  shr_m (fst (shr_fexp prec emax m e l)) = m / 2 ^ k
  /\ snd (shr_fexp prec emax m e l) = e + k.
Proof.
  intros Hm k. unfold shr_fexp, shr. subst k.
  destruct (fexp prec emax (Zdigits2 m + e) - e) as [|p|p] eqn:E; simpl fst; simpl snd.
  - rewrite shr_record_of_loc_m. simpl. rewrite Z.div_1_r. split; [reflexivity|lia].
  - rewrite shr_iter_m by (rewrite shr_record_of_loc_m; assumption).
    rewrite shr_record_of_loc_m.
    replace (Z.max 0 (Z.pos p)) with (Z.pos p) by lia. split; reflexivity.
  - rewrite shr_record_of_loc_m. simpl. rewrite Z.div_1_r. split; [reflexivity|lia].
Qed.

Lemma round_nearest_even_bounds m l :
  m <= round_nearest_even m l <= m + 1.
Proof.
  unfold round_nearest_even. destruct l as [|[]]; try lia.
  destruct (Z.even m); lia.
Qed.

End Rounding.

Section RoundingAux.

Import PyFloat.

(** The second shift of [binary_round_aux]: a positive mantissa below its
    canonical exponent is brought to a canonical one. *)
Lemma renormalize (m1 e1 : Z) :
  0 < m1 ->
  e1 <= fexp prec emax (Zdigits2 m1 + e1) ->
  fexp prec emax (Zdigits2 m1 + e1) - e1 < Zdigits2 m1 ->
  exists p,
    shr_m (fst (shr_fexp prec emax m1 e1 loc_Exact)) = Z.pos p
    /\ canonical_mantissa prec emax p (snd (shr_fexp prec emax m1 e1 loc_Exact))
       = true
    /\ e1 <= snd (shr_fexp prec emax m1 e1 loc_Exact)
    /\ (snd (shr_fexp prec emax m1 e1 loc_Exact) = e1 -> Z.pos p = m1).
Proof.
  intros Hm Hle Hk.
  destruct (shr_fexp_m m1 e1 loc_Exact ltac:(lia)) as [H1 H2].
  set (k := fexp prec emax (Zdigits2 m1 + e1) - e1) in *.
  replace (Z.max 0 k) with k in * by lia.
  destruct (Zdigits2_shiftr m1 k Hm ltac:(lia)) as [Hd Hpos].
  rewrite H1, H2.
  destruct (m1 / 2 ^ k) as [|p|p] eqn:E; try lia.
  exists p. split; [reflexivity|]. split; [|split].
  - unfold canonical_mantissa. apply Z.eqb_eq.
    change (Z.pos (digits2_pos p)) with (Zdigits2 (Z.pos p)).
    rewrite Hd. replace (Zdigits2 m1 - k + (e1 + k)) with (Zdigits2 m1 + e1) by lia.
    unfold k. lia.
  - lia.
  - intros Hk0. assert (k = 0) by lia. subst k.
    replace (fexp prec emax (Zdigits2 m1 + e1) - e1) with 0 in E by lia.
    simpl in E. rewrite Z.div_1_r in E. congruence.
Qed.

Lemma fexp_le a b : a <= b -> fexp prec emax a <= fexp prec emax b.
Proof. rewrite !fexp_eq. lia. Qed.

Lemma fexp_succ a : fexp prec emax (a + 1) <= fexp prec emax a + 1.
Proof. rewrite !fexp_eq. lia. Qed.

Lemma fexp_ge_emin a : -1074 <= fexp prec emax a.
Proof. rewrite fexp_eq. lia. Qed.

(** What [binary_round_aux] returns for a non-negative mantissa that sits
    at or below its canonical exponent: a valid float of the given sign,
    which is zero only when the shifted mantissa is, and which is otherwise
    at the canonical exponent or above, with a mantissa not below the
    shifted one when it is at that exponent. *)
Lemma binary_round_aux_spec (s : bool) (m e : Z) (l : location) :
  0 <= m ->
  (0 < m -> e <= fexp prec emax (Zdigits2 m + e)) ->
  (m = 0 -> e <= -1074) ->
  let k := fexp prec emax (Zdigits2 m + e) - e in
  let r := binary_round_aux prec emax s m e l in
  valid_binary prec emax r = true
  /\ ((r = S754_zero s /\ m / 2 ^ k = 0)
      \/ r = S754_infinity s
      \/ exists mr er, r = S754_finite s mr er
                       /\ e + k <= er
                       /\ (er = e + k -> m / 2 ^ k <= Z.pos mr)).
Proof.
  intros Hm Hpos Hzero k r.
  assert (Hk : 0 <= k).
  { unfold k. destruct (Z.eq_dec m 0) as [->|].
    - specialize (Hzero eq_refl). simpl. rewrite fexp_eq. lia.
    - specialize (Hpos ltac:(lia)). lia. }
  subst r. unfold binary_round_aux.
  destruct (shr_fexp_m m e l Hm) as [H1 H2].
  fold k in H1, H2. replace (Z.max 0 k) with k in * by lia.
  destruct (shr_fexp prec emax m e l) as [mrs' e'] eqn:E1.
  simpl fst in H1; simpl snd in H2.
  set (m1 := round_nearest_even (shr_m mrs') (loc_of_shr_record mrs')).
  pose proof (round_nearest_even_bounds (shr_m mrs') (loc_of_shr_record mrs')) as Hb.
  fold m1 in Hb. rewrite H1 in Hb.
  assert (Hm' : 0 <= m / 2 ^ k) by (apply Z.div_pos; [lia|apply Z.pow_pos_nonneg; lia]).
  destruct (Z.eq_dec m1 0) as [Hz|Hnz].
  - (* everything is shifted out and the rest rounds down *)
    rewrite Hz.
    destruct (shr_fexp_m 0 e' loc_Exact ltac:(lia)) as [H3 _].
    destruct (shr_fexp prec emax 0 e' loc_Exact) as [mrs'' e''].
    simpl fst in H3. rewrite H3, Z.div_0_l by (apply Z.pow_nonzero; lia).
    split; [reflexivity|]. left. split; [reflexivity|lia].
  - assert (Hm1 : 0 < m1) by lia.
    assert (Hcanon : e' <= fexp prec emax (Zdigits2 m1 + e')
                     /\ fexp prec emax (Zdigits2 m1 + e') - e' < Zdigits2 m1).
    { pose proof (Zdigits2_pos m1 Hm1) as Hd1.
      destruct (Z.eq_dec (m / 2 ^ k) 0) as [Hq|Hq].
      - (* the mantissa was shifted out, and the rest rounds up to one *)
        assert (m1 = 1) by lia.
        assert (He' : e' = -1074).
        { rewrite H2. unfold k. rewrite fexp_eq.
          destruct (Z.eq_dec m 0) as [->|Hne].
          - specialize (Hzero eq_refl). simpl. lia.
          - assert (Hkd : Zdigits2 m <= k).
            { destruct (Z_lt_le_dec k (Zdigits2 m)) as [Hlt|]; [|assumption].
              destruct (Zdigits2_shiftr m k ltac:(lia) ltac:(lia)). lia. }
            unfold k in Hkd. rewrite fexp_eq in Hkd.
            pose proof (Zdigits2_pos m ltac:(lia)). lia. }
        rewrite H, He', fexp_eq. simpl Zdigits2. lia.
      - assert (Hmpos : 0 < m).
        { destruct (Z.eq_dec m 0) as [->|]; [|lia].
          rewrite Z.div_0_l in Hq by (apply Z.pow_nonzero; lia). lia. }
        assert (Hkd : k < Zdigits2 m).
        { destruct (Z_lt_le_dec k (Zdigits2 m)) as [|Hge]; [assumption|].
          rewrite (shiftr_small m k) in Hq by lia. lia. }
        destruct (Zdigits2_shiftr m k Hmpos ltac:(lia)) as [Hd' Hq'].
        assert (Hfix : fexp prec emax (Zdigits2 (m / 2 ^ k) + e') = e').
        { rewrite Hd', H2. replace (Zdigits2 m - k + (e + k)) with (Zdigits2 m + e) by lia.
          unfold k. lia. }
        assert (Hdle : Zdigits2 (m / 2 ^ k) <= Zdigits2 m1)
          by (apply Zdigits2_le; lia).
        assert (Hdup : Zdigits2 m1 <= Zdigits2 (m / 2 ^ k) + 1).
        { destruct (Zdigits2_bounds (m / 2 ^ k) Hq') as [_ Hhi].
          destruct (Z_lt_le_dec (Zdigits2 (m / 2 ^ k) + 1) (Zdigits2 m1)) as [Hlt|]; [|assumption].
          destruct (Zdigits2_bounds m1 Hm1) as [Hlo _].
          assert (2 ^ (Zdigits2 (m / 2 ^ k) + 1) <= 2 ^ (Zdigits2 m1 - 1))
            by (apply Z.pow_le_mono_r; lia).
          rewrite Z.pow_add_r in H by (pose proof (Zdigits2_nonneg (m / 2 ^ k)); lia).
          lia. }
        pose proof (fexp_le _ _ (proj1 (Z.add_le_mono_r _ _ e') Hdle)) as Hf1.
        pose proof (fexp_le _ _ (proj1 (Z.add_le_mono_r _ _ e') Hdup)) as Hf2.
        pose proof (fexp_succ (Zdigits2 (m / 2 ^ k) + e')) as Hf3.
        replace (Zdigits2 (m / 2 ^ k) + 1 + e') with (Zdigits2 (m / 2 ^ k) + e' + 1) in Hf2 by lia.
        split; [lia|].
        destruct (Z.eq_dec (Zdigits2 m1) (Zdigits2 (m / 2 ^ k))) as [Heq|Hneq].
        + rewrite Heq, Hfix. pose proof (Zdigits2_pos _ Hq'). lia.
        + pose proof (Zdigits2_pos _ Hq'). lia. }
    destruct Hcanon as [Hc1 Hc2].
    destruct (renormalize m1 e' Hm1 Hc1 Hc2) as (p & Hp & Hcan & Hge & Heq).
    destruct (shr_fexp prec emax m1 e' loc_Exact) as [mrs'' e''].
    simpl fst in Hp; simpl snd in Hcan, Hge, Heq. rewrite Hp.
    destruct (e'' <=? emax - prec) eqn:Hb'.
    + split.
      * simpl. unfold bounded. now rewrite Hcan, Hb'.
      * right. right. exists p, e''. split; [reflexivity|].
        split; [lia|]. intros Hee. rewrite Heq by lia. lia.
    + split; [reflexivity|]. right. left. reflexivity.
Qed.

End RoundingAux.

Section FloatOperations.

Import PyFloat.

Lemma binary_round_aux_valid (s : bool) (m e : Z) (l : location) :
  0 <= m ->
  (0 < m -> e <= fexp prec emax (Zdigits2 m + e)) ->
  (m = 0 -> e <= -1074) ->
  valid_binary prec emax (binary_round_aux prec emax s m e l) = true
  /\ has_sign s (binary_round_aux prec emax s m e l).
Proof.
  intros H1 H2 H3.
  destruct (binary_round_aux_spec s m e l H1 H2 H3) as [Hv Hr].
  split; [exact Hv|]. unfold has_sign.
  destruct Hr as [[-> _]|[->|(mr & er & -> & _)]]; eauto.
Qed.

Lemma iter_xO (d : positive) (m : positive) :
  Z.pos (Pos.iter xO m d) = Z.pos m * 2 ^ Z.pos d.
Proof.
  induction d as [|d IH] using Pos.peano_ind.
  - simpl. lia.
  - rewrite Pos.iter_succ, Pos2Z.inj_succ, Z.pow_succ_r by lia.
    change (Z.pos (Pos.iter xO m d)~0) with (2 * Z.pos (Pos.iter xO m d)).
    rewrite IH. lia.
Qed.

(** [shl_align] lowers the exponent to the target when the target is
    below, and keeps the value. *)
Lemma shl_align_spec (m : positive) (e e' : Z) :
  Z.pos (fst (shl_align m e e')) = Z.pos m * 2 ^ (e - Z.min e e')
  /\ snd (shl_align m e e') = Z.min e e'.
Proof.
  unfold shl_align. destruct (e' - e) as [|p|p] eqn:E; simpl.
  - replace (Z.min e e') with e by lia. rewrite Z.sub_diag. simpl. lia.
  - replace (Z.min e e') with e by lia. rewrite Z.sub_diag. simpl. lia.
  - replace (Z.min e e') with e' by lia. rewrite iter_xO.
    split; [|reflexivity]. f_equal. f_equal. lia.
Qed.

Lemma binary_round_valid (s : bool) (m : positive) (e : Z) :
  valid_binary prec emax (binary_round prec emax s m e) = true
  /\ has_sign s (binary_round prec emax s m e).
Proof.
  unfold binary_round.
  destruct (shl_align_spec m e (fexp prec emax (Z.pos (digits2_pos m) + e)))
    as [Hm He].
  destruct (shl_align m e (fexp prec emax (Z.pos (digits2_pos m) + e)))
    as [mz ez]. simpl fst in Hm; simpl snd in He.
  apply binary_round_aux_valid; [lia| |lia].
  intros _. rewrite Hm.
  change (Z.pos (digits2_pos m)) with (Zdigits2 (Z.pos m)) in *.
  rewrite Zdigits2_shiftl by lia. rewrite He.
  replace (Zdigits2 (Z.pos m) + (e - Z.min e (fexp prec emax (Zdigits2 (Z.pos m) + e)))
           + Z.min e (fexp prec emax (Zdigits2 (Z.pos m) + e)))
    with (Zdigits2 (Z.pos m) + e) by lia.
  lia.
Qed.

(** [float(z)] of a non-negative [int] is a valid non-negative float. *)
Lemma of_Z_valid (z : Z) :
  0 <= z ->
  valid_binary prec emax (of_Z z) = true /\ has_sign false (of_Z z).
Proof.
  intros Hz. unfold of_Z, binary_normalize.
  destruct z as [|p|p]; try lia.
  - split; [reflexivity|]. left. reflexivity.
  - apply binary_round_valid.
Qed.

Lemma canonical_exponent (m : positive) (e : Z) :
  bounded prec emax m e = true ->
  e = fexp prec emax (Zdigits2 (Z.pos m) + e) /\ e <= emax - prec.
Proof.
  unfold bounded, canonical_mantissa. intros [H1 H2]%andb_prop.
  apply Z.eqb_eq in H1. apply Z.leb_le in H2. simpl Zdigits2. lia.
Qed.

Lemma Zdigits2_pow2 n : 0 <= n -> Zdigits2 (2 ^ n) = n + 1.
Proof.
  intros Hn. apply Zdigits2_unique.
  - apply Z.pow_pos_nonneg; lia.
  - replace (n + 1 - 1) with n by lia. split; [lia|].
    apply Z.pow_lt_mono_r; lia.
Qed.

Lemma Zdigits2_mul a b :
  0 < a -> 0 < b -> Zdigits2 a + Zdigits2 b - 1 <= Zdigits2 (a * b).
Proof.
  intros Ha Hb.
  destruct (Zdigits2_bounds a Ha) as [Ha1 _].
  destruct (Zdigits2_bounds b Hb) as [Hb1 _].
  pose proof (Zdigits2_pos a Ha). pose proof (Zdigits2_pos b Hb).
  assert (Hp : 2 ^ (Zdigits2 a + Zdigits2 b - 2) <= a * b).
  { replace (Zdigits2 a + Zdigits2 b - 2) with ((Zdigits2 a - 1) + (Zdigits2 b - 1)) by lia.
    rewrite Z.pow_add_r by lia.
    assert (0 < 2 ^ (Zdigits2 a - 1)) by (apply Z.pow_pos_nonneg; lia).
    assert (0 < 2 ^ (Zdigits2 b - 1)) by (apply Z.pow_pos_nonneg; lia).
    nia. }
  assert (Hpos : 0 < 2 ^ (Zdigits2 a + Zdigits2 b - 2))
    by (apply Z.pow_pos_nonneg; lia).
  pose proof (Zdigits2_le _ _ Hpos Hp) as Hd.
  rewrite Zdigits2_pow2 in Hd by lia. lia.
Qed.

(** The product of a valid float with a valid finite one is valid, with
    the product sign. *)
Lemma mul_finite_valid (x : float) (sx sy : bool) (my : positive) (ey : Z) :
  valid_binary prec emax x = true ->
  bounded prec emax my ey = true ->
  has_sign sx x ->
  valid_binary prec emax (mul x (S754_finite sy my ey)) = true
  /\ has_sign (xorb sx sy) (mul x (S754_finite sy my ey)).
Proof.
  intros Hx Hy Hsx. unfold has_sign in *.
  destruct Hsx as [->|[->|(mx & ex & ->)]]; simpl;
    try (split; [reflexivity|]; eauto 6; fail).
  simpl in Hx.
  destruct (canonical_exponent mx ex Hx) as [Hex _].
  destruct (canonical_exponent my ey Hy) as [Hey _].
  unfold mul. simpl SFmul.
  apply binary_round_aux_valid; [lia| |lia].
  intros _. rewrite Pos2Z.inj_mul.
  pose proof (Zdigits2_mul (Z.pos mx) (Z.pos my) ltac:(lia) ltac:(lia)) as Hd.
  pose proof (Zdigits2_pos (Z.pos mx) ltac:(lia)).
  pose proof (Zdigits2_pos (Z.pos my) ltac:(lia)).
  rewrite fexp_eq in *. lia.
Qed.

End FloatOperations.

Section FloatDivision.

Import PyFloat.

Lemma shift_case (m s : Z) :
  0 <= s ->
  match s with Z.pos _ => Z.shiftl m s | 0 => m | Z.neg _ => 0 end = m * 2 ^ s.
Proof.
  intros Hs. destruct s as [|p|p]; try lia.
  apply Z.shiftl_mul_pow2. lia.
Qed.

(** The quotient and exponent that [SFdiv_core_binary] hands to the
    rounding step sit at or below the canonical exponent. *)
Lemma div_core_spec (m1 e1 m2 e2 : Z) :
  0 < m1 -> 0 < m2 ->
  let qel := SFdiv_core_binary prec emax m1 e1 m2 e2 in
  0 <= fst (fst qel)
  /\ (0 < fst (fst qel) ->
      snd (fst qel) <= fexp prec emax (Zdigits2 (fst (fst qel)) + snd (fst qel)))
  /\ (fst (fst qel) = 0 -> snd (fst qel) <= -1074).
Proof.
  intros H1 H2. unfold SFdiv_core_binary.
  set (d1 := Zdigits2 m1). set (d2 := Zdigits2 m2).
  set (e' := Z.min (fexp prec emax (d1 + e1 - (d2 + e2))) (e1 - e2)).
  set (s := e1 - e2 - e').
  assert (Hs : 0 <= s) by (unfold s, e'; lia).
  set (m' := match s with Z.pos _ => Z.shiftl m1 s | 0 => m1 | Z.neg _ => 0 end).
  assert (Hm' : m' = m1 * 2 ^ s) by (apply shift_case; assumption).
  assert (Hq : fst (Z.div_eucl m' m2) = m' / m2) by reflexivity.
  destruct (Z.div_eucl m' m2) as [q r]. simpl in Hq. simpl fst. simpl snd.
  pose proof (Zdigits2_pos m1 H1) as Hd1. fold d1 in Hd1.
  pose proof (Zdigits2_pos m2 H2) as Hd2. fold d2 in Hd2.
  destruct (Zdigits2_bounds m1 H1) as [Hlo1 _]. fold d1 in Hlo1.
  destruct (Zdigits2_bounds m2 H2) as [_ Hhi2]. fold d2 in Hhi2.
  assert (H2s : 0 < 2 ^ s) by (apply Z.pow_pos_nonneg; lia).
  assert (Hq0 : 0 <= q).
  { rewrite Hq. apply Z.div_pos; [|lia]. rewrite Hm'. nia. }
  assert (Hbig : 0 <= d1 + s - 1 - d2 -> 2 ^ (d1 + s - 1 - d2) <= q).
  { intros HA. rewrite Hq. apply Z.div_le_lower_bound; [lia|].
    assert (HP : 0 < 2 ^ (d1 + s - 1 - d2)) by (apply Z.pow_pos_nonneg; lia).
    assert (Hc : m2 * 2 ^ (d1 + s - 1 - d2) <= 2 ^ d2 * 2 ^ (d1 + s - 1 - d2)) by nia.
    rewrite <- Z.pow_add_r in Hc by lia.
    replace (d2 + (d1 + s - 1 - d2)) with ((d1 - 1) + s) in Hc by lia.
    rewrite Z.pow_add_r in Hc by lia.
    rewrite Hm'. nia. }
  split; [assumption|]. split.
  - intros Hqpos.
    assert (Hd : d1 + s - d2 <= Zdigits2 q).
    { destruct (Z_lt_le_dec (d1 + s - 1 - d2) 0) as [Hneg|Hnn].
      - pose proof (Zdigits2_pos q Hqpos). lia.
      - specialize (Hbig Hnn).
        assert (HP : 0 < 2 ^ (d1 + s - 1 - d2)) by (apply Z.pow_pos_nonneg; lia).
        pose proof (Zdigits2_le _ _ HP Hbig) as Hle.
        rewrite Zdigits2_pow2 in Hle by lia. lia. }
    assert (Hle : d1 + e1 - (d2 + e2) <= Zdigits2 q + e') by (unfold s in Hd; lia).
    apply fexp_le in Hle. unfold e' at 1. lia.
  - intros Hz.
    destruct (Z_lt_le_dec (-1074) e') as [Hgt|]; [|assumption].
    exfalso.
    assert (HA : 0 <= d1 + s - 1 - d2).
    { unfold s. unfold e' in *. rewrite fexp_eq in *. lia. }
    specialize (Hbig HA).
    assert (0 < 2 ^ (d1 + s - 1 - d2)) by (apply Z.pow_pos_nonneg; lia).
    lia.
Qed.

(** The quotient of a float by a finite one is valid, with the quotient
    sign. *)
Lemma div_finite_valid (x : float) (sx sy : bool) (my : positive) (ey : Z) :
  has_sign sx x ->
  valid_binary prec emax (div x (S754_finite sy my ey)) = true
  /\ has_sign (xorb sx sy) (div x (S754_finite sy my ey)).
Proof.
  intros Hsx. unfold has_sign in *.
  destruct Hsx as [->|[->|(mx & ex & ->)]]; simpl;
    try (split; [reflexivity|]; eauto 6; fail).
  unfold div. simpl SFdiv.
  pose proof (div_core_spec (Z.pos mx) ex (Z.pos my) ey ltac:(lia) ltac:(lia))
    as (Hq & Hc & Hz).
  destruct (SFdiv_core_binary prec emax (Z.pos mx) ex (Z.pos my) ey)
    as [[mz ez] lz]. simpl in Hq, Hc, Hz.
  exact (binary_round_aux_valid (xorb sx sy) mz ez lz Hq Hc Hz).
Qed.

(** The nearest double to a ratio of positive integers is valid and has
    the given sign. *)
Lemma of_ratio_valid (s : bool) (n d : positive) :
  valid_binary prec emax (of_ratio s n d) = true
  /\ has_sign s (of_ratio s n d).
Proof.
  unfold of_ratio.
  pose proof (div_core_spec (Z.pos n) 0 (Z.pos d) 0 ltac:(lia) ltac:(lia))
    as (Hq & Hc & Hz).
  destruct (SFdiv_core_binary prec emax (Z.pos n) 0 (Z.pos d) 0)
    as [[mz ez] lz]. simpl in Hq, Hc, Hz.
  exact (binary_round_aux_valid s mz ez lz Hq Hc Hz).
Qed.

(** [round] keeps the sign. *)
Lemma round_sign (s : bool) (x : float) (nd : nat) :
  has_sign s x -> has_sign s (round x nd).
Proof.
  intros [->|[->|(m & e & ->)]]; simpl;
    [left; reflexivity | right; left; reflexivity |].
  destruct (match e with
            | Z.neg j => round_half_even (Z.pos m * 10 ^ Z.of_nat nd) (2 ^ Z.pos j)
            | _ => Z.pos m * 2 ^ e * 10 ^ Z.of_nat nd
            end) as [|kp|kp].
  - left; reflexivity.
  - apply of_ratio_valid.
  - left; reflexivity.
Qed.

Lemma has_sign_nonneg (x : float) :
  has_sign false x -> leb (S754_zero false) x = true.
Proof. intros [->|[->|(m & e & ->)]]; reflexivity. Qed.

End FloatDivision.

Section FloatAddition.

Import PyFloat.

Lemma leb_refl_finite (m : positive) (e : Z) :
  leb (S754_finite false m e) (S754_finite false m e) = true.
Proof.
  unfold leb, SFleb, SFcompare. rewrite Z.compare_refl.
  now rewrite Pos.compare_cont_refl.
Qed.

Lemma leb_finite (mx mr : positive) (ex er : Z) :
  ex <= er -> (er = ex -> Z.pos mx <= Z.pos mr) ->
  leb (S754_finite false mx ex) (S754_finite false mr er) = true.
Proof.
  intros He Hm. unfold leb, SFleb, SFcompare.
  destruct (Z.compare_spec ex er) as [Heq|Hlt|Hgt]; [|reflexivity|lia].
  specialize (Hm (eq_sym Heq)).
  change (Pos.compare_cont Eq mx mr) with (Pos.compare mx mr).
  destruct (Pos.compare_spec mx mr); try reflexivity. lia.
Qed.

(** The sum of two valid non-negative floats is a valid non-negative
    float that is not below the first one. *)
Lemma add_nonneg (x y : float) :
  valid_binary prec emax x = true -> valid_binary prec emax y = true ->
  has_sign false x -> has_sign false y ->
  valid_binary prec emax (add x y) = true
  /\ has_sign false (add x y)
  /\ leb x (add x y) = true.
Proof.
  intros Hx Hy Hsx Hsy. unfold has_sign in *.
  destruct Hsx as [->|[->|(mx & ex & ->)]];
    destruct Hsy as [->|[->|(my & ey & ->)]]; simpl add;
    try (split; [first [reflexivity | assumption]|];
         split; [eauto 6|]; first [reflexivity | apply leb_refl_finite]; fail).
  simpl in Hx, Hy.
  destruct (canonical_exponent mx ex Hx) as [Hex _].
  destruct (canonical_exponent my ey Hy) as [Hey _].
  unfold add. simpl SFadd.
  set (ez := Z.min ex ey).
  destruct (shl_align_spec mx ex ez) as [Ha _].
  destruct (shl_align_spec my ey ez) as [Hb _].
  set (a := fst (shl_align mx ex ez)) in *.
  set (b := fst (shl_align my ey ez)) in *.
  replace (Z.min ex ez) with ez in Ha by lia.
  replace (Z.min ey ez) with ez in Hb by lia.
  change (binary_normalize prec emax (Z.pos a + Z.pos b) ez false)
    with (binary_round prec emax false (a + b) ez).
  unfold binary_round.
  assert (Hemin : -1074 <= ez).
  { pose proof (fexp_ge_emin (Zdigits2 (Z.pos mx) + ex)).
    pose proof (fexp_ge_emin (Zdigits2 (Z.pos my) + ey)). lia. }
  assert (Hpow : 0 < 2 ^ (ex - ez)) by (apply Z.pow_pos_nonneg; lia).
  assert (Hsum : Z.pos mx * 2 ^ (ex - ez) <= Z.pos (a + b)).
  { rewrite Pos2Z.inj_add, Ha. lia. }
  assert (Hdig : Zdigits2 (Z.pos mx) + (ex - ez) <= Zdigits2 (Z.pos (a + b))).
  { rewrite <- Zdigits2_shiftl by lia. apply Zdigits2_le; [lia|assumption]. }
  assert (Hf : ex <= fexp prec emax (Zdigits2 (Z.pos (a + b)) + ez)).
  { rewrite Hex at 1. apply fexp_le. lia. }
  destruct (shl_align_spec (a + b) ez
              (fexp prec emax (Z.pos (digits2_pos (a + b)) + ez))) as [Hm He].
  change (Z.pos (digits2_pos (a + b))) with (Zdigits2 (Z.pos (a + b))) in *.
  replace (Z.min ez (fexp prec emax (Zdigits2 (Z.pos (a + b)) + ez)))
    with ez in * by lia.
  rewrite Z.sub_diag, Z.pow_0_r, Z.mul_1_r in Hm.
  destruct (shl_align (a + b) ez (fexp prec emax (Zdigits2 (Z.pos (a + b)) + ez)))
    as [mz e0]. simpl fst in Hm; simpl snd in He. subst e0. rewrite Hm.
  destruct (binary_round_aux_spec false (Z.pos (a + b)) ez loc_Exact)
    as [Hv Hr]; [lia|intros _; lia|lia|].
  split; [exact Hv|].
  set (k := fexp prec emax (Zdigits2 (Z.pos (a + b)) + ez) - ez) in *.
  assert (Hk : ex - ez <= k) by (unfold k; lia).
  assert (Hq : Z.pos mx <= Z.pos (a + b) / 2 ^ (ex - ez)).
  { apply Z.div_le_lower_bound; lia. }
  destruct Hr as [[Hz Hq0]|[Hi|(mr & er & Hr & Her & Hmr)]].
  - (* the sum cannot vanish: it has more digits than are shifted out *)
    exfalso.
    assert (Hkd : k < Zdigits2 (Z.pos (a + b))).
    { unfold k. rewrite fexp_eq.
      pose proof (Zdigits2_pos (Z.pos (a + b)) ltac:(lia)). lia. }
    destruct (Zdigits2_shiftr (Z.pos (a + b)) k ltac:(lia) ltac:(lia)). lia.
  - rewrite Hi. split; [right; left; reflexivity | reflexivity].
  - rewrite Hr. split; [right; right; eauto|].
    apply leb_finite; [lia|].
    intros E. assert (Hke : k = ex - ez) by lia.
    rewrite Hke in Hmr. specialize (Hmr ltac:(lia)). lia.
Qed.

End FloatAddition.

(** ** Energy accounting *)

Section Energy.

Import PyFloat Telemetry.

Lemma leb_refl_nonneg (e : float) : has_sign false e -> leb e e = true.
Proof.
  intros [->|[->|(m & x & ->)]]; try reflexivity. apply leb_refl_finite.
Qed.

Lemma of_Z_1000 : of_Z 1000 = S754_finite false 8796093022208000 (-43).
Proof. vm_compute. reflexivity. Qed.

Lemma of_Z_10 : of_Z 10 = S754_finite false 5629499534213120 (-49).
Proof. vm_compute. reflexivity. Qed.

Lemma of_Z_3600000 : of_Z 3600000 = S754_finite false 7730941132800000 (-31).
Proof. vm_compute. reflexivity. Qed.

(** The power in watts is a valid float; when it is at least zero it is
    the negative zero or a float of positive sign. *)
Lemma power_watts_cases (g : GpuReading) :
  leb (S754_zero false) (power_watts g) = true ->
  valid_binary prec emax (power_watts g) = true
  /\ (power_watts g = S754_zero true \/ has_sign false (power_watts g)).
Proof.
  intros Hge. unfold power_watts in *. rewrite of_Z_1000 in *.
  assert (Hs : exists s, has_sign s (of_Z (power_mw g))).
  { unfold of_Z, binary_normalize. destruct (power_mw g) as [|p|p].
    - exists false. left. reflexivity.
    - exists false. apply binary_round_valid.
    - exists true. apply binary_round_valid. }
  destruct Hs as [s Hs].
  destruct (div_finite_valid (of_Z (power_mw g)) s false
              8796093022208000 (-43) Hs) as [Hv _].
  split; [exact Hv|].
  destruct (div (of_Z (power_mw g)) (S754_finite false 8796093022208000 (-43)))
    as [[]|[]| |[] m e]; try discriminate Hge; unfold has_sign; eauto 6.
Qed.

(** What one GPU sample adds to a good accumulator, for a power of at
    least zero, is again good and not below it. *)
Lemma energy_step (e : float) (g : GpuReading) :
  energy_ok e ->
  leb (S754_zero false) (power_watts g) = true ->
  energy_ok (add e (mul (power_watts g) (of_Z 10)))
  /\ leb e (add e (mul (power_watts g) (of_Z 10))) = true.
Proof.
  intros [Hv Hs] Hge.
  destruct (power_watts_cases g Hge) as [Hpv [Hz|Hp]].
  - (* a negative zero adds nothing *)
    rewrite Hz, of_Z_10.
    change (mul (S754_zero true) (S754_finite false 5629499534213120 (-49)))
      with (S754_zero true).
    assert (E : add e (S754_zero true) = e).
    { destruct Hs as [->|[->|(m & x & ->)]]; reflexivity. }
    rewrite E. split; [split; assumption|]. now apply leb_refl_nonneg.
  - rewrite of_Z_10.
    destruct (mul_finite_valid (power_watts g) false false
                5629499534213120 (-49) Hpv eq_refl Hp) as [Hmv Hms].
    destruct (add_nonneg e _ Hv Hmv Hs Hms) as (Ha & Hb & Hc).
    split; [split; assumption|assumption].
Qed.


Lemma energy_kwh_nonneg (e : float) :
  energy_ok e ->
  leb (S754_zero false) (JobRunner.energy_kwh_of e) = true.
Proof.
  intros [_ Hs]. unfold JobRunner.energy_kwh_of. rewrite of_Z_3600000.
  apply has_sign_nonneg, round_sign.
  exact (proj2 (div_finite_valid e false false 7730941132800000 (-31) Hs)).
Qed.

Lemma new_collector_energy_ok (r : JobRunner.JobRunner) (start : float) :
  energy_ok (_energy_joules (JobRunner.new_collector r start)).
Proof. split; [reflexivity|]. left. reflexivity. Qed.

Lemma leb_finite_inv (m1 m2 : positive) (e1 e2 : Z) :
  leb (S754_finite false m1 e1) (S754_finite false m2 e2) = true ->
  e1 < e2 \/ (e1 = e2 /\ Z.pos m1 <= Z.pos m2).
Proof.
  unfold leb, SFleb, SFcompare.
  destruct (Z.compare_spec e1 e2) as [Heq|Hlt|Hgt]; try discriminate; [|lia].
  change (Pos.compare_cont Eq m1 m2) with (Pos.compare m1 m2).
  destruct (Pos.compare_spec m1 m2); try discriminate; lia.
Qed.

Lemma leb_trans_nonneg (a b c : float) :
  has_sign false a -> has_sign false b -> has_sign false c ->
  leb a b = true -> leb b c = true -> leb a c = true.
Proof.
  intros [->|[->|(ma & ea & ->)]] [->|[->|(mb & eb & ->)]]
         [->|[->|(mc & ec & ->)]]; try reflexivity; try discriminate;
    try (intros _ H; discriminate H).
  intros H1%leb_finite_inv H2%leb_finite_inv.
  apply leb_finite; lia.
Qed.

(** Through the samples of the watchdog the accumulator stays in good
    state, when every power read is at least zero. *)
Lemma build_payload_energy (c : TelemetryCollector) (s : Sample) :
  _energy_joules (snd (_build_payload c s))
  = _energy_joules (snd (_collect_gpu c (s_gpu s))).
Proof.
  unfold _build_payload.
  destruct (_collect_gpu c (s_gpu s)) as [g c1].
  destruct (s_net s) as [n|]; reflexivity.
Qed.

Lemma watchdog_energy (m : JobRunner.JobManifest) (ticks : list JobRunner.WdTick) :
  forall c,
    energy_ok (_energy_joules c) ->
    JobRunner.powers_nonneg ticks ->
    energy_ok (_energy_joules (snd (JobRunner._watchdog_loop m c ticks)))
    /\ leb (_energy_joules c)
         (_energy_joules (snd (JobRunner._watchdog_loop m c ticks))) = true.
Proof.
  induction ticks as [|t ticks IH]; intros c Hok Hp; simpl.
  - split; [assumption|]. apply leb_refl_nonneg, Hok.
  - inversion Hp as [|? ? Ht Hrest]; subst.
    pose proof (build_payload_energy c (JobRunner.wd_sample t)) as He.
    destruct (_build_payload c (JobRunner.wd_sample t)) as [payload c1].
    simpl in He.
    assert (Hstep : energy_ok (_energy_joules c1)
                    /\ leb (_energy_joules c) (_energy_joules c1) = true).
    { rewrite He. destruct (s_gpu (JobRunner.wd_sample t)) as [g|]; simpl.
      - apply energy_step; auto.
      - split; [assumption|]. apply leb_refl_nonneg, Hok. }
    destruct Hstep as [Hok1 Hle1].
    destruct (kill_job_of (JobRunner.wd_send t)); simpl; [auto|].
    specialize (IH c1 Hok1 Hrest).
    destruct (JobRunner._watchdog_loop m c1 ticks) as [tr c2]. simpl in *.
    destruct IH as [Hok2 Hle2]. split; [assumption|].
    exact (leb_trans_nonneg _ _ _ (proj2 Hok) (proj2 Hok1) (proj2 Hok2)
             Hle1 Hle2).
Qed.


(** The accumulator after the first [k] iterations of the watchdog, and
    what the next one makes of it. *)
Lemma watchdog_prefix_energy (m : JobRunner.JobManifest)
    (ticks : list JobRunner.WdTick) :
  forall (c : TelemetryCollector) (k : nat),
    energy_ok (_energy_joules c) ->
    JobRunner.powers_nonneg ticks ->
    let acc := fun j =>
      _energy_joules
        (snd (JobRunner._watchdog_loop m c (firstn j ticks))) in
    energy_ok (acc k)
    /\ leb (acc k) (acc (S k)) = true
    /\ (forall t,
          ticks !! k = Some t ->
          Obs.never_kills (firstn k ticks) ->
          acc (S k)
          = match s_gpu (JobRunner.wd_sample t) with
            | Some g => add (acc k) (mul (power_watts g) (of_Z 10))
            | None => acc k
            end).
Proof.
  induction ticks as [|t ticks IH]; intros c k Hok Hp acc; subst acc;
    cbv beta.
  - rewrite !firstn_nil. cbn [JobRunner._watchdog_loop snd].
    split; [exact Hok|]. split; [apply leb_refl_nonneg, Hok|].
    intros t Ht. destruct k; discriminate Ht.
  - inversion Hp as [|? ? Ht Hrest]; subst.
    pose proof (build_payload_energy c (JobRunner.wd_sample t)) as He.
    assert (Hstep : energy_ok
                      (_energy_joules
                         (snd (_build_payload c (JobRunner.wd_sample t))))
                    /\ leb (_energy_joules c)
                         (_energy_joules
                            (snd (_build_payload c (JobRunner.wd_sample t))))
                       = true).
    { rewrite He. destruct (s_gpu (JobRunner.wd_sample t)) as [g|]; simpl.
      - apply energy_step; auto.
      - split; [assumption|]. apply leb_refl_nonneg, Hok. }
    destruct Hstep as [Hok1 Hle1].
    assert (Hone : forall l,
              (l = [] \/ kill_job_of (JobRunner.wd_send t) = true) ->
              _energy_joules
                (snd (JobRunner._watchdog_loop m c (t :: l)))
              = _energy_joules
                  (snd (_build_payload c (JobRunner.wd_sample t)))).
    { intros l Hl. cbn [JobRunner._watchdog_loop].
      destruct (_build_payload c (JobRunner.wd_sample t)) as [payload c1].
      destruct (kill_job_of (JobRunner.wd_send t)); [reflexivity|].
      destruct Hl as [->|Hl]; [reflexivity|discriminate Hl]. }
    destruct k as [|k].
    + cbn [firstn]. rewrite ?firstn_O. rewrite (Hone [] (or_introl eq_refl)).
      cbn [JobRunner._watchdog_loop snd].
      split; [exact Hok|]. split; [exact Hle1|].
      intros t' Ht' _. cbn in Ht'. injection Ht' as <-.
      rewrite He. destruct (s_gpu (JobRunner.wd_sample t)); reflexivity.
    + cbn [firstn].
      destruct (kill_job_of (JobRunner.wd_send t)) eqn:Hkill.
      * rewrite !(Hone _ (or_intror eq_refl)).
        split; [exact Hok1|]. split; [apply leb_refl_nonneg, Hok1|].
        intros t' _ Hnk. inversion Hnk as [|? ? Hk0 _]; subst.
        congruence.
      * cbn [JobRunner._watchdog_loop].
        destruct (_build_payload c (JobRunner.wd_sample t)) as [payload c1].
        rewrite Hkill. cbn [snd] in Hok1.
        destruct (IH c1 k Hok1 Hrest) as (H1 & H2 & H3).
        destruct (JobRunner._watchdog_loop m c1 (firstn k ticks))
          as [tr1 c2] eqn:E1.
        destruct (JobRunner._watchdog_loop m c1 (firstn (S k) ticks))
          as [tr2 c3] eqn:E2.
        cbn [snd] in *.
        split; [exact H1|]. split; [exact H2|].
        intros t' Ht' Hnk. apply H3; [exact Ht'|].
        now inversion Hnk.
Qed.

(** The energy a run reports is the accumulator left by the watchdog,
    divided by 3600000 and rounded to six places. *)
Lemma run_reports_energy (r : JobRunner.JobRunner) (w : JobRunner.Env)
    (res : JobRunner.Result) :
  JobRunner.returned (JobRunner.run r w) = inr res ->
  JobRunner.r_energy_kwh res
  = JobRunner.energy_kwh_of
      (_energy_joules
         (snd (JobRunner._watchdog_loop (JobRunner.manifest r)
                 (JobRunner.new_collector r (JobRunner.env_start_time w))
                 (JobRunner.env_ticks w)))).
Proof.
  unfold JobRunner.run.
  destruct (JobRunner._pull_and_verify_image (JobRunner.manifest r) w)
    as [t0 [e|ref]]; [discriminate|].
  destruct (JobRunner._watchdog_loop _ _ _) as [wd c]. cbn [snd].
  unfold JobRunner.run_in_workdir.
  destruct (JobRunner._run_container _ _ _ _ _) as [tc [ex|[code logs]]].
  - destruct (JobRunner.input_data_url (JobRunner.manifest r)) as [[|ch u]|];
      simpl; discriminate.
  - intros H.
    destruct (JobRunner.input_data_url (JobRunner.manifest r)) as [[|ch u]|];
      destruct (code =? 0) eqn:Hc; simpl in H; rewrite ?Hc in H; simpl in H;
      injection H as <-; reflexivity.
Qed.

(** C8, for a run in whose samples every power read is at least zero.
    On an accumulator in good state one successful GPU sample adds
    [power_watts * 10] and a failed one adds nothing, and the accumulator
    stays in good state and does not decrease.  The accumulator of the
    run starts at zero; after any number of iterations of the watchdog it
    is in good state and not above what it is after one more; and an
    iteration that is reached, no earlier one having ended the loop with
    a kill, adds [power_watts * 10] when the GPU was read and nothing
    otherwise.  The [energy_kwh] of the result that [run] returns is the
    accumulator after the last iteration, divided by 3600000 and rounded
    to six decimal places, and it is at least zero. *)
Theorem energy_accumulator_monotone (r : JobRunner.JobRunner)
    (w : JobRunner.Env) :
  JobRunner.powers_nonneg (JobRunner.env_ticks w) ->
  let acc := fun k =>
    _energy_joules
      (snd (JobRunner._watchdog_loop (JobRunner.manifest r)
              (JobRunner.new_collector r (JobRunner.env_start_time w))
              (firstn k (JobRunner.env_ticks w)))) in
  (forall (c : TelemetryCollector) (rd : option GpuReading),
     energy_ok (_energy_joules c) ->
     (forall g, rd = Some g -> leb (S754_zero false) (power_watts g) = true) ->
     _energy_joules (snd (_collect_gpu c rd))
     = match rd with
       | Some g => add (_energy_joules c) (mul (power_watts g) (of_Z 10))
       | None => _energy_joules c
       end
     /\ energy_ok (_energy_joules (snd (_collect_gpu c rd)))
     /\ leb (_energy_joules c) (_energy_joules (snd (_collect_gpu c rd)))
        = true)
  /\ acc 0%nat = S754_zero false
  /\ (forall k, energy_ok (acc k) /\ leb (acc k) (acc (S k)) = true)
  /\ (forall k t,
        JobRunner.env_ticks w !! k = Some t ->
        Obs.never_kills (firstn k (JobRunner.env_ticks w)) ->
        acc (S k)
        = match s_gpu (JobRunner.wd_sample t) with
          | Some g => add (acc k) (mul (power_watts g) (of_Z 10))
          | None => acc k
          end)
  /\ (forall res,
        JobRunner.returned (JobRunner.run r w) = inr res ->
        JobRunner.r_energy_kwh res
        = round (div (acc (length (JobRunner.env_ticks w))) (of_Z 3600000)) 6
        /\ leb (S754_zero false) (JobRunner.r_energy_kwh res) = true).
Proof.
  intros Hp acc.
  pose proof (fun k =>
    watchdog_prefix_energy (JobRunner.manifest r) (JobRunner.env_ticks w)
      (JobRunner.new_collector r (JobRunner.env_start_time w)) k
      (new_collector_energy_ok r _) Hp) as Hacc.
  cbv zeta in Hacc. fold acc in Hacc.
  split.
  { intros c rd Hok Hpow.
    assert (H : energy_ok (_energy_joules (snd (_collect_gpu c rd)))
                /\ leb (_energy_joules c)
                     (_energy_joules (snd (_collect_gpu c rd))) = true).
    { destruct rd as [g|]; simpl.
      - apply energy_step; auto.
      - split; [assumption|]. apply leb_refl_nonneg, Hok. }
    split; [destruct rd; reflexivity|exact H]. }
  split; [reflexivity|].
  split; [intros k; destruct (Hacc k) as (H1 & H2 & _); split; assumption|].
  split; [intros k; exact (proj2 (proj2 (Hacc k)))|].
  intros res Hres.
  rewrite (run_reports_energy r w res Hres).
  unfold acc. rewrite firstn_all.
  split; [reflexivity|].
  apply energy_kwh_nonneg.
  exact (proj1 (watchdog_energy (JobRunner.manifest r) (JobRunner.env_ticks w)
                  _ (new_collector_energy_ok r _) Hp)).
Qed.

Lemma energy_accumulator_monotone_witness :
  let r := Inputs.runner_of Inputs.short_manifest in
  let w := Inputs2.env_sampled in
  JobRunner.r_energy_kwh Inputs2.sampled_result
  = round (div (_energy_joules
                  (snd (JobRunner._watchdog_loop (JobRunner.manifest r)
                          (JobRunner.new_collector r
                             (JobRunner.env_start_time w))
                          (firstn (length (JobRunner.env_ticks w))
                             (JobRunner.env_ticks w)))))
             (of_Z 3600000)) 6
  /\ leb (S754_zero false) (JobRunner.r_energy_kwh Inputs2.sampled_result)
     = true.
Proof.
  intros r w.
  refine (proj2 (proj2 (proj2 (proj2
            (energy_accumulator_monotone r w _)))) Inputs2.sampled_result _).
  - repeat constructor; intros g [= <-]; vm_compute; reflexivity.
  - vm_compute. reflexivity.
Defined.

(** A run with three samples: two samples of 250 W and one without a
    reading make 5000 J, reported as 0.001389 kWh. *)
Example run_sampled_energy :
  JobRunner.returned
    (JobRunner.run (Inputs.runner_of Inputs.short_manifest)
       Inputs2.env_sampled)
  = inr Inputs2.sampled_result
  /\ _energy_joules
       (snd (JobRunner._watchdog_loop Inputs.short_manifest
               (JobRunner.new_collector
                  (Inputs.runner_of Inputs.short_manifest) (S754_zero false))
               (JobRunner.env_ticks Inputs2.env_sampled)))
     = of_Z 5000.
Proof. split; vm_compute; reflexivity. Qed.

End Energy.

(** ** Boundary cases *)

Section Boundaries.

Import JobRunner.

(** A run whose container call times out returns [FAILED] with exit code
    -1 and the log body [DURATION_LIMIT_EXCEEDED], and uploads nothing. *)
Lemma timed_out_run_fails (r : JobRunner) (w : Env) (t bytes : Z) :
  Spec.matches_digest (expected_sha (manifest r)) ->
  env_pull w = PullExit 0 "" ->
  env_container w = TimeoutExpired ->
  PyFloat.to_Z (duration_product (manifest r)) = Some t ->
  PyFloat.to_Z (ram_product (manifest r)) = Some bytes ->
  exists res,
    returned (run r w) = inr res
    /\ r_status res = "FAILED"%string
    /\ r_exit_code res = -1
    /\ r_logs res = "DURATION_LIMIT_EXCEEDED"%string
    /\ existsb (fun e => match e with EvUpload _ => true | _ => false end)
         (main_trace (run r w)) = false.
Proof.
  intros Hd Hp Hc Ht Hb.
  apply digest_checks_iff in Hd as [H1 H2].
  unfold run, _pull_and_verify_image.
  change (String.length "sha256:") with 7%nat. rewrite H1, H2, Hp. simpl.
  destruct (_watchdog_loop _ _ _) as [wd c].
  unfold run_in_workdir.
  rewrite Hc, (timeout_run_container (manifest r) _ _ _ t bytes Ht Hb).
  destruct (input_data_url (manifest r)) as [[|ch u]|]; simpl;
    eexists; (split; [reflexivity|]); simpl; repeat split; reflexivity.
Qed.

Import Agent.

(** With an answer that is typed, a poll interval of zero ends the loop
    in its first iteration, at the division; a negative one sends a
    heartbeat and ends it at the sleep, with a [ValueError] or, beyond
    the range of [time.sleep], an [OverflowError]. *)
Lemma zero_interval_raises (a : ProviderAgent) (c : Z) (i : TickInput) :
  poll_interval a = 0 ->
  typed_poll (t_poll i) = true ->
  snd (tick a c i) = inl ZeroDivisionError.
Proof.
  intros Hp Hty. rewrite (tick_typed a c i Hty). cbv zeta.
  now rewrite Hp.
Qed.

Lemma negative_interval_raises (a : ProviderAgent) (i : TickInput) :
  poll_interval a < 0 ->
  typed_poll (t_poll i) = true ->
  snd (tick a 0 i)
  = inl (if poll_interval a <? - sleep_limit
         then SleepOverflowError else SleepValueError)
  /\ sends_heartbeat (fst (tick a 0 i)) = true.
Proof.
  intros Hp Hty. rewrite (tick_typed a 0 i Hty). cbv zeta.
  replace (poll_interval a =? 0) with false by (symmetry; apply Z.eqb_neq; lia).
  replace (poll_interval a <? 0) with true by (symmetry; apply Z.ltb_lt; lia).
  replace (sleep_limit <? poll_interval a) with false
    by (symmetry; apply Z.ltb_ge; unfold sleep_limit; lia).
  rewrite orb_false_r.
  assert (Hq : 60 / poll_interval a <= 0 + 1).
  { pose proof (Z.div_mod 60 (poll_interval a) ltac:(lia)) as Hdm.
    pose proof (Z.mod_neg_bound 60 (poll_interval a) Hp) as Hm. nia. }
  apply Z.leb_le in Hq. rewrite Hq.
  destruct (poll_interval a <? - sleep_limit); cbn [fst snd];
    (split; [reflexivity|]);
    unfold sends_heartbeat; rewrite !existsb_app; simpl;
    now rewrite !orb_true_r.
Qed.

End Boundaries.

(** * Further properties of the code *)

(** ** The course of a run *)

Section RunCourse.

Import JobRunner.

(** What a successful image verification has done. *)
Lemma pull_ok_inv (m : JobManifest) (w : Env) (t0 : trace) (ref : string) :
  _pull_and_verify_image m w = (t0, inr ref) ->
  Spec.matches_digest (expected_sha m)
  /\ (exists err, env_pull w = PullExit 0 err)
  /\ ref = Obs.pinned_ref m
  /\ t0 = [EvDockerPull (Obs.pinned_ref m)].
Proof.
  unfold _pull_and_verify_image. change (String.length "sha256:") with 7%nat.
  destruct (str_empty (expected_sha m)
            || negb (PyStr.startswith "sha256:" (expected_sha m))) eqn:H1;
    [discriminate|].
  destruct (negb (Nat.eqb (String.length (PyStr.drop 7 (expected_sha m))) 64)
            || negb (PyStr.forallb is_hex (PyStr.drop 7 (expected_sha m))))
    eqn:H2; [discriminate|].
  destruct (env_pull w) as [rc err|]; simpl; [|discriminate].
  destruct (rc =? 0) eqn:Hrc; simpl; [|discriminate].
  intros [= <- <-]. apply Z.eqb_eq in Hrc. subst rc.
  split; [apply digest_checks_iff; split; assumption|].
  split; [eauto|]. split; reflexivity.
Qed.

Lemma pull_trace_shape (m : JobManifest) (w : Env) :
  fst (_pull_and_verify_image m w) = []
  \/ fst (_pull_and_verify_image m w) = [EvDockerPull (Obs.pinned_ref m)].
Proof.
  unfold _pull_and_verify_image.
  destruct (_ || _); [left; reflexivity|].
  destruct (_ || _); [left; reflexivity|].
  right. destruct (env_pull w) as [rc err|]; simpl; [|reflexivity].
  destruct (negb (rc =? 0)); reflexivity.
Qed.

(** The trace of the body of the [with] block: an optional download, the
    start of the watchdog, the container call, an optional upload. *)
Lemma run_in_workdir_trace (r : JobRunner) (w : Env) (ref : string)
    (e : PyFloat.float) :
  exists dl up,
    fst (run_in_workdir r w ref e)
    = dl ++ [EvWatchdogStart]
      ++ fst (_run_container (manifest r) (env_workdir w ++ "/input")
                (env_workdir w ++ "/output") ref (env_container w))
      ++ up
    /\ count_events is_docker_run dl = 0%nat
    /\ count_events is_docker_run up = 0%nat
    /\ existsb Obs.is_upload dl = false
    /\ (forall code logs,
          snd (_run_container (manifest r) (env_workdir w ++ "/input")
                 (env_workdir w ++ "/output") ref (env_container w))
          = inr (code, logs) ->
          existsb Obs.is_upload up = (code =? 0)
          /\ snd (run_in_workdir r w ref e)
             = inr {| r_job_id := job_id (manifest r);
                      r_status := if code =? 0 then "COMPLETE" else "FAILED";
                      r_exit_code := code;
                      r_energy_kwh := energy_kwh_of e;
                      r_logs := PyStr.last 5000 logs |})
    /\ (forall ex,
          snd (_run_container (manifest r) (env_workdir w ++ "/input")
                 (env_workdir w ++ "/output") ref (env_container w))
          = inl ex ->
          up = [] /\ snd (run_in_workdir r w ref e) = inl ex).
Proof.
  unfold run_in_workdir.
  destruct (_run_container (manifest r) (env_workdir w ++ "/input")
              (env_workdir w ++ "/output") ref (env_container w))
    as [tc [ex|[code logs]]].
  - exists (match input_data_url (manifest r) with
            | Some (String _ _ as url) =>
                [EvDownload url ((env_workdir w ++ "/input") ++ "/input.tar.gz")]
            | _ => []
            end), [].
    destruct (input_data_url (manifest r)) as [[|ch u]|]; simpl;
      rewrite ?app_nil_r;
      (split; [reflexivity|]); (split; [reflexivity|]);
      (split; [reflexivity|]); (split; [reflexivity|]);
      (split; [intros ? ? [=] | intros ? [= <-]; split; reflexivity]).
  - exists (match input_data_url (manifest r) with
            | Some (String _ _ as url) =>
                [EvDownload url ((env_workdir w ++ "/input") ++ "/input.tar.gz")]
            | _ => []
            end),
           (if code =? 0 then [EvUpload (env_workdir w ++ "/output")] else []).
    destruct (input_data_url (manifest r)) as [[|ch u]|]; simpl;
      destruct (code =? 0) eqn:Hc; simpl;
      rewrite ?app_nil_r;
      (split; [reflexivity|]); (split; [reflexivity|]);
      (split; [reflexivity|]); (split; [reflexivity|]);
      (split; [intros ? ? [= <- <-]; rewrite Hc; split; reflexivity
              | intros ? [=]]).
Qed.


(** The two courses of [run]: the verification raises, or the working
    directory is made, the body runs and the directory is removed. *)
Lemma run_cases (r : JobRunner) (w : Env) :
  (exists t0 e,
     _pull_and_verify_image (manifest r) w = (t0, inl e)
     /\ run r w = {| main_trace := t0; watchdog_trace := [];
                     returned := inl e |})
  \/ (exists ref energy,
        _pull_and_verify_image (manifest r) w
        = ([EvDockerPull ref], inr ref)
        /\ ref = Obs.pinned_ref (manifest r)
        /\ energy = Telemetry._energy_joules
                      (snd (_watchdog_loop (manifest r)
                              (new_collector r (env_start_time w))
                              (env_ticks w)))
        /\ main_trace (run r w)
           = [EvDockerPull ref; EvMkWorkdir (env_workdir w)]
             ++ fst (run_in_workdir r w ref energy)
             ++ [EvRmWorkdir (env_workdir w)]
        /\ watchdog_trace (run r w)
           = fst (_watchdog_loop (manifest r)
                    (new_collector r (env_start_time w)) (env_ticks w))
        /\ returned (run r w) = snd (run_in_workdir r w ref energy)).
Proof.
  unfold run.
  destruct (_pull_and_verify_image (manifest r) w) as [t0 [e|ref]] eqn:Hp.
  - left. eauto.
  - right. destruct (pull_ok_inv _ _ _ _ Hp) as (_ & _ & Href & Ht0).
    destruct (_watchdog_loop _ _ _) as [wd c] eqn:Hw.
    destruct (run_in_workdir r w ref (Telemetry._energy_joules c))
      as [t1 res] eqn:Hr.
    exists ref, (Telemetry._energy_joules c). simpl.
    rewrite Hr. subst t0. rewrite <- Href.
    repeat split; reflexivity.
Qed.

Lemma run_container_count (m : JobManifest) (i o ref : string)
    (oc : ContainerOutcome) :
  (count_events is_docker_run (fst (_run_container m i o ref oc)) <= 1)%nat.
Proof.
  unfold count_events, _run_container, int_of_float.
  destruct (PyFloat.to_Z (duration_product m)).
  2:{ destruct (duration_product m); simpl; lia. }
  destruct (PyFloat.to_Z (ram_product m)).
  2:{ destruct (ram_product m); simpl; lia. }
  destruct oc; simpl; lia.
Qed.

Lemma In_count_events (p : Event -> bool) (e : Event) (t : trace) :
  In e t -> p e = true -> (1 <= count_events p t)%nat.
Proof.
  intros Hin Hp. unfold count_events.
  induction t as [|x t IH]; [destruct Hin|].
  simpl. destruct Hin as [->|Hin].
  - rewrite Hp. simpl. lia.
  - specialize (IH Hin). destruct (p x); simpl; lia.
Qed.

Lemma count_events_zero_not_In (e : Event) (t : trace) :
  count_events is_docker_run t = 0%nat -> is_docker_run e = true -> ~ In e t.
Proof.
  intros Hc He Hin. pose proof (In_count_events _ _ _ Hin He). lia.
Qed.

(** X1: A container is started only for a verified image: whenever a run
    calls the engine, the digest of the manifest is well formed, the pull
    of the pinned reference came first and exited with 0, the image
    argument of the call is that pinned reference followed by the command
    of the manifest, and the run makes no second call. *)
Theorem container_only_after_verified_pull (r : JobRunner) (w : Env)
    (cmd : list string) (t : Z) :
  In (EvDockerRun cmd t) (main_trace (run r w)) ->
  Spec.matches_digest (expected_sha (manifest r))
  /\ (exists err, env_pull w = PullExit 0 err)
  /\ (exists rest,
        main_trace (run r w)
        = EvDockerPull (Obs.pinned_ref (manifest r)) :: rest)
  /\ (exists opts,
        cmd = opts ++ Obs.pinned_ref (manifest r) :: command (manifest r))
  /\ count_events is_docker_run (main_trace (run r w)) = 1%nat.
Proof.
  intros Hin.
  destruct (run_cases r w) as [(t0 & e & Hp & Hrun)|
                               (ref & en & Hp & Href & _ & Hmain & _ & _)].
  - exfalso. rewrite Hrun in Hin. simpl in Hin.
    destruct (pull_trace_shape (manifest r) w) as [H|H];
      rewrite Hp in H; simpl in H; subst t0.
    + destruct Hin.
    + destruct Hin as [H|[]]. discriminate H.
  - destruct (pull_ok_inv _ _ _ _ Hp) as (Hd & Herr & _ & _).
    destruct (run_in_workdir_trace r w ref en)
      as (dl & up & Ht & Hdl & Hup & _).
    rewrite Hmain, Ht in Hin |- *.
    split; [assumption|]. split; [assumption|].
    split; [subst ref; simpl; eauto|].
    assert (Hc : In (EvDockerRun cmd t)
                   (fst (_run_container (manifest r) (env_workdir w ++ "/input")
                           (env_workdir w ++ "/output") ref (env_container w)))).
    { rewrite !in_app_iff in Hin. simpl in Hin.
      decompose [or] Hin; try discriminate; try assumption; try contradiction;
        exfalso.
      - exact (count_events_zero_not_In (EvDockerRun cmd t) _ Hdl eq_refl H).
      - exact (count_events_zero_not_In (EvDockerRun cmd t) _ Hup eq_refl H). }
    split.
    + destruct (run_container_invokes _ _ _ _ _ _ _ Hc) as (bytes & _ & _ & ->).
      rewrite docker_cmd_options, Href. eauto.
    + pose proof (In_count_events is_docker_run _ _ Hc eq_refl) as H1.
      pose proof (run_container_count (manifest r) (env_workdir w ++ "/input")
                    (env_workdir w ++ "/output") ref (env_container w)) as H2.
      change (count_events is_docker_run
                ([EvDockerPull ref; EvMkWorkdir (env_workdir w)]
                 ++ (dl ++ [EvWatchdogStart]
                     ++ fst (_run_container (manifest r)
                               (env_workdir w ++ "/input")
                               (env_workdir w ++ "/output") ref
                               (env_container w)) ++ up)
                 ++ [EvRmWorkdir (env_workdir w)]) = 1%nat).
      rewrite !count_events_app, Hdl, Hup.
      unfold count_events in *. simpl. lia.
Qed.

End RunCourse.

Section RunResults.

Import JobRunner.

Lemma container_only_after_verified_pull_witness :
  let r := Inputs.runner_of Inputs.short_manifest in
  let w := Inputs.env_with (Exited 0 "" "") in
  Spec.matches_digest (expected_sha (manifest r))
  /\ (exists err, env_pull w = PullExit 0 err)
  /\ (exists rest,
        main_trace (run r w)
        = EvDockerPull (Obs.pinned_ref (manifest r)) :: rest)
  /\ (exists opts,
        docker_cmd Inputs.short_manifest "/tmp/gp4u-job-abc/input"
          "/tmp/gp4u-job-abc/output" (Obs.pinned_ref Inputs.short_manifest)
          1073741824
        = opts ++ Obs.pinned_ref (manifest r) :: command (manifest r))
  /\ count_events is_docker_run (main_trace (run r w)) = 1%nat.
Proof.
  apply (container_only_after_verified_pull
           (Inputs.runner_of Inputs.short_manifest)
           (Inputs.env_with (Exited 0 "" "")) _ 3).
  vm_compute. right. right. right. left. reflexivity.
Defined.

(** X2: A pull that exits with a code other than 0 makes the run raise with
    the first 300 characters of the error output; the pull is the only
    thing the run has done: no directory, no watchdog, no container. *)
Theorem failed_pull_raises (r : JobRunner) (w : Env) (rc : Z) (err : string) :
  Spec.matches_digest (expected_sha (manifest r)) ->
  env_pull w = PullExit rc err ->
  rc <> 0 ->
  run r w
  = {| main_trace := [EvDockerPull (Obs.pinned_ref (manifest r))];
       watchdog_trace := [];
       returned := inl (RuntimeError_pull_failed (PyStr.take 300 err)) |}.
Proof.
  intros Hd Hp Hrc. apply digest_checks_iff in Hd as [H1 H2].
  unfold run, _pull_and_verify_image.
  change (String.length "sha256:") with 7%nat. rewrite H1, H2, Hp. simpl.
  replace (rc =? 0) with false by (symmetry; apply Z.eqb_neq; assumption).
  reflexivity.
Qed.

Lemma good_digest_matches :
  Spec.matches_digest (expected_sha Inputs.short_manifest).
Proof.
  exists "aaaaaaaaaaaaaaaaaaaaaaaaaaaaaaaaaaaaaaaaaaaaaaaaaaaaaaaaaaaaaaaa"%string.
  repeat split; reflexivity.
Qed.

Lemma failed_pull_raises_witness :
  run (Inputs.runner_of Inputs.short_manifest)
    (Inputs2.env_pull_exit 1 "manifest unknown")
  = {| main_trace := [EvDockerPull (Obs.pinned_ref Inputs.short_manifest)];
       watchdog_trace := [];
       returned := inl (RuntimeError_pull_failed
                          (PyStr.take 300 "manifest unknown")) |}.
Proof.
  apply (failed_pull_raises (Inputs.runner_of Inputs.short_manifest)
           (Inputs2.env_pull_exit 1 "manifest unknown") 1 "manifest unknown").
  - exact good_digest_matches.
  - reflexivity.
  - lia.
Defined.

Lemma run_container_result (m : JobManifest) (i o ref : string)
    (oc : ContainerOutcome) (code : Z) (logs : string) :
  snd (_run_container m i o ref oc) = inr (code, logs) ->
  code = Obs.exit_code_of oc /\ logs = Obs.output_of oc.
Proof.
  unfold _run_container, int_of_float.
  destruct (PyFloat.to_Z (duration_product m)).
  2:{ destruct (duration_product m); simpl; discriminate. }
  destruct (PyFloat.to_Z (ram_product m)).
  2:{ destruct (ram_product m); simpl; discriminate. }
  destruct oc; simpl; intros [= <- <-]; split; reflexivity.
Qed.

Lemma length_drop (n : nat) : forall s,
  String.length (PyStr.drop n s) = (String.length s - n)%nat.
Proof.
  induction n as [|n IH]; intros [|c s]; simpl; try lia. apply IH.
Qed.

Lemma drop_suffix (n : nat) : forall s,
  exists pre, s = (pre ++ PyStr.drop n s)%string
              /\ String.length pre = Nat.min n (String.length s).
Proof.
  induction n as [|n IH]; intros s.
  - exists ""%string. destruct s; split; reflexivity.
  - destruct s as [|c s].
    + exists ""%string. split; reflexivity.
    + destruct (IH s) as (pre & Hs & Hl). exists (String c pre). split.
      * change (String c s = String c (pre ++ PyStr.drop n s)%string).
        now rewrite <- Hs.
      * simpl. now rewrite Hl.
Qed.

(** [s[-n:]] is the end of [s], of [n] characters or the whole of [s]. *)
Lemma last_suffix (n : nat) (s : string) :
  (exists pre, s = (pre ++ PyStr.last n s)%string)
  /\ String.length (PyStr.last n s) = Nat.min n (String.length s).
Proof.
  unfold PyStr.last. split.
  - destruct (drop_suffix (String.length s - n) s) as (pre & H & _). eauto.
  - rewrite length_drop. lia.
Qed.

(** X3: What a run that returns reports: the id of its job; the exit code of
    the container, or -1 when the call timed out or raised; the status
    [COMPLETE] for the exit code 0 and [FAILED] for every other; as logs the
    last 5000 characters of the output, or all of it when it is shorter.
    The output is uploaded exactly when the exit code is 0. *)
Theorem run_result (r : JobRunner) (w : Env) (res : Result) :
  returned (run r w) = inr res ->
  r_job_id res = job_id (manifest r)
  /\ r_exit_code res = Obs.exit_code_of (env_container w)
  /\ r_status res = (if r_exit_code res =? 0 then "COMPLETE" else "FAILED")
  /\ existsb Obs.is_upload (main_trace (run r w)) = (r_exit_code res =? 0)
  /\ (exists pre, Obs.output_of (env_container w) = (pre ++ r_logs res)%string)
  /\ String.length (r_logs res)
     = Nat.min 5000 (String.length (Obs.output_of (env_container w))).
Proof.
  intros Hret.
  destruct (run_cases r w) as [(t0 & e & _ & Hrun)|
                               (ref & en & _ & _ & _ & Hmain & _ & Hres)].
  { rewrite Hrun in Hret. discriminate Hret. }
  destruct (run_in_workdir_trace r w ref en)
    as (dl & up & Ht & _ & _ & Hdl & Hok & Hex).
  destruct (snd (_run_container (manifest r) (env_workdir w ++ "/input")
                   (env_workdir w ++ "/output") ref (env_container w)))
    as [ex|[code logs]] eqn:Hc.
  { destruct (Hex ex eq_refl) as [_ H]. congruence. }
  destruct (Hok code logs eq_refl) as [Hup Hr].
  destruct (run_container_result _ _ _ _ _ _ _ Hc) as [Hcode Hlogs].
  assert (E : res = {| r_job_id := job_id (manifest r);
                       r_status := if code =? 0 then "COMPLETE" else "FAILED";
                       r_exit_code := code;
                       r_energy_kwh := energy_kwh_of en;
                       r_logs := PyStr.last 5000 logs |}) by congruence.
  subst res. simpl. subst code logs.
  split; [reflexivity|]. split; [reflexivity|]. split; [reflexivity|].
  split.
  - rewrite Hmain, Ht. rewrite !existsb_app, Hdl, Hup. simpl.
    assert (Hn : existsb Obs.is_upload
                   (fst (_run_container (manifest r) (env_workdir w ++ "/input")
                           (env_workdir w ++ "/output") ref (env_container w)))
                 = false).
    { clear. unfold _run_container, int_of_float.
      destruct (PyFloat.to_Z (duration_product (manifest r))).
      2:{ destruct (duration_product (manifest r)); reflexivity. }
      destruct (PyFloat.to_Z (ram_product (manifest r))).
      2:{ destruct (ram_product (manifest r)); reflexivity. }
      destruct (env_container w); reflexivity. }
    rewrite Hn. simpl. now rewrite orb_false_r.
  - apply last_suffix.
Qed.

Lemma run_result_witness :
  let r := Inputs.runner_of Inputs.short_manifest in
  let w := Inputs.env_with (Exited 2 "out" "err") in
  let res := Inputs2.failed_result in
  r_job_id res = job_id (manifest r)
  /\ r_exit_code res = Obs.exit_code_of (env_container w)
  /\ r_status res = (if r_exit_code res =? 0 then "COMPLETE" else "FAILED")
  /\ existsb Obs.is_upload (main_trace (run r w)) = (r_exit_code res =? 0)
  /\ (exists pre, Obs.output_of (env_container w) = (pre ++ r_logs res)%string)
  /\ String.length (r_logs res)
     = Nat.min 5000 (String.length (Obs.output_of (env_container w))).
Proof.
  apply (run_result (Inputs.runner_of Inputs.short_manifest)
           (Inputs.env_with (Exited 2 "out" "err")) Inputs2.failed_result).
  vm_compute. reflexivity.
Defined.

End RunResults.

Section NonFinite.

Import JobRunner.

Lemma not_finite_cases (x : PyFloat.float) :
  Obs.not_finite x -> (exists s, x = S754_infinity s) \/ x = S754_nan.
Proof. destruct x; try discriminate; eauto. Qed.

Lemma duration_not_finite (m : JobManifest) :
  Obs.not_finite (expected_duration_h m) ->
  Obs.not_finite (duration_product m).
Proof.
  intros H. unfold duration_product.
  destruct (not_finite_cases _ H) as [[s ->]| ->]; destruct s || idtac;
    vm_compute; reflexivity.
Qed.

Lemma ram_not_finite (m : JobManifest) :
  Obs.not_finite (ram_limit_gb m) -> Obs.not_finite (ram_product m).
Proof.
  intros H. unfold ram_product.
  destruct (not_finite_cases _ H) as [[s ->]| ->]; destruct s || idtac;
    vm_compute; reflexivity.
Qed.

Lemma int_of_float_raises (x : PyFloat.float) :
  Obs.not_finite x ->
  int_of_float x = raise OverflowError \/ int_of_float x = raise ValueError.
Proof.
  intros H. destruct (not_finite_cases _ H) as [[s ->]| ->]; [left|right];
    reflexivity.
Qed.

Lemma run_container_raises (m : JobManifest) (i o ref : string)
    (oc : ContainerOutcome) :
  Obs.not_finite (duration_product m) \/ Obs.not_finite (ram_product m) ->
  exists e, _run_container m i o ref oc = ([], inl e)
            /\ (e = OverflowError \/ e = ValueError).
Proof.
  intros H. unfold _run_container.
  destruct (PyFloat.to_Z (duration_product m)) as [t|] eqn:Hd.
  - destruct H as [H|H]; [unfold Obs.not_finite in H; congruence|].
    rewrite (int_of_float_Some _ _ Hd).
    destruct (int_of_float_raises _ H) as [-> | ->]; simpl; eauto.
  - destruct (int_of_float_raises _ Hd) as [-> | ->]; simpl; eauto.
Qed.

(** X4: A manifest whose expected duration or memory limit is an infinity or a
    NaN passes the verification and the pull, and then makes the run raise
    [OverflowError] or [ValueError] at the conversion to whole seconds or
    bytes: the working directory has been made and is removed again, the
    watchdog has been started, and the engine is never asked to run a
    container. *)
Theorem nonfinite_limit_raises (r : JobRunner) (w : Env) :
  Spec.matches_digest (expected_sha (manifest r)) ->
  (exists err, env_pull w = PullExit 0 err) ->
  Obs.not_finite (expected_duration_h (manifest r))
  \/ Obs.not_finite (ram_limit_gb (manifest r)) ->
  exists e dl,
    returned (run r w) = inl e
    /\ (e = OverflowError \/ e = ValueError)
    /\ main_trace (run r w)
       = [EvDockerPull (Obs.pinned_ref (manifest r));
          EvMkWorkdir (env_workdir w)]
         ++ dl ++ [EvWatchdogStart; EvRmWorkdir (env_workdir w)]
    /\ count_events is_docker_run (main_trace (run r w)) = 0%nat.
Proof.
  intros Hd [err Hp] Hnf.
  assert (Hnf' : Obs.not_finite (duration_product (manifest r))
                 \/ Obs.not_finite (ram_product (manifest r))).
  { destruct Hnf; [left; now apply duration_not_finite
                  |right; now apply ram_not_finite]. }
  destruct (run_cases r w) as [(t0 & e & Hv & _)|
                               (ref & en & _ & Href & _ & Hmain & _ & Hres)].
  { exfalso. destruct (well_formed_digest_pulls (manifest r) w Hd) as [res Hpull].
    apply digest_checks_iff in Hd as [H1 H2].
    unfold _pull_and_verify_image in Hv.
    change (String.length "sha256:") with 7%nat in Hv.
    rewrite H1, H2, Hp in Hv. simpl in Hv. discriminate Hv. }
  destruct (run_in_workdir_trace r w ref en)
    as (dl & up & Ht & Hdl & _ & _ & _ & Hex).
  destruct (run_container_raises (manifest r) (env_workdir w ++ "/input")
              (env_workdir w ++ "/output") ref (env_container w) Hnf')
    as (e & Hc & He).
  rewrite Hc in Ht, Hex. destruct (Hex e eq_refl) as [-> Hr].
  exists e, dl. rewrite Hres, Hr, Hmain, Ht, <- Href.
  split; [reflexivity|]. split; [assumption|].
  split; [simpl; now rewrite <- !app_assoc|].
  rewrite !count_events_app, Hdl. reflexivity.
Qed.

Lemma nonfinite_limit_raises_witness :
  let r := Inputs.runner_of Inputs2.endless_manifest in
  let w := Inputs.env_with (Exited 0 "" "") in
  exists e dl,
    returned (run r w) = inl e
    /\ (e = OverflowError \/ e = ValueError)
    /\ main_trace (run r w)
       = [EvDockerPull (Obs.pinned_ref (manifest r));
          EvMkWorkdir (env_workdir w)]
         ++ dl ++ [EvWatchdogStart; EvRmWorkdir (env_workdir w)]
    /\ count_events is_docker_run (main_trace (run r w)) = 0%nat.
Proof.
  apply (nonfinite_limit_raises (Inputs.runner_of Inputs2.endless_manifest)
           (Inputs.env_with (Exited 0 "" ""))).
  - exact good_digest_matches.
  - eexists. reflexivity.
  - left. reflexivity.
Defined.

End NonFinite.

(** ** The environment arguments and the watchdog *)

Section EnvShape.

Import JobRunner.

Lemma key_char_not_dash (c : ascii) : key_char c = true -> c <> "-"%char.
Proof. intros H ->. discriminate H. Qed.

Lemma clean_key_head (k : string) :
  str_empty (clean_key k) = false ->
  exists c rest, clean_key k = String c rest /\ key_char c = true.
Proof.
  intros H. pose proof (filter_forallb key_char k) as Hall.
  fold (clean_key k) in Hall.
  destruct (clean_key k) as [|c rest]; [discriminate H|].
  simpl in Hall. apply andb_prop in Hall as [Hc _]. eauto.
Qed.

(** X5: The arguments built from the declared variables come in pairs: the
    word [--env] and, after it, a text that begins with a character of the
    key, which is alphanumeric or an underscore and so never a dash.  No
    entry of the map can therefore add an option of its own, and there are
    at most two arguments for each entry. *)
Theorem env_args_never_options (env : list (string * string)) :
  Forall (fun a => a = "--env"%string
                   \/ exists c rest, a = String c rest
                                     /\ key_char c = true /\ c <> "-"%char)
    (_build_env_args env)
  /\ length (_build_env_args env)
     = (2 * Spec.count_arg "--env" (_build_env_args env))%nat
  /\ (length (_build_env_args env) <= 2 * length env)%nat.
Proof.
  induction env as [|[k v] env (IH1 & IH2 & IH3)].
  - repeat split; [constructor|simpl; lia].
  - cbn [_build_env_args].
    destruct (str_empty (clean_key k)) eqn:Hk.
    + repeat split; [assumption|assumption|simpl; lia].
    + destruct (clean_key_head k Hk) as (c & rest & Hck & Hc).
      change ([("--env")%string; (clean_key k ++ "=" ++ clean_val v)%string]
                ++ _build_env_args env)
        with (("--env")%string :: (clean_key k ++ "=" ++ clean_val v)%string
                :: _build_env_args env).
      assert (Hhead : (clean_key k ++ "=" ++ clean_val v)%string
                      = String c (rest ++ "=" ++ clean_val v)%string)
        by now rewrite Hck.
      rewrite Hhead.
      split; [|split].
      * constructor; [now left|]. constructor; [|assumption].
        right. exists c, (rest ++ "=" ++ clean_val v)%string.
        split; [reflexivity|]. split; [assumption|].
        now apply key_char_not_dash.
      * rewrite !count_arg_cons.
        replace (String.eqb "--env" (String c (rest ++ "=" ++ clean_val v)))
          with false.
        -- change (String.eqb "--env" "--env") with true.
           cbn [length]. lia.
        -- symmetry. apply String.eqb_neq. intros E.
           injection E as <- _. discriminate Hc.
      * cbn [length]. lia.
Qed.

Lemma filter_id p s : PyStr.forallb p s = true -> PyStr.filter p s = s.
Proof.
  induction s as [|c s IH]; simpl; [reflexivity|].
  intros [Hc Hs]%andb_prop. now rewrite Hc, IH.
Qed.

Lemma take_id n : forall s, (String.length s <= n)%nat -> PyStr.take n s = s.
Proof.
  induction n as [|n IH]; intros [|c s]; simpl; try reflexivity; try lia.
  intros H. now rewrite IH by lia.
Qed.

(** X6: Sanitising is idempotent: a key or a value that has been cleaned is
    left as it is by a second cleaning. *)
Theorem sanitize_idempotent (k v : string) :
  clean_key (clean_key k) = clean_key k
  /\ clean_val (clean_val v) = clean_val v.
Proof.
  split.
  - unfold clean_key. apply filter_id, filter_forallb.
  - rewrite !clean_val_spec. unfold Spec.spec_val at 1.
    rewrite filter_id.
    + apply take_id, length_take.
    + unfold Spec.spec_val. apply forallb_take, filter_forallb.
Qed.

End EnvShape.

Section Watchdog.

Import JobRunner.

(** X7: As long as no answer asks for a kill the watchdog sends one sample
    for each iteration and nothing else; an answer that times out or fails
    counts as no kill. *)
Theorem watchdog_without_kill (m : JobManifest) (ticks : list WdTick) :
  forall c,
    Obs.never_kills ticks ->
    length (fst (_watchdog_loop m c ticks)) = length ticks
    /\ count_events is_telemetry (fst (_watchdog_loop m c ticks))
       = length ticks
    /\ count_events Obs.is_kill (fst (_watchdog_loop m c ticks)) = 0%nat.
Proof.
  induction ticks as [|t ticks IH]; intros c Hn; simpl.
  - repeat split.
  - inversion Hn as [|? ? Ht Hrest]; subst.
    destruct (Telemetry._build_payload c (wd_sample t)) as [payload c1].
    rewrite Ht. specialize (IH c1 Hrest).
    destruct (_watchdog_loop m c1 ticks) as [tr c2]. simpl in *.
    unfold count_events in *. simpl. lia.
Qed.

Lemma watchdog_without_kill_witness :
  let m := Inputs.short_manifest in
  let c := new_collector (Inputs.runner_of m) (S754_zero false) in
  let ticks := [Inputs2.tick_answered Telemetry.SendTimeout;
                Inputs2.tick_answered Telemetry.SendError;
                Inputs2.tick_answered (Telemetry.SendResponse false)] in
  count_events is_telemetry (fst (_watchdog_loop m c ticks)) = 3%nat.
Proof.
  intros m c ticks.
  assert (H : Obs.never_kills ticks) by (repeat constructor).
  exact (proj1 (proj2 (watchdog_without_kill m ticks c H))).
Defined.

(** X8: The first answer that asks for a kill ends the watchdog: it has sent
    one sample for that iteration and each one before, then issues one
    kill of the container of the job, by name, as its last act; the
    iterations after it never take place. *)
Theorem watchdog_stops_at_kill (m : JobManifest)
    (before after : list WdTick) (t : WdTick) :
  forall c,
    Obs.never_kills before ->
    Telemetry.kill_job_of (wd_send t) = true ->
    let tr := fst (_watchdog_loop m c (before ++ t :: after)) in
    count_events is_telemetry tr = S (length before)
    /\ count_events Obs.is_kill tr = 1%nat
    /\ List.last tr EvWatchdogStart = EvDockerKill (container_name m)
    /\ _watchdog_loop m c (before ++ t :: after)
       = _watchdog_loop m c (before ++ [t]).
Proof.
  induction before as [|b before IH]; intros c Hn Hk; simpl.
  - destruct (Telemetry._build_payload c (wd_sample t)) as [payload c1].
    rewrite Hk. repeat split.
  - inversion Hn as [|? ? Hb Hrest]; subst.
    destruct (Telemetry._build_payload c (wd_sample b)) as [payload c1].
    rewrite Hb. specialize (IH c1 Hrest Hk). simpl in IH.
    destruct IH as (H1 & H2 & H3 & H4). rewrite H4.
    destruct (_watchdog_loop m c1 (before ++ [t])) as [tr c2] eqn:E.
    rewrite H4 in H1, H2, H3. simpl in *.
    unfold count_events in *. simpl.
    repeat split; try lia.
    destruct tr as [|x tr]; [simpl in H1; lia|]. exact H3.
Qed.

Lemma watchdog_stops_at_kill_witness :
  let m := Inputs.short_manifest in
  let c := new_collector (Inputs.runner_of m) (S754_zero false) in
  let quiet := Inputs2.tick_answered Telemetry.SendTimeout in
  let kill := Inputs2.tick_answered (Telemetry.SendResponse true) in
  count_events Obs.is_kill
    (fst (_watchdog_loop m c ([quiet; quiet] ++ kill :: [quiet; kill])))
  = 1%nat.
Proof.
  intros m c quiet kill.
  assert (H : Obs.never_kills [quiet; quiet]) by (repeat constructor).
  exact (proj1 (proj2 (watchdog_stops_at_kill m [quiet; quiet] [quiet; kill]
                         kill c H eq_refl))).
Defined.

End Watchdog.

(** ** The signals of a sample *)

Section Signals.

Import Telemetry.

Lemma size_list_to_set_le (l : list string) :
  (size (list_to_set l : gset string) <= length l)%nat.
Proof.
  induction l as [|x l IH].
  - rewrite list_to_set_nil, size_empty. simpl. lia.
  - rewrite list_to_set_cons, size_union_alt, size_singleton.
    cbn [length].
    assert (Hs : (list_to_set l ∖ {[x]} : gset string) ⊆ list_to_set l)
      by apply subseteq_difference_l, reflexivity.
    apply subseteq_size in Hs. lia.
Qed.

Lemma length_omap_le {A B} (f : A -> option B) (l : list A) :
  (length (omap f l) <= length l)%nat.
Proof.
  induction l as [|x l IH]; csimpl; [lia|].
  destruct (f x); csimpl; lia.
Qed.

(** X9: The network signals are never negative, also when a counter of the
    host has gone backwards; there are no more destination addresses than
    established connections, and the DNS figure is six times a count. *)
Theorem network_signals_bounds (c : TelemetryCollector)
    (r : option NetReading) :
  let n := fst (_collect_network c r) in
  0 <= outbound_bytes_per_sec n
  /\ 0 <= inbound_bytes_per_sec n
  /\ 0 <= unique_dst_ips n <= active_connections n
  /\ 0 <= dns_queries_per_min n
  /\ dns_queries_per_min n mod 6 = 0.
Proof.
  destruct r as [n|]; simpl.
  - repeat split.
    + apply Z.div_pos; lia.
    + apply Z.div_pos; lia.
    + lia.
    + pose proof (size_list_to_set_le
                    (omap remote_ip (List.filter established (conns n)))).
      pose proof (length_omap_le remote_ip
                    (List.filter established (conns n))).
      lia.
    + lia.
    + apply Z.mod_mul. lia.
  - repeat split; lia.
Qed.

(** X10: The first sample of a collector has no earlier counters to compare
    with: it reports no traffic at all, whatever the counters of the host
    are, and keeps them for the next sample. *)
Theorem first_network_sample_zero (c : TelemetryCollector) (n : NetReading) :
  _prev_net c = None ->
  outbound_bytes_per_sec (fst (_collect_network c (Some n))) = 0
  /\ inbound_bytes_per_sec (fst (_collect_network c (Some n))) = 0
  /\ _prev_net (snd (_collect_network c (Some n))) = Some (counters n).
Proof.
  intros H. simpl. rewrite H, !Z.sub_diag. repeat split.
Qed.

Lemma first_network_sample_zero_witness :
  let c := JobRunner.new_collector (Inputs.runner_of Inputs.short_manifest)
             (S754_zero false) in
  let n := {| conns := [];
              counters := {| bytes_sent := 123456; bytes_recv := 654321 |} |} in
  outbound_bytes_per_sec (fst (_collect_network c (Some n))) = 0.
Proof.
  intros c n.
  exact (proj1 (first_network_sample_zero c n eq_refl)).
Defined.

(** From the second sample on the rates are the growth of the counters
    since the last sample that could be read, divided by ten and never
    below zero; a sample that fails in between reports zero and leaves
    the counters kept from before as they are. *)
Lemma network_rates_between_samples (c : TelemetryCollector)
    (n1 n2 : NetReading) :
  let c1 := snd (_collect_network c (Some n1)) in
  let failed := _collect_network c1 None in
  let rate now before := Z.max 0 (now - before) / 10 in
  outbound_bytes_per_sec (fst (_collect_network c1 (Some n2)))
  = rate (bytes_sent (counters n2)) (bytes_sent (counters n1))
  /\ inbound_bytes_per_sec (fst (_collect_network c1 (Some n2)))
     = rate (bytes_recv (counters n2)) (bytes_recv (counters n1))
  /\ outbound_bytes_per_sec (fst failed) = 0
  /\ inbound_bytes_per_sec (fst failed) = 0
  /\ _collect_network (snd failed) (Some n2) = _collect_network c1 (Some n2).
Proof. simpl. repeat split. Qed.

Lemma In_firstn {A} (x : A) (k : nat) : forall l,
  In x (firstn k l) -> In x l.
Proof.
  induction k as [|k IH]; intros [|y l]; simpl; try tauto.
  intros [H|H]; [now left|right; now apply IH].
Qed.

Lemma firstn_filter_Forall {A} (p : A -> bool) (k : nat) (l : list A) :
  Forall (fun x => In x l /\ p x = true) (firstn k (List.filter p l)).
Proof.
  apply List.Forall_forall. intros x Hx.
  apply In_firstn in Hx.
  apply List.filter_In in Hx. exact Hx.
Qed.

(** X11: What is reported as unexpected: at most twenty names, in the order of
    the process list, each the name of a process that is longer than two
    characters, does not begin with [python] and is not, in lower case,
    one of the fourteen allowed names; when there are no more than twenty
    such processes all of them are reported. *)
Theorem unexpected_processes_reported (procs : list string) :
  let p := _collect_processes (Some procs) in
  (length (unexpected_processes p) <= 20)%nat
  /\ Z.of_nat (length (unexpected_processes p)) <= process_count p
  /\ Forall (fun name =>
               In name procs
               /\ (2 < String.length name)%nat
               /\ PyStr.startswith "python" name = false
               /\ ~ In (PyStr.lower name) LEGIT)
       (unexpected_processes p)
  /\ (forall name, In name procs -> is_unexpected name = true ->
        (length (List.filter is_unexpected procs) <= 20)%nat ->
        In name (unexpected_processes p)).
Proof.
  simpl. split; [|split; [|split]].
  - apply firstn_le_length.
  - pose proof (filter_length_le is_unexpected procs).
    rewrite length_firstn. lia.
  - eapply List.Forall_impl; [|apply firstn_filter_Forall].
    intros name [Hin Hp]. split; [assumption|].
    unfold is_unexpected in Hp.
    apply andb_prop in Hp as [Hp Hlen]. apply andb_prop in Hp as [Hl Hpy].
    split; [now apply Nat.ltb_lt|].
    split; [now apply negb_true_iff|].
    apply negb_true_iff in Hl. intros Hmem.
    unfold mem_string in Hl.
    assert (E : existsb (String.eqb (PyStr.lower name)) LEGIT = true).
    { apply existsb_exists. exists (PyStr.lower name).
      split; [assumption|apply String.eqb_refl]. }
    congruence.
  - intros name Hin Hu Hlen.
    rewrite firstn_all2 by exact Hlen.
    apply List.filter_In. split; assumption.
Qed.

Lemma unexpected_processes_reported_witness :
  In "xmrig"%string
    (unexpected_processes
       (_collect_processes (Some ["python3"; "xmrig"; "sh"; "Bash"]%string))).
Proof.
  apply (proj2 (proj2 (proj2 (unexpected_processes_reported
                                ["python3"; "xmrig"; "sh"; "Bash"]%string)))).
  - simpl. tauto.
  - reflexivity.
  - vm_compute. lia.
Defined.




(** X13: Every payload has the same thirty-five keys, whichever sources of
    the sample could be read: a source that fails contributes the keys it
    has on success. *)
Theorem payload_keys_fixed (c c' : TelemetryCollector) (s s' : Sample) :
  dom (fst (_build_payload c s)) = dom (fst (_build_payload c' s'))
  /\ size (fst (_build_payload c s)) = 35%nat.
Proof.
  assert (H : forall c s,
    dom (fst (_build_payload c s))
    = dom (fst (_build_payload
                  (JobRunner.new_collector
                     (Inputs.runner_of Inputs.short_manifest) (S754_zero false))
                  Inputs2.blind_sample))).
  { clear. intros c s. unfold _build_payload.
    destruct (_collect_gpu c (s_gpu s)) as [g c1].
    destruct (_collect_network c1 (s_net s)) as [n c2].
    cbn [fst Inputs2.blind_sample s_gpu s_net s_procs _collect_gpu
         _collect_network].
    unfold proc_dict, net_dict, gpu_dict, head_dict.
    rewrite !dom_insert_L, !dom_union_L, !dom_insert_L, !dom_empty_L.
    reflexivity. }
  split.
  - now rewrite (H c s), (H c' s').
  - rewrite <- size_dom, (H c s). vm_compute. reflexivity.
Qed.

End Signals.

(** ** Admission of a poll response *)

Section Admissions.

Import Agent.

(** One entry of the loop over a response: it is passed over; it ends the
    loop with an exception, before or after its ACK; its ACK fails; or
    its thread is started. *)
Lemma accept_all_step (a : ProviderAgent) (ack : RawJob -> bool)
    (raw : RawJob) (rest : list RawJob) :
  accept_all a ack (raw :: rest) = accept_all a ack rest
  \/ accept_all a ack (raw :: rest) = ([], a)
  \/ (exists j, accept_all a ack (raw :: rest) = ([EvAck j], a))
  \/ (exists j, accept_all a ack (raw :: rest)
                = (EvAck j :: fst (accept_all a ack rest),
                   snd (accept_all a ack rest)))
  \/ (exists j, _active_jobs a !! j = None /\ ack raw = true
                /\ accept_all a ack (raw :: rest)
                   = (EvAck j :: EvSpawn j
                        :: fst (accept_all
                                  (with_active a
                                     (<[j := build_manifest j raw]>
                                        (_active_jobs a))) ack rest),
                      snd (accept_all
                             (with_active a
                                (<[j := build_manifest j raw]>
                                   (_active_jobs a))) ack rest))).
Proof.
  rewrite accept_all_cons. unfold _accept_job.
  destruct (accept_outcome_cases a raw (ack raw))
    as [(e & E & He)|[(j & e & E & _ & _)|(j & _ & _ & Hn & Hack & _ & E)]];
    rewrite E; cbn [fst snd].
  - destruct He as [-> | ->]; [left|right; left; reflexivity].
    now destruct (accept_all a ack rest).
  - destruct e; [right; right; left; eauto|].
    right. right. right. left. exists j.
    now destruct (accept_all a ack rest).
  - right. right. right. right. exists j.
    repeat split; [exact Hn|exact Hack|].
    now destruct (accept_all _ ack rest).
Qed.

Lemma is_active_insert a j m k :
  Obs.is_active (with_active a (<[j := m]> (_active_jobs a))) k
  = (String.eqb j k || Obs.is_active a k).
Proof.
  unfold Obs.is_active. simpl.
  destruct (String.eqb_spec j k) as [->|Hne].
  - rewrite lookup_insert_eq. rewrite bool_decide_eq_true_2 by eauto.
    reflexivity.
  - rewrite lookup_insert_ne by exact Hne. reflexivity.
Qed.

Lemma is_active_None a j :
  _active_jobs a !! j = None -> Obs.is_active a j = false.
Proof.
  intros H. unfold Obs.is_active. rewrite H.
  apply bool_decide_eq_false. intros [x Hx]. discriminate Hx.
Qed.

Lemma accept_all_grows (ack : RawJob -> bool) (jobs : list RawJob) :
  forall a : ProviderAgent,
    _active_jobs a ⊆ _active_jobs (snd (accept_all a ack jobs))
    /\ with_active (snd (accept_all a ack jobs)) (_active_jobs a) = a.
Proof.
  assert (Hsame : forall a : ProviderAgent,
            _active_jobs a ⊆ _active_jobs a
            /\ with_active a (_active_jobs a) = a)
    by (intros a; split; [reflexivity|now destruct a]).
  induction jobs as [|raw jobs IH]; intros a; [exact (Hsame a)|].
  destruct (accept_all_step a ack raw jobs)
    as [E|[E|[(j & E)|[(j & E)|(j & Hn & _ & E)]]]]; rewrite E; cbn [snd].
  - exact (IH a).
  - exact (Hsame a).
  - exact (Hsame a).
  - exact (IH a).
  - specialize (IH (with_active a (<[j := build_manifest j raw]>
                                     (_active_jobs a)))).
    destruct (accept_all _ ack jobs) as [t2 a2]. simpl in *.
    destruct IH as [IH1 IH2]. split.
    + etransitivity; [|exact IH1]. now apply insert_subseteq.
    + destruct a as [u t r p n act reg]. unfold with_active in *.
      simpl in *. inversion IH2; subst. reflexivity.
Qed.

(** X14: Admitting the jobs of a response only adds to the active map: every
    job that has a thread keeps it, with the manifest it was started
    with, and nothing else of the agent changes. *)
Theorem accept_all_extends (a : ProviderAgent) (ack : RawJob -> bool)
    (jobs : list RawJob) :
  (forall job_id m,
     _active_jobs a !! job_id = Some m ->
     _active_jobs (snd (accept_all a ack jobs)) !! job_id = Some m)
  /\ with_active (snd (accept_all a ack jobs)) (_active_jobs a) = a.
Proof.
  destruct (accept_all_grows ack jobs a) as [H1 H2]. split; [|exact H2].
  intros j m Hm. eapply lookup_weaken; eassumption.
Qed.

Lemma accept_all_extends_witness :
  let a := with_active (Inputs.agent_polling_every 15)
             {[ "j0"%string := Inputs.bad_manifest ]} in
  _active_jobs (snd (accept_all a (fun _ => true) [Inputs.raw_j1]))
    !! "j0"%string = Some Inputs.bad_manifest.
Proof.
  intros a.
  apply (proj1 (accept_all_extends a (fun _ => true) [Inputs.raw_j1])).
  apply lookup_singleton_eq.
Defined.

(** X15: One response starts at most one thread for an id, however often the
    id occurs in it: a thread is started exactly for the ids that are
    active afterwards and were not before. *)
Theorem spawned_once (ack : RawJob -> bool) (jobs : list RawJob)
    (job_id : string) :
  forall a : ProviderAgent,
    count_events (Obs.is_spawn_of job_id) (fst (accept_all a ack jobs))
    = (if Obs.is_active (snd (accept_all a ack jobs)) job_id
          && negb (Obs.is_active a job_id)
       then 1 else 0)%nat.
Proof.
  assert (Hmono : forall jobs a,
            Obs.is_active a job_id = true ->
            Obs.is_active (snd (accept_all a ack jobs)) job_id = true).
  { intros js a H. unfold Obs.is_active in *.
    apply bool_decide_eq_true in H as [m Hm].
    apply bool_decide_eq_true. exists m.
    eapply lookup_weaken; [exact Hm|]. apply accept_all_grows. }
  assert (Hnone : forall a : ProviderAgent,
            0%nat = (if Obs.is_active a job_id
                        && negb (Obs.is_active a job_id)
                     then 1 else 0)%nat)
    by (intros a; destruct (Obs.is_active a job_id); reflexivity).
  induction jobs as [|raw jobs IH]; intros a; [exact (Hnone a)|].
  destruct (accept_all_step a ack raw jobs)
    as [E|[E|[(j & E)|[(j & E)|(j & Hn & _ & E)]]]]; rewrite E; cbn [fst snd].
  - exact (IH a).
  - exact (Hnone a).
  - exact (Hnone a).
  - rewrite <- IH. unfold count_events. reflexivity.
  - set (a1 := with_active a (<[j := build_manifest j raw]>
                                (_active_jobs a))).
    specialize (IH a1). pose proof (Hmono jobs a1) as Hm.
    destruct (accept_all a1 ack jobs) as [t2 a2]. simpl in *.
    unfold a1 in IH, Hm. rewrite is_active_insert in IH, Hm.
    unfold count_events in *. simpl.
    destruct (String.eqb_spec j job_id) as [->|Hne]; simpl in *.
    + rewrite (is_active_None a job_id Hn). rewrite Hm in * by reflexivity.
      simpl in *. rewrite IH. reflexivity.
    + exact IH.
Qed.

(** X16: No thread is started without an acknowledgement: in the requests of
    one response the start of a thread comes directly after the ACK of
    the same job. *)
Theorem spawn_follows_ack (a : ProviderAgent) (ack : RawJob -> bool)
    (jobs : list RawJob) (n : nat) (job_id : string) :
  fst (accept_all a ack jobs) !! n = Some (EvSpawn job_id) ->
  exists k, n = S k
            /\ fst (accept_all a ack jobs) !! k = Some (EvAck job_id).
Proof.
  revert a n job_id.
  induction jobs as [|raw jobs IH]; intros a n job_id.
  - intros H. discriminate H.
  - destruct (accept_all_step a ack raw jobs)
      as [E|[E|[(j & E)|[(j & E)|(j & Hn & _ & E)]]]]; rewrite E; cbn [fst].
    + exact (IH a n job_id).
    + intros H. discriminate H.
    + destruct n as [|[|n]]; intros H; discriminate H.
    + specialize (IH a).
      destruct n as [|n]; [intros H; discriminate H|].
      intros H. destruct (IH n job_id H) as (k & -> & Hk).
      exists (S k). split; [reflexivity|exact Hk].
    + specialize (IH (with_active a (<[j := build_manifest j raw]>
                                       (_active_jobs a)))).
      destruct n as [|[|n]].
      * intros H. discriminate H.
      * intros [= ->]. exists 0%nat. split; reflexivity.
      * intros H. destruct (IH n job_id H) as (k & -> & Hk).
        exists (S (S k)). split; [reflexivity|exact Hk].
Qed.

Lemma spawn_follows_ack_witness :
  exists k,
    1%nat = S k
    /\ fst (accept_all (Inputs.agent_polling_every 15) (fun _ => true)
              [Inputs.raw_j1]) !! k = Some (EvAck "j1").
Proof.
  apply (spawn_follows_ack (Inputs.agent_polling_every 15) (fun _ => true)
           [Inputs.raw_j1] 1 "j1").
  reflexivity.
Defined.

(** X17: When no acknowledgement can be sent, nothing is started and nothing
    is recorded: every request of the response is an ACK that failed, at
    most one for each job, and the agent is as before, so that the same
    jobs are taken up again when they are delivered next. *)
Theorem failed_acks_start_nothing (a : ProviderAgent) (jobs : list RawJob) :
  snd (accept_all a (fun _ => false) jobs) = a
  /\ Forall (fun e => is_ack e = true) (fst (accept_all a (fun _ => false) jobs))
  /\ (length (fst (accept_all a (fun _ => false) jobs)) <= length jobs)%nat.
Proof.
  induction jobs as [|raw jobs (IH1 & IH2 & IH3)].
  - repeat split; [constructor|simpl; lia].
  - destruct (accept_all_step a (fun _ => false) raw jobs)
      as [E|[E|[(j & E)|[(j & E)|(j & Hn & Hack & E)]]]];
      [| | | |discriminate Hack]; rewrite E; cbn [fst snd length].
    + repeat split; [assumption|assumption|lia].
    + repeat split; [constructor|lia].
    + repeat split; [repeat constructor|lia].
    + repeat split; [assumption|constructor; [reflexivity|assumption]|lia].
Qed.



End Admissions.

(** ** Threads that end with an exception *)

Section Stuck.

Import JobRunner Agent.

Lemma reap_keeps (a : ProviderAgent) (ended : list string) (j : string) :
  ~ In j ended ->
  _active_jobs (reap a ended) !! j = _active_jobs a !! j.
Proof.
  unfold reap. cbn [_active_jobs with_active].
  induction ended as [|k ended IH]; intros Hn; [reflexivity|].
  cbn [fold_right]. rewrite lookup_delete_ne.
  - apply IH. intros H. apply Hn. now right.
  - intros ->. apply Hn. now left.
Qed.

(** What the admission of an entry sends while a job is active: no start
    of a thread for that job, and no ACK for it unless the id of the
    entry is not a text. *)
Lemma accept_outcome_stuck (a : ProviderAgent) (raw : RawJob) (ack : bool)
    (j : string) :
  is_Some (_active_jobs a !! j) ->
  count_events (Obs.is_spawn_of j) (fst (_accept_job a raw ack)) = 0%nat
  /\ (match id_of raw with Some (IdOther _ _ _) => false | _ => true end
      = true ->
      count_events (Obs.is_ack_of j) (fst (_accept_job a raw ack)) = 0%nat).
Proof.
  intros Hact. unfold _accept_job, _accept_job_outcome.
  destruct (id_of raw) as [id|]; [|split; reflexivity].
  destruct (negb (id_truthy (Some id))); [split; reflexivity|].
  destruct (negb (id_hashable id)); [split; reflexivity|].
  destruct (id_active a id) eqn:Ha; [split; reflexivity|].
  assert (Hne : forall s, id = IdStr s -> String.eqb s j = false).
  { intros s ->. cbn in Ha. apply bool_decide_eq_false in Ha.
    destruct (String.eqb_spec s j) as [->|]; [contradiction|reflexivity]. }
  destruct id as [s|t h x].
  - specialize (Hne s eq_refl).
    destruct (negb ack); [|destruct (negb (convertible raw))];
      cbn [fst count_events Obs.is_spawn_of Obs.is_ack_of List.filter
           id_text]; unfold count_events; cbn [List.filter Obs.is_spawn_of
           Obs.is_ack_of]; rewrite ?Hne; split; reflexivity.
  - destruct (negb ack); [|destruct (negb (convertible raw))];
      split; try reflexivity; intros H; discriminate H.
Qed.

Lemma accept_all_stuck (ack : RawJob -> bool) (jobs : list RawJob)
    (j : string) :
  forall a : ProviderAgent,
    is_Some (_active_jobs a !! j) ->
    count_events (Obs.is_spawn_of j) (fst (accept_all a ack jobs)) = 0%nat
    /\ (forallb (fun raw => match id_of raw with
                            | Some (IdOther _ _ _) => false
                            | _ => true
                            end) jobs = true ->
        count_events (Obs.is_ack_of j) (fst (accept_all a ack jobs))
        = 0%nat).
Proof.
  induction jobs as [|raw jobs IH]; intros a Hact; [split; reflexivity|].
  destruct (accept_outcome_stuck a raw (ack raw) j Hact) as [Hs Ha].
  rewrite accept_all_cons.
  destruct (snd (_accept_job_outcome a raw (ack raw))).
  - split; [exact Hs|]. cbn [forallb]. intros [H _]%andb_prop. now apply Ha.
  - pose proof (accept_all_grows ack [raw] a) as [Hsub _].
    rewrite accept_all_cons in Hsub.
    destruct (_accept_job a raw (ack raw)) as [t1 a1] eqn:E1.
    assert (Hact1 : is_Some (_active_jobs a1 !! j)).
    { destruct Hact as [m Hm]. exists m.
      destruct (snd (_accept_job_outcome a raw (ack raw)));
        cbn in Hsub; eapply lookup_weaken; eassumption. }
    destruct (IH a1 Hact1) as [IHs IHa].
    destruct (accept_all a1 ack jobs) as [t2 a2]. cbn [fst] in *.
    rewrite !count_events_app, Hs, IHs. split; [reflexivity|].
    cbn [forallb]. intros [H1 H2]%andb_prop.
    now rewrite (Ha H1), (IHa H2).
Qed.

Lemma lookup_size_pos (active : gmap string JobRunner.JobManifest)
    (j : string) (m : JobRunner.JobManifest) :
  active !! j = Some m -> (1 <= size active)%nat.
Proof.
  intros H. destruct (size active) eqn:Hsz; [|lia].
  apply map_size_empty_iff in Hsz. rewrite Hsz, lookup_empty in H.
  discriminate H.
Qed.

(** An iteration in its parts: the requests of the poll and of the
    admissions, then at most a heartbeat, which counts the jobs that are
    active after the admissions, and at most a sleep. *)
Lemma tick_shape (a : ProviderAgent) (c : Z) (i : TickInput) :
  exists th r,
    tick a c i
    = (fst (poll_jobs (reap a (t_ended i)) (t_poll i))
         ++ fst (accept_all (reap a (t_ended i)) (t_ack i)
                   (fst (snd (poll_jobs (reap a (t_ended i)) (t_poll i)))))
         ++ th,
       r)
    /\ (forall e, In e th ->
          e = EvHeartbeat
                (size (_active_jobs
                         (snd (accept_all (reap a (t_ended i)) (t_ack i)
                                 (fst (snd (poll_jobs (reap a (t_ended i))
                                              (t_poll i))))))))
          \/ e = EvSleep (poll_interval a))
    /\ (forall a' c',
          r = inr (a', c') ->
          a' = snd (accept_all (reap a (t_ended i)) (t_ack i)
                      (fst (snd (poll_jobs (reap a (t_ended i))
                                   (t_poll i)))))).
Proof.
  unfold tick.
  destruct (poll_jobs (reap a (t_ended i)) (t_poll i)) as [tp [jobs broken]].
  cbn [fst snd]. rewrite (accept_all_outcome_parts _ _ jobs).
  assert (Hnil : forall (r : LoopExn + ProviderAgent * Z) ta,
            r = inl ZeroDivisionError \/ (exists e, r = inl e) ->
            exists th r',
              (tp ++ ta, r) = (tp ++ ta ++ th, r')
              /\ (forall e, In e th ->
                    e = EvHeartbeat
                          (size (_active_jobs
                                   (snd (accept_all (reap a (t_ended i))
                                           (t_ack i) jobs))))
                    \/ e = EvSleep (poll_interval a))
              /\ (forall a' c',
                    r' = inr (a', c') ->
                    a' = snd (accept_all (reap a (t_ended i)) (t_ack i)
                                jobs))).
  { intros r ta Hr. exists [], r. rewrite app_nil_r.
    split; [reflexivity|]. split; [intros e []|].
    intros a' c' ->. destruct Hr as [Hr|[e Hr]]; discriminate Hr. }
  destruct (snd (accept_all_outcome (reap a (t_ended i)) (t_ack i) jobs));
    [apply Hnil; eauto|].
  destruct broken; [apply Hnil; eauto|].
  destruct (poll_interval a =? 0); [apply Hnil; eauto|].
  destruct (60 / poll_interval a <=? c + 1);
    destruct ((poll_interval a <? - sleep_limit)
              || (sleep_limit <? poll_interval a));
    try destruct (poll_interval a <? 0);
    eexists; eexists; (split; [reflexivity|]);
    (split; [intros e He; cbn in He; intuition auto
            |intros a' c' H; try discriminate H; now inversion H]).
Qed.

(** While the thread of a job has raised, an iteration of the loop with
    its threads neither starts nor, for ids that are texts, acknowledges
    the job, counts it in its heartbeat, and leaves it as it is. *)
Lemma stuck_tick (a : ProviderAgent) (c : Z) (envs : gmap string JobRunner.Env)
    (i : TickInput) (m : JobRunner.JobManifest) (w : JobRunner.Env)
    (e : JobRunner.Exn) :
  JobRunner.returned (JobRunner.run (runner_of a m) w) = inl e ->
  _active_jobs a !! JobRunner.job_id m = Some m ->
  envs !! JobRunner.job_id m = Some w ->
  let t := fst (tick a c (Threads.seen a envs i)) in
  count_events (Obs.is_spawn_of (JobRunner.job_id m)) t = 0%nat
  /\ (forall n, In (EvHeartbeat n) t -> (1 <= n)%nat)
  /\ (Obs.text_ids (t_poll i) = true ->
      count_events (Obs.is_ack_of (JobRunner.job_id m)) t = 0%nat)
  /\ (forall a' c' fresh,
        snd (tick a c (Threads.seen a envs i)) = inr (a', c') ->
        runner_of a' m = runner_of a m
        /\ _active_jobs a' !! JobRunner.job_id m = Some m
        /\ Threads.envs_after envs
             (reap a (t_ended (Threads.seen a envs i))) a' fresh
           !! JobRunner.job_id m = Some w).
Proof.
  intros He Hact Henv t. subst t.
  set (j := JobRunner.job_id m) in *.
  set (i' := Threads.seen a envs i).
  assert (Hnot : ~ In j (t_ended i')).
  { unfold i', Threads.seen. cbn [t_ended]. intros [_ Hp]%List.filter_In.
    unfold Threads.pops in Hp. rewrite Hact, Henv, He in Hp.
    discriminate Hp. }
  assert (Hact0 : _active_jobs (reap a (t_ended i')) !! j = Some m)
    by (rewrite (reap_keeps a _ j Hnot); exact Hact).
  set (a0 := reap a (t_ended i')) in *.
  set (jobs := fst (snd (poll_jobs a0 (t_poll i')))).
  destruct (tick_shape a c i') as (th & r & Ht & Hth & Hr).
  fold a0 in Ht, Hth, Hr. fold jobs in Ht, Hth, Hr.
  destruct (accept_all_stuck (t_ack i') jobs j a0 (ex_intro _ m Hact0))
    as [Hs Ha].
  destruct (accept_all_grows (t_ack i') jobs a0) as [Hsub Hsame].
  assert (Hact1 : _active_jobs (snd (accept_all a0 (t_ack i') jobs)) !! j
                  = Some m)
    by (eapply lookup_weaken; eassumption).
  assert (Hpoll : fst (poll_jobs a0 (t_poll i')) = []
                  \/ fst (poll_jobs a0 (t_poll i')) = [EvPoll]).
  { unfold poll_jobs. destruct (_registered_gpu_ids a0); auto. }
  assert (Hthc : forall p, (forall n, p (EvHeartbeat n) = false) ->
                 (forall n, p (EvSleep n) = false) ->
                 count_events p th = 0%nat).
  { intros p Hh Hsl.
    assert (Hall : List.Forall (fun x => p x = false) th).
    { apply List.Forall_forall. intros x Hx.
      destruct (Hth x Hx) as [-> | ->]; auto. }
    unfold count_events. clear -Hall.
    induction Hall as [|x l Hx _ IHl]; cbn [List.filter]; [reflexivity|].
    now rewrite Hx. }
  rewrite Ht. cbn [fst snd].
  split; [|split; [|split]].
  - rewrite !count_events_app, Hs, (Hthc _ (fun _ => eq_refl) (fun _ => eq_refl)).
    destruct Hpoll as [-> | ->]; reflexivity.
  - intros n Hn. apply in_app_or in Hn as [Hn|Hn].
    { destruct Hpoll as [Hp|Hp]; rewrite Hp in Hn;
        [destruct Hn|destruct Hn as [Hn|[]]; discriminate Hn]. }
    apply in_app_or in Hn as [Hn|Hn].
    { pose proof (accept_all_no_heartbeat (t_ack i') jobs a0) as Hnh.
      unfold sends_heartbeat in Hnh.
      assert (Hx : existsb is_heartbeat
                     (fst (accept_all a0 (t_ack i') jobs)) = true)
        by (apply existsb_exists; exists (EvHeartbeat n); split;
            [exact Hn|reflexivity]).
      rewrite Hnh in Hx. discriminate Hx. }
    destruct (Hth _ Hn) as [Hh|Hh]; [|discriminate Hh].
    injection Hh as ->.
    exact (lookup_size_pos _ j m Hact1).
  - intros Hty.
    rewrite !count_events_app, (Hthc _ (fun _ => eq_refl) (fun _ => eq_refl)).
    rewrite Ha.
    + destruct Hpoll as [-> | ->]; reflexivity.
    + unfold jobs, poll_jobs. destruct (_registered_gpu_ids a0);
        [reflexivity|]. cbn [snd fst].
      unfold i', Threads.seen. cbn [t_poll]. unfold Obs.text_ids in Hty.
      destruct (t_poll i); try reflexivity; exact Hty.
  - intros a' c' fresh Hres. rewrite (Hr a' c' Hres).
    split; [|split].
    + assert (E1 : api_url (snd (accept_all a0 (t_ack i') jobs)) = api_url a)
        by exact (f_equal api_url Hsame).
      assert (E2 : token (snd (accept_all a0 (t_ack i') jobs)) = token a)
        by exact (f_equal token Hsame).
      assert (E3 : node_id (snd (accept_all a0 (t_ack i') jobs)) = node_id a)
        by exact (f_equal node_id Hsame).
      unfold runner_of. now rewrite E1, E2, E3.
    + exact Hact1.
    + unfold Threads.envs_after. rewrite map_lookup_imap, Hact1.
      cbn [mbind option_bind]. now rewrite Hact0, Henv.
Qed.

Lemma stuck_loop (m : JobRunner.JobManifest) (w : JobRunner.Env)
    (e : JobRunner.Exn)
    (inputs : list (TickInput * (string -> JobRunner.Env))) :
  forall (a : ProviderAgent) (c : Z) (envs : gmap string JobRunner.Env) (k : nat)
         (t : trace),
    JobRunner.returned (JobRunner.run (runner_of a m) w) = inl e ->
    _active_jobs a !! JobRunner.job_id m = Some m ->
    envs !! JobRunner.job_id m = Some w ->
    Threads.main_loop a c envs inputs !! k = Some t ->
    count_events (Obs.is_spawn_of (JobRunner.job_id m)) t = 0%nat
    /\ (forall n, In (EvHeartbeat n) t -> (1 <= n)%nat)
    /\ (forall i fresh,
          inputs !! k = Some (i, fresh) ->
          Obs.text_ids (t_poll i) = true ->
          count_events (Obs.is_ack_of (JobRunner.job_id m)) t = 0%nat).
Proof.
  induction inputs as [|[i fresh] inputs IH]; intros a c envs k t He Hact Henv;
    [intros H; discriminate H|].
  cbn [Threads.main_loop].
  destruct (stuck_tick a c envs i m w e He Hact Henv)
    as (H1 & H2 & H3 & H4).
  destruct (tick a c (Threads.seen a envs i)) as [t0 [x|[a' c']]];
    cbn [fst snd] in *.
  - destruct k as [|k]; [|intros H; discriminate H].
    intros [= <-]. split; [exact H1|]. split; [exact H2|].
    intros i0 f0 [= <- <-]. exact H3.
  - destruct (H4 a' c' fresh eq_refl) as (Hr & Ha' & He').
    destruct k as [|k].
    + intros [= <-]. split; [exact H1|]. split; [exact H2|].
      intros i0 f0 [= <- <-]. exact H3.
    + intros Hk. cbn [lookup list_lookup] in Hk |- *.
      refine (IH a' c' _ k t _ Ha' He' Hk). now rewrite Hr.
Qed.

(** X19: A job whose run raises is never reported and never leaves the active
    map, and every delivery of its id is dropped without an ACK.  This
    stays so for as long as the agent runs: in no iteration of the loop,
    whatever is polled and whichever threads end, is a thread started
    for the job again or, the ids delivered being texts, its ACK sent,
    and every heartbeat counts it among the active jobs. *)
Theorem raised_job_blocks_redelivery (a : ProviderAgent) (m : JobManifest)
    (w : Env) (e : Exn) :
  returned (run (Agent.runner_of a m) w) = inl e ->
  _active_jobs a !! job_id m = Some m ->
  let a' := snd (run_and_report a m w) in
  count_events is_patch (fst (fst (run_and_report a m w))) = 0%nat
  /\ a' = a
  /\ (forall raw ack_sent,
        job_id_of raw = Some (job_id m) ->
        _accept_job a' raw ack_sent = ([], a'))
  /\ (forall envs c inputs k t,
        envs !! job_id m = Some w ->
        Threads.main_loop a' c envs inputs !! k = Some t ->
        count_events (Obs.is_spawn_of (job_id m)) t = 0%nat
        /\ (forall n, In (EvHeartbeat n) t -> (1 <= n)%nat)
        /\ (forall i fresh,
              inputs !! k = Some (i, fresh) ->
              Obs.text_ids (t_poll i) = true ->
              count_events (Obs.is_ack_of (job_id m)) t = 0%nat)).
Proof.
  intros He Hact a'.
  destruct (raised_job_unreported a m w e He) as [H1 H2].
  subst a'. rewrite H2. split; [exact H1|]. split; [reflexivity|]. split.
  - intros raw ack_sent Hid.
    apply (accept_job_active a raw ack_sent (job_id m) Hid). eauto.
  - intros envs c inputs k t Henv Hk.
    exact (stuck_loop m w e inputs a c envs k t He Hact Henv Hk).
Qed.

(** X20: A job delivered without a digest, or with an empty one, gets the
    empty digest as its default: its run raises at the check of the
    prefix, before any command is issued and before the watchdog
    exists. *)
Theorem job_without_digest_fails_unpulled (a : ProviderAgent)
    (raw : RawJob) (job_id : string) (w : Env) :
  raw_docker_image_sha256 raw = None
  \/ raw_docker_image_sha256 raw = Some ""%string ->
  run (Agent.runner_of a (build_manifest job_id raw)) w
  = {| main_trace := []; watchdog_trace := [];
       returned := inl (RuntimeError_bad_prefix "") |}.
Proof.
  intros H. unfold run, _pull_and_verify_image, expected_sha.
  cbn [manifest Agent.runner_of docker_image_sha256 build_manifest].
  destruct H as [-> | ->]; reflexivity.
Qed.

Lemma job_without_digest_fails_unpulled_witness :
  returned (run (Agent.runner_of (Inputs.agent_polling_every 15)
                   (build_manifest "j1" Inputs.raw_j1))
              (Inputs.env_with (Exited 0 "" "")))
  = inl (RuntimeError_bad_prefix "").
Proof.
  rewrite (job_without_digest_fails_unpulled (Inputs.agent_polling_every 15)
             Inputs.raw_j1 "j1" (Inputs.env_with (Exited 0 "" ""))
             (or_introl eq_refl)).
  reflexivity.
Defined.

Lemma raised_job_blocks_redelivery_witness :
  let m := build_manifest "j1" Inputs.raw_j1 in
  let w := Inputs.env_with (Exited 0 "" "") in
  _accept_job (snd (run_and_report Inputs3.stuck_agent m w)) Inputs.raw_j1 true
  = ([], snd (run_and_report Inputs3.stuck_agent m w))
  /\ (count_events (Obs.is_spawn_of "j1") [EvPoll; EvHeartbeat 1; EvSleep 15] = 0%nat
      /\ (forall n, In (EvHeartbeat n) [EvPoll; EvHeartbeat 1; EvSleep 15] -> (1 <= n)%nat)
      /\ (forall i fresh,
            Inputs3.busy_threads !! 7%nat = Some (i, fresh) ->
            Obs.text_ids (t_poll i) = true ->
            count_events (Obs.is_ack_of "j1") [EvPoll; EvHeartbeat 1; EvSleep 15] = 0%nat)).
Proof.
  intros m w.
  pose proof (raised_job_blocks_redelivery Inputs3.stuck_agent m w
                (RuntimeError_bad_prefix "") eq_refl
                ltac:(apply lookup_singleton_eq)) as (_ & _ & H3 & H4).
  split.
  - apply H3. reflexivity.
  - apply (H4 Inputs3.stuck_envs 0 Inputs3.busy_threads 7%nat).
    + apply lookup_singleton_eq.
    + vm_compute. reflexivity.
Defined.

(** Eight iterations with a stuck job: it is delivered four times and its
    thread is listed as ended once, and every iteration is a poll, a
    heartbeat in the fourth and the eighth, and a sleep. *)
Example stuck_job_loop :
  Threads.main_loop Inputs3.stuck_agent 0 Inputs3.stuck_envs
    Inputs3.busy_threads
  = [[EvPoll; EvSleep 15]; [EvPoll; EvSleep 15]; [EvPoll; EvSleep 15];
     [EvPoll; EvHeartbeat 1; EvSleep 15];
     [EvPoll; EvSleep 15]; [EvPoll; EvSleep 15]; [EvPoll; EvSleep 15];
     [EvPoll; EvHeartbeat 1; EvSleep 15]].
Proof. vm_compute. reflexivity. Qed.

End Stuck.

(** ** The main loop and the report of a thread *)

Section Loop.

Import JobRunner Agent.

Lemma accept_all_no_sleep (ack : RawJob -> bool) (jobs : list RawJob) :
  forall a : ProviderAgent,
    existsb Obs.is_sleep (fst (accept_all a ack jobs)) = false
    /\ count_events Obs.is_poll (fst (accept_all a ack jobs)) = 0%nat.
Proof.
  induction jobs as [|raw jobs IH]; intros a; [split; reflexivity|].
  destruct (accept_all_step a ack raw jobs)
    as [E|[E|[(j & E)|[(j & E)|(j & _ & _ & E)]]]]; rewrite E; cbn [fst].
  - exact (IH a).
  - split; reflexivity.
  - split; reflexivity.
  - exact (IH a).
  - exact (IH _).
Qed.

(** An iteration with an interval that is not positive: the requests of
    its poll and of its admissions, then at most a heartbeat, and an
    exception. *)
Lemma tick_nonpositive (a : ProviderAgent) (c : Z) (i : TickInput) :
  poll_interval a <= 0 ->
  exists th e,
    tick a c i
    = (fst (poll_jobs (reap a (t_ended i)) (t_poll i))
         ++ fst (accept_all (reap a (t_ended i)) (t_ack i)
                   (fst (snd (poll_jobs (reap a (t_ended i)) (t_poll i)))))
         ++ th,
       inl e)
    /\ existsb Obs.is_sleep th = false
    /\ count_events Obs.is_poll th = 0%nat.
Proof.
  intros Hp. unfold tick.
  destruct (poll_jobs (reap a (t_ended i)) (t_poll i)) as [tp [jobs broken]].
  cbn [fst snd]. rewrite (accept_all_outcome_parts _ _ jobs).
  destruct (snd (accept_all_outcome (reap a (t_ended i)) (t_ack i) jobs)).
  { exists [], (AcceptRaised a0). rewrite app_nil_r. repeat split. }
  destruct broken.
  { exists [], EntryRaised. rewrite app_nil_r. repeat split. }
  destruct (poll_interval a =? 0) eqn:Ez.
  { exists [], ZeroDivisionError. rewrite app_nil_r. repeat split. }
  apply Z.eqb_neq in Ez.
  replace (poll_interval a <? 0) with true
    by (symmetry; apply Z.ltb_lt; lia).
  destruct (60 / poll_interval a <=? c + 1);
    destruct ((poll_interval a <? - sleep_limit)
              || (sleep_limit <? poll_interval a));
    eexists; eexists; repeat split.
Qed.

(** X21: A poll interval that is not positive ends the main loop in its first
    iteration with an exception, before the agent ever sleeps.  When an
    id is registered the poll of that iteration is still made, as its
    first request, and when none is registered no poll is made.  When
    the answer to the poll is typed, so that the admission raises
    nothing, the exception is the [ZeroDivisionError] of the division
    that compares the heartbeat counter, before any heartbeat, for an
    interval of zero, and after a heartbeat the [ValueError] of the
    sleep for a negative interval, or its [OverflowError] for one below
    the range of the sleep. *)
Theorem nonpositive_interval_ends_loop (a : ProviderAgent) (i : TickInput)
    (rest : list TickInput) :
  poll_interval a <= 0 ->
  main_loop a 0 (i :: rest) = [fst (tick a 0 i)]
  /\ (exists e, snd (tick a 0 i) = inl e)
  /\ existsb Obs.is_sleep (fst (tick a 0 i)) = false
  /\ (_registered_gpu_ids a <> [] ->
      exists t, fst (tick a 0 i) = EvPoll :: t
                /\ count_events Obs.is_poll t = 0%nat)
  /\ (_registered_gpu_ids a = [] ->
      count_events Obs.is_poll (fst (tick a 0 i)) = 0%nat)
  /\ (typed_poll (t_poll i) = true ->
      snd (tick a 0 i)
      = inl (if poll_interval a =? 0 then ZeroDivisionError
             else if poll_interval a <? - sleep_limit then SleepOverflowError
             else SleepValueError)
      /\ sends_heartbeat (fst (tick a 0 i)) = (poll_interval a <? 0)).
Proof.
  intros Hp. cbn [main_loop].
  destruct (tick_nonpositive a 0 i Hp) as (th & e & Ht & Hs & Hq).
  destruct (accept_all_no_sleep (t_ack i)
              (fst (snd (poll_jobs (reap a (t_ended i)) (t_poll i))))
              (reap a (t_ended i))) as [Has Haq].
  split; [now rewrite Ht|].
  split; [rewrite Ht; eauto|].
  split.
  { rewrite Ht. cbn [fst]. rewrite !existsb_app, Has, Hs.
    unfold poll_jobs. destruct (_registered_gpu_ids _); reflexivity. }
  split.
  { intros Hreg. rewrite Ht. cbn [fst]. unfold poll_jobs at 1.
    change (_registered_gpu_ids (reap a (t_ended i)))
      with (_registered_gpu_ids a).
    destruct (_registered_gpu_ids a) as [|g gs] eqn:Eg; [contradiction|].
    cbn [fst app]. eexists. split; [reflexivity|].
    unfold count_events in *. rewrite List.filter_app, length_app.
    rewrite Haq, Hq. reflexivity. }
  split.
  { intros Hreg. rewrite Ht. cbn [fst]. unfold poll_jobs at 1.
    change (_registered_gpu_ids (reap a (t_ended i)))
      with (_registered_gpu_ids a).
    rewrite Hreg. cbn [fst app].
    unfold count_events in *. rewrite List.filter_app, length_app.
    rewrite Haq, Hq. reflexivity. }
  intros Hty. rewrite (tick_typed a 0 i Hty).
  pose proof (accept_all_no_heartbeat (t_ack i)
                (fst (snd (poll_jobs (reap a (t_ended i)) (t_poll i))))
                (reap a (t_ended i))) as Hah.
  pose proof (poll_jobs_no_heartbeat (reap a (t_ended i)) (t_poll i)) as Hph.
  destruct (Z.eqb_spec (poll_interval a) 0) as [Hz|Hnz].
  - cbn [fst snd]. split; [reflexivity|].
    unfold sends_heartbeat in *. rewrite existsb_app, Hph, Hah.
    symmetry. apply Z.ltb_ge. lia.
  - replace (poll_interval a <? 0) with true
      by (symmetry; apply Z.ltb_lt; lia).
    assert (Hq1 : 60 / poll_interval a <= 0 + 1).
    { pose proof (Z.div_mod 60 (poll_interval a) ltac:(lia)) as Hdm.
      pose proof (Z.mod_neg_bound 60 (poll_interval a) ltac:(lia)) as Hm. nia. }
    apply Z.leb_le in Hq1. rewrite Hq1.
    replace (sleep_limit <? poll_interval a) with false
      by (symmetry; apply Z.ltb_ge; unfold sleep_limit; lia).
    rewrite orb_false_r.
    destruct (poll_interval a <? - sleep_limit); cbn [fst snd];
      (split; [reflexivity|]);
      unfold sends_heartbeat in *; rewrite !existsb_app, Hph, Hah;
      reflexivity.
Qed.

Lemma nonpositive_interval_ends_loop_witness :
  (snd (tick (Inputs.agent_polling_every 0) 0 (List.hd Inputs.idle_tick Inputs.busy_ticks))
   = inl ZeroDivisionError
   /\ sends_heartbeat
        (fst (tick (Inputs.agent_polling_every 0) 0
                (List.hd Inputs.idle_tick Inputs.busy_ticks))) = false)
  /\ (snd (tick (Inputs.agent_polling_every (-5)) 0
             (List.hd Inputs.idle_tick Inputs.busy_ticks))
      = inl SleepValueError
      /\ sends_heartbeat
           (fst (tick (Inputs.agent_polling_every (-5)) 0
                   (List.hd Inputs.idle_tick Inputs.busy_ticks))) = true)
  /\ (snd (tick (Inputs.agent_polling_every (-9223372037)) 0
             (List.hd Inputs.idle_tick Inputs.busy_ticks))
      = inl SleepOverflowError
      /\ sends_heartbeat
           (fst (tick (Inputs.agent_polling_every (-9223372037)) 0
                   (List.hd Inputs.idle_tick Inputs.busy_ticks))) = true).
Proof.
  split; [|split].
  - apply (nonpositive_interval_ends_loop (Inputs.agent_polling_every 0)
             (List.hd Inputs.idle_tick Inputs.busy_ticks) [Inputs.idle_tick]);
      [simpl; lia|reflexivity].
  - apply (nonpositive_interval_ends_loop (Inputs.agent_polling_every (-5))
             (List.hd Inputs.idle_tick Inputs.busy_ticks) [Inputs.idle_tick]);
      [simpl; lia|reflexivity].
  - apply (nonpositive_interval_ends_loop
             (Inputs.agent_polling_every (-9223372037))
             (List.hd Inputs.idle_tick Inputs.busy_ticks) [Inputs.idle_tick]);
      [simpl; lia|reflexivity].
Defined.

(** X22: The energy a run reports is the total the watchdog has accumulated,
    in kilowatt hours rounded to six places; with readings of power that
    are not negative it is not negative, and without a sample it is
    zero. *)
Theorem reported_energy_is_watchdog_total (r : JobRunner) (w : Env)
    (res : Result) :
  powers_nonneg (env_ticks w) ->
  returned (run r w) = inr res ->
  r_energy_kwh res
  = energy_kwh_of
      (Telemetry._energy_joules
         (snd (_watchdog_loop (manifest r)
                 (new_collector r (env_start_time w)) (env_ticks w))))
  /\ PyFloat.leb (S754_zero false) (r_energy_kwh res) = true
  /\ (env_ticks w = [] -> r_energy_kwh res = S754_zero false).
Proof.
  intros Hp. unfold run.
  destruct (_pull_and_verify_image (manifest r) w) as [t0 [e|ref]];
    [discriminate|].
  destruct (watchdog_energy (manifest r) (env_ticks w)
              (new_collector r (env_start_time w))
              (new_collector_energy_ok r _) Hp) as [Hok _].
  assert (Hnil : env_ticks w = [] ->
                 Telemetry._energy_joules
                   (snd (_watchdog_loop (manifest r)
                           (new_collector r (env_start_time w)) (env_ticks w)))
                 = S754_zero false)
    by (intros ->; reflexivity).
  destruct (_watchdog_loop _ _ _) as [wd c]. cbn [snd] in *.
  unfold run_in_workdir.
  destruct (_run_container _ _ _ _ _) as [tc [ex|[code logs]]].
  - destruct (input_data_url (manifest r)) as [[|ch u]|]; simpl; discriminate.
  - intros H.
    assert (E : r_energy_kwh res = energy_kwh_of (Telemetry._energy_joules c)).
    { destruct (input_data_url (manifest r)) as [[|ch u]|];
        destruct (code =? 0) eqn:Hc; simpl in H; rewrite ?Hc in H; simpl in H;
        injection H as <-; reflexivity. }
    rewrite E. split; [reflexivity|].
    split; [now apply energy_kwh_nonneg|].
    intros Hn. rewrite (Hnil Hn). vm_compute. reflexivity.
Qed.

Lemma reported_energy_is_watchdog_total_witness :
  (r_energy_kwh Inputs2.sampled_result
   = energy_kwh_of
       (Telemetry._energy_joules
          (snd (_watchdog_loop
                  (manifest (Inputs.runner_of Inputs.short_manifest))
                  (new_collector (Inputs.runner_of Inputs.short_manifest)
                     (env_start_time Inputs2.env_sampled))
                  (env_ticks Inputs2.env_sampled))))
   /\ PyFloat.leb (S754_zero false) (r_energy_kwh Inputs2.sampled_result)
      = true
   /\ (env_ticks Inputs2.env_sampled = [] ->
       r_energy_kwh Inputs2.sampled_result = S754_zero false))
  /\ r_energy_kwh Inputs2.failed_result = S754_zero false.
Proof.
  split.
  - refine (reported_energy_is_watchdog_total
              (Inputs.runner_of Inputs.short_manifest)
              Inputs2.env_sampled Inputs2.sampled_result _ _).
    + repeat constructor; intros g [= <-]; vm_compute; reflexivity.
    + vm_compute. reflexivity.
  - refine (proj2 (proj2 (reported_energy_is_watchdog_total
              (Inputs.runner_of Inputs.short_manifest)
              (Inputs.env_with (Exited 2 "out" "err"))
              Inputs2.failed_result _ _)) eq_refl).
    + constructor.
    + vm_compute. reflexivity.
Defined.

End Loop.

(** ** Discovery and registration of the devices *)

Section Discovery.

Import GpuDiscovery.

Lemma collect_inl {A B} (f : A -> Exn + option B) (l : list A) (x : A)
    (e : Exn) :
  In x l -> f x = inl e -> exists e', collect f l = inl e'.
Proof.
  induction l as [|y l IH]; simpl; [tauto|].
  intros [->|Hin] Hx.
  - rewrite Hx. eauto.
  - destruct (f y) as [e0|o]; [eauto|].
    destruct (IH Hin Hx) as [e' ->]. eauto.
Qed.





(** X24: One line is enough to lose every device: when pynvml has failed and
    a line of four fields has a memory field that does not read as an
    integer, the devices of the other lines are dropped with it and the
    mock device is what the discovery finds. *)
Theorem unparsable_memory_gives_mock (nvml : option (list NvmlDevice))
    (stdout stderr line : string) (u n m d : string) (more : list string) :
  (exists e, _discover_via_pynvml nvml = inl e) ->
  In line (PyText.splitlines (PyStr.strip stdout)) ->
  List.map PyStr.strip (PyText.split "," line) = u :: n :: m :: d :: more ->
  PyText.int m = None ->
  discover_gpus nvml (SmiExit 0 stdout stderr) = _mock_gpus.
Proof.
  intros [e He] Hin Hparts Hint. unfold discover_gpus. rewrite He. simpl.
  assert (Hl : parse_line line = inl ValueError).
  { unfold parse_line. rewrite Hparts. unfold smi_gpu. now rewrite Hint. }
  destruct (collect_inl parse_line _ line ValueError Hin Hl) as [e' ->].
  reflexivity.
Qed.

Lemma unparsable_memory_gives_mock_witness :
  discover_gpus None (SmiExit 0 Inputs3.output_without_memory "")
  = _mock_gpus.
Proof.
  apply (unparsable_memory_gives_mock None Inputs3.output_without_memory ""
           "GPU-77b0d9aa, NVIDIA A100-SXM4-80GB, [N/A], 545.23.08"
           "GPU-77b0d9aa" "NVIDIA A100-SXM4-80GB" "[N/A]" "545.23.08" []).
  - exists NvmlRaised. reflexivity.
  - vm_compute. right. left. reflexivity.
  - vm_compute. reflexivity.
  - vm_compute. reflexivity.
Defined.

End Discovery.


Section Registration.

Import Agent GpuDiscovery Startup.

Lemma dict_set_values {V} (k : string) (x v : V) (d : list (string * V)) :
  In v (List.map snd (dict_set k x d)) -> v = x \/ In v (List.map snd d).
Proof.
  induction d as [|[k' v'] d IH]; simpl.
  - intros [<-|[]]. now left.
  - destruct (String.eqb k k'); simpl.
    + intros [<-|H]; [now left|right; now right].
    + intros [<-|H]; [right; now left|].
      destruct (IH H) as [->|H']; [now left|right; now right].
Qed.

Lemma register_from_spec (a : ProviderAgent) (answers : nat -> RegAnswer)
    (gpus : list GpuInfo) :
  forall (i : nat) (reg : list (string * option string)),
    let r := register_from a answers i gpus reg in
    requests r
    = List.map (fun g => to_register_payload g (token a) (region a)) gpus
    /\ length (platform_ids r)
       = length (List.filter (fun k => is_ok (answers k))
                   (seq i (length gpus)))
    /\ (forall v, In v (List.map snd (registered r)) ->
          In v (List.map snd reg) \/ In v (platform_ids r)).
Proof.
  induction gpus as [|g gpus IH]; intros i reg; simpl.
  - repeat split. intros v H. now left.
  - destruct (answers i) as [id gpu_id| |] eqn:Ea; simpl; rewrite ?Ea; simpl.
    + destruct (IH (S i) (dict_set (uuid g) (gid_of id gpu_id) reg))
        as (H1 & H2 & H3).
      split; [now rewrite H1|]. split; [now f_equal|].
      intros v Hv. destruct (H3 v Hv) as [H|H]; [|now right; right].
      apply dict_set_values in H as [->|H]; [right; now left|now left].
    + destruct (IH (S i) reg) as (H1 & H2 & H3).
      split; [now rewrite H1|]. split; assumption.
    + destruct (IH (S i) reg) as (H1 & H2 & H3).
      split; [now rewrite H1|]. split; assumption.
Qed.

Lemma filter_nil_iff {A} (p : A -> bool) (l : list A) :
  List.filter p l = [] <-> forall x, In x l -> p x = false.
Proof.
  induction l as [|y l IH]; simpl.
  - split; [intros _ x []|reflexivity].
  - destruct (p y) eqn:E; split.
    + discriminate.
    + intros H. specialize (H y (or_introl eq_refl)). congruence.
    + intros H x [<-|Hx]; [exact E|]. now apply IH.
    + intros H. apply IH. intros x Hx. apply H. now right.
Qed.

Lemma platform_ids_nil_iff (a : ProviderAgent) (answers : nat -> RegAnswer)
    (gpus : list GpuInfo) (reg : list (string * option string)) :
  platform_ids (register_from a answers 0 gpus reg) = []
  <-> forall k, (k < length gpus)%nat -> is_ok (answers k) = false.
Proof.
  destruct (register_from_spec a answers gpus 0 reg) as (_ & H & _).
  rewrite <- length_zero_iff_nil, H, length_zero_iff_nil, filter_nil_iff.
  split; intros Hk k Hlt; apply Hk.
  - apply in_seq. lia.
  - apply in_seq in Hlt. lia.
Qed.

(** X25: Every device that was discovered gets one registration request, with
    the token and the region of the agent, whether the requests before it
    succeeded or not; the ids returned are as many as the answers that
    were a success, and there is none exactly when no answer was. *)
Theorem register_gpus_requests (a : ProviderAgent)
    (nvml : option (list NvmlDevice)) (smi : SmiOutcome)
    (answers : nat -> RegAnswer) :
  let gpus := discover_gpus nvml smi in
  let r := register_gpus a nvml smi answers in
  requests r
  = List.map (fun g => to_register_payload g (token a) (region a)) gpus
  /\ length (platform_ids r)
     = length (List.filter (fun k => is_ok (answers k))
                 (seq 0 (length gpus)))
  /\ (platform_ids r = []
      <-> forall k, (k < length gpus)%nat -> is_ok (answers k) = false).
Proof.
  intros gpus r. unfold r, register_gpus. fold gpus.
  destruct (register_from_spec a answers gpus 0 []) as (H1 & H2 & _).
  split; [exact H1|]. split; [exact H2|]. apply platform_ids_nil_iff.
Qed.

(** X26: When no registration succeeds the agent exits with status 1 after
    its requests, one for each device, and never enters its loop; without
    a device it exits without a request. *)
Theorem startup_without_registration_exits (a : ProviderAgent)
    (nvml : option (list NvmlDevice)) (smi : SmiOutcome)
    (answers : nat -> RegAnswer) (inputs : list TickInput) :
  (forall k, (k < length (discover_gpus nvml smi))%nat ->
             is_ok (answers k) = false) ->
  Startup.run a nvml smi answers inputs
  = (List.map (fun g => to_register_payload g (token a) (region a))
       (discover_gpus nvml smi),
     SysExit 1).
Proof.
  intros H. unfold Startup.run, register_gpus.
  apply (platform_ids_nil_iff a answers _ []) in H. rewrite H.
  destruct (register_from_spec a answers (discover_gpus nvml smi) 0 [])
    as (H1 & _ & _).
  now rewrite H1.
Qed.

Lemma startup_without_registration_exits_witness :
  snd (Startup.run (Inputs.agent_polling_every 15) None SmiRaised
         Inputs3.answers_refused [Inputs.idle_tick])
  = SysExit 1.
Proof.
  rewrite (startup_without_registration_exits (Inputs.agent_polling_every 15)
             None SmiRaised Inputs3.answers_refused [Inputs.idle_tick]).
  - reflexivity.
  - intros k _. reflexivity.
Defined.








End Registration.

(** ** Reading the output of [nvidia-smi] *)

Section SmiOutput.

Import GpuDiscovery.

Lemma list_of_app (a b : string) :
  list_ascii_of_string (a ++ b)
  = (list_ascii_of_string a ++ list_ascii_of_string b)%list.
Proof.
  induction a as [|c a IH]; [reflexivity|].
  change (String c a ++ b)%string with (String c (a ++ b)%string).
  simpl. now rewrite IH.
Qed.

Lemma string_of_list_app (l1 l2 : list ascii) :
  string_of_list_ascii (l1 ++ l2)
  = (string_of_list_ascii l1 ++ string_of_list_ascii l2)%string.
Proof.
  induction l1 as [|c l1 IH]; [reflexivity|].
  simpl. rewrite IH. reflexivity.
Qed.

Lemma rev_app (a b : string) :
  PyStr.rev (a ++ b) = (PyStr.rev b ++ PyStr.rev a)%string.
Proof.
  unfold PyStr.rev.
  now rewrite list_of_app, List.rev_app_distr, string_of_list_app.
Qed.

Lemma rev_rev (s : string) : PyStr.rev (PyStr.rev s) = s.
Proof.
  unfold PyStr.rev.
  now rewrite list_ascii_of_string_of_list_ascii, List.rev_involutive,
    string_of_list_ascii_of_string.
Qed.

Lemma dropwhile_first p s :
  Smi.first_char_ok p s = true -> PyStr.dropwhile p s = s.
Proof.
  destruct s as [|c s]; simpl; [discriminate|].
  intros H. apply negb_true_iff in H. now rewrite H.
Qed.

Lemma strip_with_ends p s :
  Smi.first_char_ok p s = true ->
  Smi.first_char_ok p (PyStr.rev s) = true ->
  PyText.strip_with p s = s.
Proof.
  intros H1 H2. unfold PyText.strip_with.
  rewrite (dropwhile_first p s H1), (dropwhile_first p _ H2).
  apply rev_rev.
Qed.

Lemma first_app p a b :
  Smi.first_char_ok p a = true -> Smi.first_char_ok p (a ++ b) = true.
Proof. destruct a as [|c a]; [discriminate|]. intros H. exact H. Qed.

Lemma last_app p a b :
  Smi.first_char_ok p (PyStr.rev b) = true ->
  Smi.first_char_ok p (PyStr.rev (a ++ b)) = true.
Proof. intros H. rewrite rev_app. now apply first_app. Qed.

Lemma str_forallb_impl (p q : ascii -> bool) s :
  (forall c, p c = true -> q c = true) ->
  PyStr.forallb p s = true -> PyStr.forallb q s = true.
Proof.
  intros Hpq. induction s as [|c s IH]; simpl; [reflexivity|].
  intros [Hc Hs]%andb_prop. now rewrite (Hpq c Hc), IH.
Qed.

Lemma forallb_rev p s : PyStr.forallb p (PyStr.rev s) = PyStr.forallb p s.
Proof.
  unfold PyStr.rev. rewrite forallb_of_list, list_forallb_rev.
  rewrite <- forallb_of_list. now rewrite string_of_list_ascii_of_string.
Qed.

Lemma rev_nonempty s : s <> EmptyString -> PyStr.rev s <> EmptyString.
Proof.
  intros H E. apply H. rewrite <- (rev_rev s), E. reflexivity.
Qed.

Lemma ends_of_forallb p s :
  s <> EmptyString ->
  PyStr.forallb (fun c => negb (p c)) s = true ->
  Smi.first_char_ok p s = true
  /\ Smi.first_char_ok p (PyStr.rev s) = true.
Proof.
  intros Hne Hall.
  assert (H : forall t, t <> EmptyString ->
                PyStr.forallb (fun c => negb (p c)) t = true ->
                Smi.first_char_ok p t = true).
  { intros [|c t] Ht; [contradiction|]. simpl.
    now intros [Hc _]%andb_prop. }
  split; [now apply H|].
  apply H; [now apply rev_nonempty|]. now rewrite forallb_rev.
Qed.

(** *** Lines and fields *)

Lemma splitlines_line (l rest : string) :
  Smi.no_linebreak l = true ->
  PyText.splitlines (l ++ String PyText.LF rest)
  = l :: PyText.splitlines rest.
Proof.
  induction l as [|c l IH]; intros H.
  - change (EmptyString ++ String PyText.LF rest)%string
      with (String PyText.LF rest).
    destruct rest; reflexivity.
  - change (String c l ++ String PyText.LF rest)%string
      with (String c (l ++ String PyText.LF rest)%string).
    unfold Smi.no_linebreak in H. simpl in H.
    apply andb_prop in H as [Hc Hl]. apply negb_true_iff in Hc.
    cbn [PyText.splitlines]. rewrite Hc, (IH Hl). reflexivity.
Qed.

Lemma splitlines_last (l : string) :
  l <> EmptyString -> Smi.no_linebreak l = true ->
  PyText.splitlines l = [l].
Proof.
  induction l as [|c l IH]; intros Hne H; [contradiction|].
  unfold Smi.no_linebreak in H. simpl in H.
  apply andb_prop in H as [Hc Hl]. apply negb_true_iff in Hc.
  cbn [PyText.splitlines]. rewrite Hc.
  destruct l as [|d l]; [reflexivity|].
  rewrite IH; [reflexivity|discriminate|exact Hl].
Qed.

Lemma split_field (f rest : string) :
  Smi.no_comma f = true ->
  PyText.split "," (f ++ String "," rest) = f :: PyText.split "," rest.
Proof.
  induction f as [|c f IH]; intros H; [reflexivity|].
  change (String c f ++ String "," rest)%string
    with (String c (f ++ String "," rest)%string).
  unfold Smi.no_comma in H. simpl in H.
  apply andb_prop in H as [Hc Hf]. apply negb_true_iff in Hc.
  cbn [PyText.split]. rewrite Hc, (IH Hf). reflexivity.
Qed.

Lemma split_last (f : string) :
  Smi.no_comma f = true -> PyText.split "," f = [f].
Proof.
  induction f as [|c f IH]; intros H; [reflexivity|].
  unfold Smi.no_comma in H. simpl in H.
  apply andb_prop in H as [Hc Hf]. apply negb_true_iff in Hc.
  cbn [PyText.split]. rewrite Hc, (IH Hf). reflexivity.
Qed.

(** *** [int] of the decimal rendering of an [int] *)

Lemma digits_value_digits (l : list ascii) :
  forall acc,
    List.forallb PyStr.is_ascii_digit l = true ->
    PyText.digits_value acc true (string_of_list_ascii l)
    = Some (fold_left Smi.shift_digit l acc).
Proof.
  induction l as [|c l IH]; intros acc H; simpl; [reflexivity|].
  simpl in H. apply andb_prop in H as [Hc Hl].
  rewrite Hc. now apply IH.
Qed.

Lemma digits_value_number (l : list ascii) (b : bool) :
  l <> [] ->
  List.forallb PyStr.is_ascii_digit l = true ->
  PyText.digits_value 0 b (string_of_list_ascii l)
  = Some (fold_left Smi.shift_digit l 0).
Proof.
  destruct l as [|c l]; [contradiction|]. intros _ H. simpl in *.
  apply andb_prop in H as [Hc Hl]. rewrite Hc.
  now apply digits_value_digits.
Qed.

Lemma digit_of_N (n : N) :
  (n < 10)%N ->
  PyStr.is_ascii_digit (ascii_of_N (48 + n)) = true
  /\ PyText.digit_value (ascii_of_N (48 + n)) = Z.of_N n.
Proof.
  intros H.
  unfold PyStr.is_ascii_digit, PyStr.in_range, PyText.digit_value, PyStr.code.
  rewrite N_ascii_embedding by lia. split; [|lia].
  apply andb_true_intro. split; apply N.leb_le; lia.
Qed.

Lemma digits_rev_digits fuel : forall n,
  List.forallb PyStr.is_ascii_digit (PyStr.digits_rev fuel n) = true.
Proof.
  induction fuel as [|k IH]; intros n; simpl; [reflexivity|].
  destruct (digit_of_N (n mod 10)) as [Hd _];
    [apply N.mod_lt; discriminate|].
  destruct (n <? 10)%N; simpl; rewrite Hd; simpl; auto.
Qed.

Lemma digits_rev_nonempty k n : PyStr.digits_rev (S k) n <> [].
Proof. simpl. destruct (n <? 10)%N; discriminate. Qed.

Lemma digits_rev_length fuel : forall n,
  (length (PyStr.digits_rev fuel n) <= fuel)%nat.
Proof.
  induction fuel as [|k IH]; intros n; simpl; [lia|].
  destruct (n <? 10)%N; simpl; [lia|]. specialize (IH (n / 10)%N). lia.
Qed.

Lemma digits_rev_value fuel : forall n,
  (n < 2 ^ N.of_nat fuel)%N ->
  fold_right (fun c a => Smi.shift_digit a c) 0 (PyStr.digits_rev fuel n)
  = Z.of_N n.
Proof.
  induction fuel as [|k IH]; intros n Hn.
  - simpl in *. change (2 ^ 0)%N with 1%N in Hn. lia.
  - cbn [PyStr.digits_rev].
    destruct (digit_of_N (n mod 10)) as [_ Hd];
      [apply N.mod_lt; discriminate|].
    destruct (n <? 10)%N eqn:Hlt; cbn [fold_right]; unfold Smi.shift_digit at 1;
      rewrite Hd.
    + apply N.ltb_lt in Hlt. rewrite N.mod_small by exact Hlt. lia.
    + rewrite IH.
      * pose proof (N.div_mod n 10 ltac:(discriminate)) as Hdm.
        rewrite N2Z.inj_div, N2Z.inj_mod. change (Z.of_N 10) with 10.
        pose proof (Z.div_mod (Z.of_N n) 10 ltac:(lia)). lia.
      * rewrite Nat2N.inj_succ, N.pow_succ_r' in Hn.
        apply N.Div0.div_lt_upper_bound.
        generalize dependent (2 ^ N.of_nat k)%N. intros; lia.
Qed.

Lemma of_N_fuel (n : N) :
  (n < 2 ^ N.of_nat (S (N.to_nat (N.log2 n))))%N.
Proof.
  rewrite Nat2N.inj_succ, N2Nat.id.
  destruct n as [|p]; [reflexivity|].
  apply N.log2_spec. reflexivity.
Qed.

Lemma of_N_value (n : N) (b : bool) :
  PyText.digits_value 0 b (PyStr.of_N n) = Some (Z.of_N n).
Proof.
  unfold PyStr.of_N.
  rewrite digits_value_number.
  - f_equal.
    rewrite <- (digits_rev_value _ n (of_N_fuel n)).
    rewrite <- (List.rev_involutive (PyStr.digits_rev _ n)) at 2.
    rewrite List.fold_left_rev_right. reflexivity.
  - intros E. apply (f_equal (@List.rev ascii)) in E.
    rewrite List.rev_involutive in E. simpl in E.
    now apply digits_rev_nonempty in E.
  - rewrite list_forallb_rev. apply digits_rev_digits.
Qed.

Lemma length_of_list (l : list ascii) :
  String.length (string_of_list_ascii l) = length l.
Proof. induction l as [|c l IH]; simpl; [reflexivity|now rewrite IH]. Qed.

Lemma length_filter_le p s :
  (String.length (PyStr.filter p s) <= String.length s)%nat.
Proof.
  induction s as [|c s IH]; simpl; [lia|].
  destruct (p c); simpl; lia.
Qed.

Lemma of_N_digits (n : N) :
  (String.length (PyStr.filter PyStr.is_ascii_digit (PyStr.of_N n))
   <= S (N.to_nat (N.log2 n)))%nat.
Proof.
  etransitivity; [apply length_filter_le|].
  unfold PyStr.of_N. rewrite length_of_list, List.length_rev.
  apply digits_rev_length.
Qed.

Lemma of_N_head (n : N) :
  exists c r, PyStr.of_N n = String c r /\ PyStr.is_ascii_digit c = true.
Proof.
  assert (H : PyStr.forallb PyStr.is_ascii_digit (PyStr.of_N n) = true).
  { unfold PyStr.of_N. rewrite forallb_of_list, list_forallb_rev.
    apply digits_rev_digits. }
  pose proof (of_N_value n false) as Hv.
  destruct (PyStr.of_N n) as [|c r]; [discriminate Hv|].
  simpl in H. apply andb_prop in H as [Hc _]. eauto.
Qed.

Lemma num_char_no_space c :
  JobRunner.num_char c = true -> negb (PyText.int_space c) = true.
Proof.
  destruct c as [[] [] [] [] [] [] [] []]; vm_compute; congruence.
Qed.

Lemma of_Z_nonempty z : PyStr.of_Z z <> EmptyString.
Proof.
  destruct z as [|p|p]; try discriminate.
  change (PyStr.of_Z (Z.pos p)) with (PyStr.of_N (N.pos p)).
  destruct (of_N_head (N.pos p)) as (c & r & E & _).
  rewrite E. discriminate.
Qed.

Lemma log2_bound (p : positive) :
  Z.pos p < 2 ^ 4300 -> (S (N.to_nat (N.log2 (N.pos p))) <= 4300)%nat.
Proof.
  intros H.
  assert (Hn : (N.pos p < 2 ^ 4300)%N).
  { apply N2Z.inj_lt. rewrite N2Z.inj_pow. exact H. }
  apply N.log2_lt_pow2 in Hn; [|reflexivity].
  generalize dependent (N.log2 (N.pos p)). intros; lia.
Qed.

Lemma limit_ok (n : nat) :
  (n <= 4300)%nat -> (PyText.max_str_digits <? n)%nat = false.
Proof. intros H. apply Nat.ltb_ge. exact H. Qed.

Lemma int_of_Z (z : Z) :
  Z.abs z < 2 ^ 4300 -> PyText.int (PyStr.of_Z z) = Some z.
Proof.
  intros Hz. unfold PyText.int.
  destruct (ends_of_forallb PyText.int_space (PyStr.of_Z z)
              (of_Z_nonempty z)) as [H1 H2].
  { eapply str_forallb_impl; [|apply of_Z_num]. apply num_char_no_space. }
  rewrite (strip_with_ends _ _ H1 H2).
  destruct z as [|p|p].
  - reflexivity.
  - change (PyStr.of_Z (Z.pos p)) with (PyStr.of_N (N.pos p)).
    destruct (of_N_head (N.pos p)) as (c & r & E & Hc).
    pose proof (of_N_value (N.pos p) false) as Hv.
    pose proof (of_N_digits (N.pos p)) as Hd.
    rewrite E in *.
    assert (Hb : (match String c r with
                  | String "-" r0 => (true, r0)
                  | String "+" r0 => (false, r0)
                  | _ => (false, String c r)
                  end) = (false, String c r)).
    { clear -Hc. destruct c as [[] [] [] [] [] [] [] []];
        try discriminate Hc; reflexivity. }
    rewrite Hb, Hv. rewrite limit_ok; [reflexivity|].
    etransitivity; [exact Hd|]. apply log2_bound. exact Hz.
  - change (PyStr.of_Z (Z.neg p)) with (String "-" (PyStr.of_N (N.pos p))).
    cbv iota beta.
    rewrite (of_N_value (N.pos p) false).
    rewrite limit_ok; [reflexivity|].
    etransitivity; [apply of_N_digits|]. apply log2_bound. exact Hz.
Qed.

(** *** A line of the output *)

Lemma num_char_no_isspace c :
  JobRunner.num_char c = true -> negb (PyStr.isspace c) = true.
Proof.
  destruct c as [[] [] [] [] [] [] [] []]; vm_compute; congruence.
Qed.

Lemma num_char_plain c :
  JobRunner.num_char c = true -> Smi.plain_char c = true.
Proof.
  destruct c as [[] [] [] [] [] [] [] []]; vm_compute; congruence.
Qed.

Lemma strip_clean (f : string) :
  Smi.first_char_ok PyStr.isspace f = true ->
  Smi.first_char_ok PyStr.isspace (PyStr.rev f) = true ->
  PyStr.strip f = f.
Proof. apply strip_with_ends. Qed.

Lemma strip_blank (f : string) :
  Smi.first_char_ok PyStr.isspace f = true ->
  Smi.first_char_ok PyStr.isspace (PyStr.rev f) = true ->
  PyStr.strip (String " " f) = f.
Proof.
  intros H1 H2. unfold PyStr.strip.
  change (PyStr.dropwhile PyStr.isspace (String " " f))
    with (PyStr.dropwhile PyStr.isspace f).
  now apply strip_with_ends.
Qed.

Lemma strip_line_end (body : string) :
  Smi.first_char_ok PyStr.isspace body = true ->
  Smi.first_char_ok PyStr.isspace (PyStr.rev body) = true ->
  PyStr.strip (body ++ String PyText.LF EmptyString) = body.
Proof.
  intros H1 H2. unfold PyStr.strip.
  rewrite (dropwhile_first _ _ (first_app _ _ _ H1)).
  rewrite rev_app.
  change (PyStr.rev (String PyText.LF EmptyString))
    with (String PyText.LF EmptyString).
  change (PyStr.dropwhile PyStr.isspace
            (String PyText.LF EmptyString ++ PyStr.rev body))
    with (PyStr.dropwhile PyStr.isspace (PyStr.rev body)).
  rewrite (dropwhile_first _ _ H2). apply rev_rev.
Qed.

Lemma field_facts (f : string) :
  Smi.field_ok f = true ->
  Smi.no_comma f = true /\ Smi.no_linebreak f = true
  /\ Smi.first_char_ok PyStr.isspace f = true
  /\ Smi.first_char_ok PyStr.isspace (PyStr.rev f) = true.
Proof.
  unfold Smi.field_ok. intros H.
  apply andb_prop in H as [H H3]. apply andb_prop in H as [H1 H2].
  repeat split; try assumption.
  - eapply str_forallb_impl; [|exact H1].
    intros c Hc. unfold Smi.plain_char in Hc.
    now apply andb_prop in Hc as [Hc _].
  - eapply str_forallb_impl; [|exact H1].
    intros c Hc. unfold Smi.plain_char in Hc.
    now apply andb_prop in Hc as [_ Hc].
Qed.

Lemma number_facts (z : Z) :
  Smi.no_comma (PyStr.of_Z z) = true
  /\ Smi.no_linebreak (PyStr.of_Z z) = true
  /\ Smi.first_char_ok PyStr.isspace (PyStr.of_Z z) = true
  /\ Smi.first_char_ok PyStr.isspace (PyStr.rev (PyStr.of_Z z)) = true.
Proof.
  assert (Hp : PyStr.forallb Smi.plain_char (PyStr.of_Z z) = true).
  { eapply str_forallb_impl; [|apply of_Z_num]. apply num_char_plain. }
  split; [|split].
  - eapply str_forallb_impl; [|exact Hp].
    intros c Hc. unfold Smi.plain_char in Hc.
    now apply andb_prop in Hc as [Hc _].
  - eapply str_forallb_impl; [|exact Hp].
    intros c Hc. unfold Smi.plain_char in Hc.
    now apply andb_prop in Hc as [_ Hc].
  - apply ends_of_forallb; [apply of_Z_nonempty|].
    eapply str_forallb_impl; [|apply of_Z_num]. apply num_char_no_isspace.
Qed.

Lemma row_facts (r : Smi.Row) :
  Smi.row_ok r = true ->
  Smi.field_ok (Smi.row_uuid r) = true
  /\ Smi.field_ok (Smi.row_name r) = true
  /\ Smi.field_ok (Smi.row_driver r) = true
  /\ Z.abs (Smi.row_mem r) < 2 ^ 4300.
Proof.
  unfold Smi.row_ok. intros H.
  apply andb_prop in H as [H H4]. apply andb_prop in H as [H H3].
  apply andb_prop in H as [H1 H2].
  repeat split; try assumption. now apply Z.ltb_lt.
Qed.

Lemma csv_line_parts (r : Smi.Row) :
  Smi.csv_line r
  = (Smi.row_uuid r
     ++ String "," (String " " (Smi.row_name r)
     ++ String "," (String " " (PyStr.of_Z (Smi.row_mem r))
     ++ String "," (String " " (Smi.row_driver r)))))%string.
Proof. reflexivity. Qed.

Lemma no_comma_blank f :
  Smi.no_comma f = true -> Smi.no_comma (String " " f) = true.
Proof. intros H. exact H. Qed.

Lemma parse_csv_line (r : Smi.Row) :
  Smi.row_ok r = true ->
  parse_line (Smi.csv_line r) = Smi.gpu_of_row r.
Proof.
  intros Hr. destruct (row_facts r Hr) as (Hu & Hn & Hd & Hm).
  destruct (field_facts _ Hu) as (Hu1 & _ & Hu3 & Hu4).
  destruct (field_facts _ Hn) as (Hn1 & _ & Hn3 & Hn4).
  destruct (field_facts _ Hd) as (Hd1 & _ & Hd3 & Hd4).
  destruct (number_facts (Smi.row_mem r)) as (Hm1 & _ & Hm3 & Hm4).
  unfold parse_line. rewrite csv_line_parts.
  rewrite (split_field _ _ Hu1).
  rewrite (split_field _ _ (no_comma_blank _ Hn1)).
  rewrite (split_field _ _ (no_comma_blank _ Hm1)).
  rewrite (split_last _ (no_comma_blank _ Hd1)).
  cbn [List.map].
  rewrite (strip_clean _ Hu3 Hu4), (strip_blank _ Hn3 Hn4),
    (strip_blank _ Hm3 Hm4), (strip_blank _ Hd3 Hd4).
  unfold smi_gpu. rewrite (int_of_Z _ Hm). reflexivity.
Qed.

Lemma csv_line_facts (r : Smi.Row) :
  Smi.row_ok r = true ->
  Smi.no_linebreak (Smi.csv_line r) = true
  /\ Smi.first_char_ok PyStr.isspace (Smi.csv_line r) = true
  /\ Smi.first_char_ok PyStr.isspace (PyStr.rev (Smi.csv_line r)) = true.
Proof.
  intros Hr. destruct (row_facts r Hr) as (Hu & Hn & Hd & Hm).
  destruct (field_facts _ Hu) as (_ & Hu2 & Hu3 & _).
  destruct (field_facts _ Hn) as (_ & Hn2 & _ & _).
  destruct (field_facts _ Hd) as (_ & Hd2 & _ & Hd4).
  destruct (number_facts (Smi.row_mem r)) as (_ & Hm2 & _ & _).
  unfold Smi.csv_line. split; [|split].
  - unfold Smi.no_linebreak in *. rewrite !str_forallb_app.
    rewrite Hu2, Hn2, Hm2, Hd2. reflexivity.
  - now apply first_app.
  - do 6 apply last_app. exact Hd4.
Qed.

Lemma str_app_assoc (a b c : string) :
  ((a ++ b) ++ c)%string = (a ++ (b ++ c))%string.
Proof.
  induction a as [|x a IH]; [reflexivity|].
  change ((String x a ++ b) ++ c)%string
    with (String x ((a ++ b) ++ c)%string).
  now rewrite IH.
Qed.

Lemma first_ok_nonempty p s :
  Smi.first_char_ok p s = true -> s <> EmptyString.
Proof. destruct s; [discriminate|discriminate]. Qed.

Lemma csv_body (r : Smi.Row) (rows : list Smi.Row) :
  Forall (fun r => Smi.row_ok r = true) (r :: rows) ->
  exists body,
    Smi.csv (r :: rows) = (body ++ String PyText.LF EmptyString)%string
    /\ Smi.first_char_ok PyStr.isspace body = true
    /\ Smi.first_char_ok PyStr.isspace (PyStr.rev body) = true
    /\ PyText.splitlines body = List.map Smi.csv_line (r :: rows).
Proof.
  revert r. induction rows as [|r2 rows IH]; intros r Hok.
  - inversion Hok as [|? ? Hr _]; subst.
    destruct (csv_line_facts r Hr) as (H1 & H2 & H3).
    exists (Smi.csv_line r). repeat split; try assumption.
    apply splitlines_last; [|exact H1]. now apply (first_ok_nonempty _ _ H2).
  - inversion Hok as [|? ? Hr Hrest]; subst.
    destruct (csv_line_facts r Hr) as (H1 & H2 & H3).
    destruct (IH r2 Hrest) as (body & E & B1 & B2 & B3).
    exists (Smi.csv_line r ++ String PyText.LF body)%string.
    split; [|split; [|split]].
    + change (Smi.csv (r :: r2 :: rows))
        with (Smi.csv_line r ++ String PyText.LF (Smi.csv (r2 :: rows)))%string.
      rewrite E, str_app_assoc. reflexivity.
    + now apply first_app.
    + apply last_app.
      change (String PyText.LF body)
        with (String PyText.LF EmptyString ++ body)%string.
      now apply last_app.
    + rewrite (splitlines_line _ _ H1), B3. reflexivity.
Qed.

Lemma collect_map {A B C} (f : B -> Exn + option C) (g : A -> B)
    (h : A -> Exn + option C) (l : list A) :
  Forall (fun x => f (g x) = h x) l ->
  collect f (List.map g l) = collect h l.
Proof.
  induction 1 as [|x l Hx _ IH]; simpl; [reflexivity|].
  now rewrite Hx, IH.
Qed.

Lemma smi_reads_csv (rows : list Smi.Row) (stderr : string) :
  Forall (fun r => Smi.row_ok r = true) rows ->
  _discover_via_nvidiasmi (SmiExit 0 (Smi.csv rows) stderr)
  = collect Smi.gpu_of_row rows.
Proof.
  intros Hok. cbn [_discover_via_nvidiasmi Z.eqb negb].
  destruct rows as [|r rows]; [reflexivity|].
  destruct (csv_body r rows Hok) as (body & E & B1 & B2 & B3).
  rewrite E, (strip_line_end _ B1 B2), B3.
  apply collect_map.
  eapply List.Forall_impl; [|exact Hok].
  intros x Hx. now apply parse_csv_line.
Qed.

Lemma collect_rows (rows : list Smi.Row) :
  forall gpus,
    collect Smi.gpu_of_row rows = inr gpus ->
    Forall2 (fun r g =>
               uuid g = Smi.row_uuid r
               /\ name g = Smi.row_name r
               /\ total_memory_mb g = Smi.row_mem r
               /\ driver_version g = Smi.row_driver r
               /\ cuda_version g = None
               /\ pcie_link_gen g = 4 /\ pcie_link_width g = 16
               /\ gb_of (Smi.row_mem r) 1024 = inr (vram_gb g))
      rows gpus.
Proof.
  induction rows as [|r rows IH]; intros gpus; simpl.
  - intros [= <-]. constructor.
  - unfold Smi.gpu_of_row at 1, smi_gpu_of.
    destruct (gb_of (Smi.row_mem r) 1024) as [e|vram] eqn:Eg; [discriminate|].
    destruct (collect Smi.gpu_of_row rows) as [e|gs]; [discriminate|].
    intros [= <-]. constructor; [|now apply IH].
    simpl. repeat split; try reflexivity. exact Eg.
Qed.

(** X28: The output of [nvidia-smi] is read back as it was printed: for rows
    whose fields have no comma, no line break and no white space at
    their ends, the discovery makes one entry for each line, in the order
    of the lines, with the UUID, the name, the memory and the driver of
    the line, no CUDA version, a PCIe link of generation 4 and width 16,
    and the memory in GB as the quotient by 1024 rounded to one place.
    It fails only where that quotient is beyond the range of a float. *)
Theorem smi_output_read_back (rows : list Smi.Row) (stderr : string) :
  Forall (fun r => Smi.row_ok r = true) rows ->
  _discover_via_nvidiasmi (SmiExit 0 (Smi.csv rows) stderr)
  = collect Smi.gpu_of_row rows
  /\ forall gpus,
       _discover_via_nvidiasmi (SmiExit 0 (Smi.csv rows) stderr) = inr gpus ->
       Forall2 (fun r g =>
                  uuid g = Smi.row_uuid r
                  /\ name g = Smi.row_name r
                  /\ total_memory_mb g = Smi.row_mem r
                  /\ driver_version g = Smi.row_driver r
                  /\ cuda_version g = None
                  /\ pcie_link_gen g = 4 /\ pcie_link_width g = 16
                  /\ gb_of (Smi.row_mem r) 1024 = inr (vram_gb g))
         rows gpus.
Proof.
  intros Hok. rewrite (smi_reads_csv rows stderr Hok).
  split; [reflexivity|]. apply collect_rows.
Qed.

Lemma smi_output_read_back_witness :
  exists gpus,
    _discover_via_nvidiasmi (SmiExit 0 (Smi.csv Inputs3.two_rows) "")
    = inr gpus
    /\ List.map total_memory_mb gpus = [24564; 81920].
Proof.
  assert (Hok : Forall (fun r => Smi.row_ok r = true) Inputs3.two_rows)
    by (repeat constructor).
  destruct (smi_output_read_back Inputs3.two_rows "" Hok) as [H _].
  rewrite H. eexists. split; vm_compute; reflexivity.
Defined.

End SmiOutput.

(** ** The report of a thread *)

Section Report.

Import JobRunner Agent.

Lemma returned_job_id (r : JobRunner) (w : Env) (res : Result) :
  returned (run r w) = inr res -> r_job_id res = job_id (manifest r).
Proof.
  intros Hret.
  destruct (run_cases r w) as [(t0 & e & _ & Hrun)|
                               (ref & en & _ & _ & _ & _ & _ & Hres)].
  { rewrite Hrun in Hret. discriminate Hret. }
  destruct (run_in_workdir_trace r w ref en)
    as (dl & up & _ & _ & _ & _ & Hok & Hex).
  destruct (snd (_run_container (manifest r) (env_workdir w ++ "/input")
                   (env_workdir w ++ "/output") ref (env_container w)))
    as [ex|[code logs]] eqn:Hc.
  - destruct (Hex ex eq_refl) as [_ H]. congruence.
  - destruct (Hok code logs eq_refl) as [_ Hr].
    assert (E : inr res = inr {| r_job_id := job_id (manifest r);
                       r_status := if code =? 0 then "COMPLETE" else "FAILED";
                       r_exit_code := code;
                       r_energy_kwh := energy_kwh_of en;
                       r_logs := PyStr.last 5000 logs |} :> Exn + Result)
      by congruence.
    injection E as ->. reflexivity.
Qed.

(** X29: When the run of a job returns, its thread ends with one completion
    request, sent after everything the run did, which carries the id of
    the job and the status and energy of the result; then the job, and
    no other, leaves the active map. *)
Theorem completion_reported_last (a : ProviderAgent) (m : JobManifest)
    (w : Env) (res : Result) :
  returned (run (Agent.runner_of a m) w) = inr res ->
  fst (fst (run_and_report a m w))
  = main_trace (run (Agent.runner_of a m) w)
    ++ [EvPatch (job_id m) (r_status res) (r_energy_kwh res)]
  /\ count_events is_patch (fst (fst (run_and_report a m w))) = 1%nat
  /\ _active_jobs (snd (run_and_report a m w))
     = delete (job_id m) (_active_jobs a).
Proof.
  intros H. pose proof (returned_job_id _ _ _ H) as Hid.
  unfold run_and_report. rewrite H. cbn [fst snd]. rewrite Hid.
  split; [reflexivity|]. split; [|reflexivity].
  rewrite count_events_app, run_no_patch. reflexivity.
Qed.

Lemma completion_reported_last_witness :
  count_events is_patch
    (fst (fst (run_and_report (Inputs.agent_polling_every 15)
                 Inputs.short_manifest (Inputs.env_with TimeoutExpired))))
  = 1%nat.
Proof.
  refine (proj1 (proj2 (completion_reported_last
            (Inputs.agent_polling_every 15) Inputs.short_manifest
            (Inputs.env_with TimeoutExpired) _ _))).
  vm_compute. reflexivity.
Defined.

End Report.

(** ** The container that is killed *)

Section Kills.

Import JobRunner.

Lemma watchdog_kill_name (m : JobManifest) (ticks : list WdTick)
    (name : string) :
  forall c,
    In (EvDockerKill name) (fst (_watchdog_loop m c ticks)) ->
    name = container_name m.
Proof.
  induction ticks as [|t ticks IH]; intros c; simpl; [intros []|].
  destruct (Telemetry._build_payload c (wd_sample t)) as [payload c1].
  destruct (Telemetry.kill_job_of (wd_send t)).
  - simpl. intros [H|[H|[]]]; [discriminate H|]. now injection H as <-.
  - specialize (IH c1). destruct (_watchdog_loop m c1 ticks) as [tr c2].
    simpl in *. intros [H|H]; [discriminate H|]. now apply IH.
Qed.

Lemma run_container_kill (m : JobManifest) (i o ref : string)
    (oc : ContainerOutcome) (name : string) :
  In (EvDockerKill name) (fst (_run_container m i o ref oc)) ->
  name = container_name m /\ oc = TimeoutExpired.
Proof.
  unfold _run_container, int_of_float.
  destruct (PyFloat.to_Z (duration_product m)).
  2:{ destruct (duration_product m); simpl; intros []. }
  destruct (PyFloat.to_Z (ram_product m)).
  2:{ destruct (ram_product m); simpl; intros []. }
  destruct oc; simpl.
  - intros [H|[]]. discriminate H.
  - intros [H|[H|[]]]; [discriminate H|]. injection H as <-. auto.
  - intros [H|[]]. discriminate H.
Qed.

Lemma workdir_events (r : JobRunner) (w : Env) (ref : string)
    (e : PyFloat.float) (ev : Event) :
  Obs.is_kill ev = true \/ is_docker_run ev = true ->
  In ev (fst (run_in_workdir r w ref e)) ->
  In ev (fst (_run_container (manifest r) (env_workdir w ++ "/input")
                (env_workdir w ++ "/output") ref (env_container w))).
Proof.
  intros Hev. unfold run_in_workdir.
  destruct (_run_container (manifest r) (env_workdir w ++ "/input")
              (env_workdir w ++ "/output") ref (env_container w))
    as [tc [ex|[code logs]]].
  - destruct (input_data_url (manifest r)) as [[|ch u]|]; simpl;
      rewrite ?app_nil_r; intros H;
      repeat (destruct H as [<-|H];
              [destruct Hev as [Hev|Hev]; discriminate Hev|]);
      exact H.
  - destruct (input_data_url (manifest r)) as [[|ch u]|]; simpl;
      destruct (code =? 0); simpl; rewrite ?app_nil_r; intros H;
      repeat (destruct H as [<-|H];
              [destruct Hev as [Hev|Hev]; discriminate Hev|]);
      try exact H;
      (apply in_app_iff in H as [H|H]; [exact H|]);
      repeat (destruct H as [<-|H];
              [destruct Hev as [Hev|Hev]; discriminate Hev|]);
      destruct H.
Qed.

Lemma main_events (r : JobRunner) (w : Env) (ev : Event) :
  Obs.is_kill ev = true \/ is_docker_run ev = true ->
  In ev (main_trace (run r w)) ->
  exists ref,
    In ev (fst (_run_container (manifest r) (env_workdir w ++ "/input")
                  (env_workdir w ++ "/output") ref (env_container w))).
Proof.
  intros Hev Hin.
  destruct (run_cases r w) as [(t0 & e & Hp & Hrun)|
                               (ref & en & _ & _ & _ & Hmain & _ & _)].
  - exfalso. rewrite Hrun in Hin. simpl in Hin.
    destruct (pull_trace_shape (manifest r) w) as [H|H];
      rewrite Hp in H; simpl in H; subst t0.
    + destruct Hin.
    + destruct Hin as [<-|[]]. destruct Hev as [Hev|Hev]; discriminate Hev.
  - exists ref. apply (workdir_events r w ref en ev Hev).
    rewrite Hmain in Hin. rewrite !in_app_iff in Hin. simpl in Hin.
    destruct Hin as [[<-|[<-|[]]]|[H|[<-|[]]]];
      try (destruct Hev as [Hev|Hev]; discriminate Hev).
    exact H.
Qed.

(** X30: Whatever is killed is the container that was started: every
    kill a run issues, from its watchdog or after a timeout, names the
    container of the job, which is the name the engine is given with
    [--name] when the container is started; the calling thread itself
    kills only after a timeout of the container call. *)
Theorem kills_name_the_started_container (r : JobRunner) (w : Env)
    (name : string) :
  In (EvDockerKill name) (main_trace (run r w) ++ watchdog_trace (run r w)) ->
  name = container_name (manifest r)
  /\ (forall cmd t,
        In (EvDockerRun cmd t) (main_trace (run r w)) ->
        Spec.follows cmd "--name" name)
  /\ (In (EvDockerKill name) (main_trace (run r w)) ->
      env_container w = TimeoutExpired).
Proof.
  intros Hin.
  assert (Hmain : In (EvDockerKill name) (main_trace (run r w)) ->
                  name = container_name (manifest r)
                  /\ env_container w = TimeoutExpired).
  { intros H.
    destruct (main_events r w (EvDockerKill name) (or_introl eq_refl) H)
      as [ref Hc].
    now apply run_container_kill in Hc. }
  assert (Hname : name = container_name (manifest r)).
  { apply in_app_iff in Hin as [H|H]; [now apply Hmain|].
    destruct (run_cases r w) as [(t0 & e & _ & Hrun)|
                                 (ref & en & _ & _ & _ & _ & Hwd & _)].
    - rewrite Hrun in H. destruct H.
    - rewrite Hwd in H. now apply watchdog_kill_name in H. }
  split; [exact Hname|]. split; [|intros H; now apply Hmain].
  intros cmd t Hrun.
  destruct (main_events r w (EvDockerRun cmd t) (or_intror eq_refl) Hrun)
    as [ref Hc].
  destruct (run_container_invokes _ _ _ _ _ _ _ Hc) as (bytes & _ & _ & ->).
  rewrite docker_cmd_options, Hname.
  exists ["docker"; "run"; "--rm"]%string. eexists. reflexivity.
Qed.

Lemma kills_name_the_started_container_witness :
  "gp4u-j1"%string = container_name Inputs.short_manifest.
Proof.
  refine (proj1 (kills_name_the_started_container
                   (Inputs.runner_of Inputs.short_manifest)
                   (Inputs.env_with TimeoutExpired) "gp4u-j1" _)).
  vm_compute. do 4 right. left. reflexivity.
Defined.

End Kills.
